(** * Clinical dual-warehouse pipeline: dashboard simulator and synthetic
      data generator

    A shallow embedding of [dashboard_simulator.py] and
    [synthetic_data_generator.py].

    Conventions of the embedding.
    - Python [int] is [Z]; lengths and loop counts are [nat].
    - Latencies are produced by [round(x, 2)], so a latency is kept as the
      integer number of hundredths of a millisecond ([Z]); [100 ms] is
      [10000].  Quantities that Python computes as quotients (means,
      medians, percentages) are exact rationals ([Q]).
    - A Python call either returns or raises: [Py A]. *)

From Stdlib Require Import ZArith QArith Lia Ascii.
From stdpp Require Import base decidable option numbers list sorting strings.

Local Open Scope Z_scope.

(** ** Python results *)

Inductive PyExn :=
| IndexError
| ZeroDivisionError
| StatisticsError
| KeyError (key : string)
| ValueError (msg : string)
| AttributeError (msg : string)
| DatabaseError (msg : string).

Inductive Py (A : Type) :=
| Ret (a : A)
| Raise (e : PyExn).
Arguments Ret {A} a.
Arguments Raise {A} e.

Definition py_bind {A B} (m : Py A) (k : A -> Py B) : Py B :=
  match m with
  | Ret a => k a
  | Raise e => Raise e
  end.

#[global] Instance Py_ret : MRet Py := @Ret.
#[global] Instance Py_bind : MBind Py := fun A B k m => py_bind m k.

Definition returns {A} (m : Py A) : Prop := exists a, m = Ret a.

(** [repr(s)] of a string of code points below 256: the string in single
    quotes, or in double quotes when it holds a single and no double quote;
    the quote in use and the backslash are escaped, tab, newline and
    carriage return are written with their letter, and the other
    non-printable code points as [\xNN]. *)
Definition single_quote : ascii := "039"%char.
Definition double_quote : ascii := "034"%char.
Definition backslash : ascii := "092"%char.

Definition repr_hex (d : nat) : ascii :=
  default "0"%char (String.list_ascii_of_string "0123456789abcdef" !! d).

Definition printable (n : nat) : bool :=
  negb ((n <? 32) || (n =? 127) || ((128 <=? n) && (n <=? 160)) || (n =? 173))%nat.

Definition repr_char (quote c : ascii) : string :=
  let n := nat_of_ascii c in
  if decide (c = quote \/ c = backslash) then String backslash (String c "")
  else if decide (n = 9%nat) then String backslash "t"
  else if decide (n = 10%nat) then String backslash "n"
  else if decide (n = 13%nat) then String backslash "r"
  else if printable n then String c ""
  else String backslash
         (String "x" (String (repr_hex (n / 16)) (String (repr_hex (n mod 16)) ""))).

Fixpoint repr_chars (quote : ascii) (s : string) : string :=
  match s with
  | EmptyString => EmptyString
  | String c s' => repr_char quote c +:+ repr_chars quote s'
  end.

Definition py_repr (s : string) : string :=
  let cs := String.list_ascii_of_string s in
  let quote :=
    if decide (single_quote ∈ cs /\ double_quote ∉ cs)
    then double_quote else single_quote in
  String quote (repr_chars quote s) +:+ String quote "".

(** [str(e)] of the exceptions above; [str] of a [KeyError] is the [repr]
    of the missing key. *)
Definition str_exn (e : PyExn) : string :=
  match e with
  | IndexError => "list index out of range"
  | ZeroDivisionError => "division by zero"
  | StatisticsError => "mean requires at least one data point"
  | KeyError key => py_repr key
  | ValueError msg => msg
  | AttributeError msg => msg
  | DatabaseError msg => msg
  end.

(** ** Built-ins used by the reporter *)

(** [sorted(data)] on numbers. *)
Definition sorted (data : list Z) : list Z := merge_sort Z.le data.

(** [l[i]] with Python's negative indices; out of range raises. *)
Definition py_getitem {A} (l : list A) (i : Z) : Py A :=
  let n := Z.of_nat (length l) in
  let j := if decide (i < 0) then n + i else i in
  if decide (0 <= j < n)
  then match l !! Z.to_nat j with
       | Some x => Ret x
       | None => Raise IndexError
       end
  else Raise IndexError.

(** [int(a * b / 100)] for integers [a], [b]: true division, then
    truncation toward zero. *)
Definition int_div100 (a b : Z) : Z := Z.quot (a * b) 100.

(** [DashboardSimulator.percentile] *)
Definition percentile (data : list Z) (percentile : Z) : Py Z :=
  let size := Z.of_nat (length data) in
  py_getitem (sorted data) (int_div100 size percentile).

Definition sum_list (l : list Z) : Z := foldr Z.add 0 l.

(** [statistics.mean] *)
Definition mean (data : list Z) : Py Q :=
  match data with
  | [] => Raise StatisticsError
  | _ => Ret (Qmake (sum_list data) (Pos.of_nat (length data)))
  end.

(** [statistics.median] *)
Definition median (data : list Z) : Py Q :=
  let s := sorted data in
  let n := length s in
  if decide (n = 0%nat) then Raise StatisticsError
  else if Nat.odd n
       then x ← py_getitem s (Z.of_nat (n / 2)); Ret (inject_Z x)
       else let i := (n / 2)%nat in
            a ← py_getitem s (Z.of_nat i - 1);
            b ← py_getitem s (Z.of_nat i);
            Ret (Qmake (a + b) 2).

(** [min(times)] and [max(times)] *)
Definition py_min (data : list Z) : Py Z :=
  match data with
  | [] => Raise (ValueError "min() arg is an empty sequence")
  | x :: l => Ret (foldl Z.min x l)
  end.

Definition py_max (data : list Z) : Py Z :=
  match data with
  | [] => Raise (ValueError "max() arg is an empty sequence")
  | x :: l => Ret (foldl Z.max x l)
  end.

(** [a / b * 100] on Python integers (true division). *)
Definition pct_of (a b : nat) : Py Q :=
  if decide (b = 0%nat) then Raise ZeroDivisionError
  else Ret (Qmake (Z.of_nat a) (Pos.of_nat b) * 100)%Q.

(** ** Query results *)

Record QueryResult := mkQueryResult {
  query_name : string;
  query_id : option string;
  execution_time_ms : Z;          (* hundredths of a millisecond *)
  row_count : nat;
  timestamp : Z;
  success : bool;
  error : option string
}.

(** ** The latency reporter *)

(** The latency target: [t < 100] on a latency [t] in milliseconds. *)
Definition under_target (t : Z) : Prop := t < 10000.

(** [sum(1 for t in times if t < 100)] *)
Definition count_under_100ms (times : list Z) : nat :=
  length (filter under_target times).

(** [pct >= 95] *)
Definition target_met (pct : Q) : bool := Qle_bool 95 pct.

(** [Series.unique()]: distinct values in order of first appearance. *)
Fixpoint unique_from (seen l : list string) : list string :=
  match l with
  | [] => []
  | x :: l' =>
      if decide (x ∈ seen) then unique_from seen l'
      else x :: unique_from (x :: seen) l'
  end.

Definition unique (l : list string) : list string := unique_from [] l.

(** What the reporter prints for one query name. *)
Record QueryMetrics := mkQueryMetrics {
  qm_name : string;
  qm_count : nat;
  qm_mean : Q;
  qm_median : Q;
  qm_min : Z;
  qm_max : Z;
  qm_p95 : Z;
  qm_p99 : Z;
  qm_pct_under_100ms : Q;
  qm_target_met : bool
}.

(** What the reporter prints for the whole run. *)
Record OverallMetrics := mkOverallMetrics {
  ov_mean : Q;
  ov_median : Q;
  ov_p95 : Z;
  ov_p99 : Z;
  ov_pct_under_100ms : Q;
  ov_sla_met : bool
}.

Record Report := mkReport {
  total_executed : nat;
  successful_count : nat;
  successful_pct : Q;
  failed_count : nat;
  metrics : option (list QueryMetrics * OverallMetrics);
  saved_rows : list QueryResult
}.

Inductive ReportOutput :=
| NoQueryResults                (* prints "No query results to analyze" *)
| Analysed (r : Report).

(** [df[df['success'] == True]] *)
Definition successful (df : list QueryResult) : list QueryResult :=
  filter (λ r, success r = true) df.

(** [successful_queries[successful_queries['query_name'] == query_name]
      ['execution_time_ms'].tolist()] *)
Definition times_of (query : string) (successful_queries : list QueryResult)
  : list Z :=
  execution_time_ms <$> filter (λ r, query_name r = query) successful_queries.

(** Body of the loop over query names. *)
Definition query_metrics (successful_queries : list QueryResult)
    (query : string) : Py QueryMetrics :=
  let times := times_of query successful_queries in
  m ← mean times;
  md ← median times;
  lo ← py_min times;
  hi ← py_max times;
  p95 ← percentile times 95;
  p99 ← percentile times 99;
  let under_100ms := count_under_100ms times in
  pct_under_100ms ← pct_of under_100ms (length times);
  Ret (mkQueryMetrics query (length times) m md lo hi p95 p99
         pct_under_100ms (target_met pct_under_100ms)).

(** The overall latency distribution. *)
Definition overall_metrics (successful_queries : list QueryResult)
  : Py OverallMetrics :=
  let all_times := execution_time_ms <$> successful_queries in
  m ← mean all_times;
  md ← median all_times;
  p95 ← percentile all_times 95;
  p99 ← percentile all_times 99;
  under_100ms_pct ← pct_of (count_under_100ms all_times) (length all_times);
  Ret (mkOverallMetrics m md p95 p99 under_100ms_pct
         (target_met under_100ms_pct)).

(** The block under [if len(successful_queries) > 0]. *)
Definition performance_metrics (successful_queries : list QueryResult)
  : Py (option (list QueryMetrics * OverallMetrics)) :=
  if decide (0 < length successful_queries)%nat
  then per ← mapM (query_metrics successful_queries)
                  (unique (query_name <$> successful_queries));
       ov ← overall_metrics successful_queries;
       Ret (Some (per, ov))
  else Ret None.

(** [DashboardSimulator.generate_performance_report], on the contents of
    [self.query_results]. *)
Definition generate_performance_report (query_results : list QueryResult)
  : Py ReportOutput :=
  match query_results with
  | [] => Ret NoQueryResults
  | _ =>
      let df := query_results in
      let successful_queries := successful df in
      spct ← pct_of (length successful_queries) (length df);
      ms ← performance_metrics successful_queries;
      Ret (Analysed (mkReport (length df) (length successful_queries) spct
                       (length df - length successful_queries) ms df))
  end.

(** *** Reading a report *)

(** The latencies of the successful executions of one query name, and of
    all successful executions. *)
Definition successful_times_of (name : string) (rs : list QueryResult)
  : list Z :=
  execution_time_ms <$>
    filter (λ r, query_name r = name /\ success r = true) rs.

Definition successful_times (rs : list QueryResult) : list Z :=
  execution_time_ms <$> filter (λ r, success r = true) rs.

(** [qm] holds the statistics of the sample [ts]. *)
Definition query_stats_over (ts : list Z) (qm : QueryMetrics) : Prop :=
  qm_count qm = length ts /\
  mean ts = Ret (qm_mean qm) /\
  median ts = Ret (qm_median qm) /\
  py_min ts = Ret (qm_min qm) /\
  py_max ts = Ret (qm_max qm) /\
  percentile ts 95 = Ret (qm_p95 qm) /\
  percentile ts 99 = Ret (qm_p99 qm) /\
  pct_of (count_under_100ms ts) (length ts) = Ret (qm_pct_under_100ms qm) /\
  qm_target_met qm = target_met (qm_pct_under_100ms qm).

Definition overall_stats_over (ts : list Z) (ov : OverallMetrics) : Prop :=
  mean ts = Ret (ov_mean ov) /\
  median ts = Ret (ov_median ov) /\
  percentile ts 95 = Ret (ov_p95 ov) /\
  percentile ts 99 = Ret (ov_p99 ov) /\
  pct_of (count_under_100ms ts) (length ts) = Ret (ov_pct_under_100ms ov) /\
  ov_sla_met ov = target_met (ov_pct_under_100ms ov).

(** ** The load generator *)

(** A row of a [DictCursor]: column name and value, as text. *)
Definition Row := list (string * string).
Definition Params := list (string * string).

(** The cursor that [self.connection.cursor(DictCursor)] hands out for one
    query: what [execute] and [fetchall] do with the statement, and the
    [sfqid] attribute.  The connector's [close()] returns a flag and does
    not raise. *)
Record Cursor := mkCursor {
  cur_execute : string -> option Params -> Py unit;
  cur_fetchall : Py (list Row);
  cur_sfqid : string
}.

(** The surroundings of one call of [execute_query]: its cursor, the two
    readings of [time.time()] (microseconds) and [datetime.now()]. *)
Record QueryEnv := mkQueryEnv {
  env_cursor : Cursor;
  env_start_time : Z;
  env_end_time : Z;
  env_now : Z
}.

(** [round] of [n / d], ties to even. *)
Definition round_half_even (n d : Z) : Z :=
  let q := n / d in
  let r := n mod d in
  if decide (2 * r < d) then q
  else if decide (d < 2 * r) then q + 1
  else if Z.even q then q else q + 1.

(** [round((time.time() - start_time) * 1000, 2)], in hundredths of a
    millisecond, from readings in microseconds. *)
Definition elapsed_ms (start_time end_time : Z) : Z :=
  round_half_even (end_time - start_time) 10.

(** [try: body except Exception as e: handler(e)] *)
Definition try_except {A} (body : Py A) (handler : PyExn -> Py A) : Py A :=
  match body with
  | Ret a => Ret a
  | Raise e => handler e
  end.

(** [if params: execute(sql, params) else: execute(sql)]: an empty or
    absent parameter dict is not passed on. *)
Definition passed_params (params : option Params) : option Params :=
  match params with
  | Some (_ :: _) => params
  | _ => None
  end.

(** [DashboardSimulator.execute_query] *)
Definition execute_query (env : QueryEnv) (name query_sql : string)
    (params : option Params) : Py QueryResult :=
  let cursor := env_cursor env in
  let start_time := env_start_time env in
  try_except
    (_ ← cur_execute cursor query_sql (passed_params params);
     results ← cur_fetchall cursor;
     let execution_time_ms := elapsed_ms start_time (env_end_time env) in
     let query_id := cur_sfqid cursor in
     Ret (mkQueryResult name (Some query_id) execution_time_ms
            (length results) (env_now env) true None))
    (λ e,
     let execution_time_ms := elapsed_ms start_time (env_end_time env) in
     Ret (mkQueryResult name None execution_time_ms 0 (env_now env) false
            (Some (str_exn e)))).

(** [self.dashboard_queries]; the SQL texts are kept on one line. *)
Definition dashboard_queries : list (string * string) :=
  [ ("patient_summary",
     "SELECT p.PATIENT_ID, p.FIRST_NAME || ' ' || p.LAST_NAME AS PATIENT_NAME, DATEDIFF('YEAR', p.DATE_OF_BIRTH, CURRENT_DATE()) AS AGE, p.GENDER, COUNT(DISTINCT e.ENCOUNTER_ID) AS TOTAL_ENCOUNTERS, MAX(e.ENCOUNTER_DATE) AS LAST_VISIT_DATE FROM CLINICAL_DB.CURATED.PATIENTS p LEFT JOIN CLINICAL_DB.CURATED.ENCOUNTERS e ON p.PATIENT_ID = e.PATIENT_ID WHERE p.PATIENT_ID = %(patient_id)s GROUP BY 1, 2, 3, 4");
    ("recent_encounters",
     "SELECT e.ENCOUNTER_ID, e.ENCOUNTER_TYPE, e.ENCOUNTER_DATE, e.DIAGNOSIS_DESCRIPTION, e.STATUS FROM CLINICAL_DB.CURATED.ENCOUNTERS e WHERE e.PATIENT_ID = %(patient_id)s ORDER BY e.ENCOUNTER_DATE DESC LIMIT 10");
    ("recent_labs",
     "SELECT l.TEST_DATE, l.TEST_NAME, l.RESULT_VALUE, l.RESULT_UNIT, l.REFERENCE_RANGE, l.ABNORMAL_FLAG FROM CLINICAL_DB.CURATED.LAB_RESULTS l WHERE l.PATIENT_ID = %(patient_id)s ORDER BY l.TEST_DATE DESC LIMIT 20");
    ("ed_census",
     "SELECT DATE_TRUNC('HOUR', e.ENCOUNTER_DATE) AS HOUR, COUNT(*) AS ED_VISITS, COUNT(DISTINCT e.PATIENT_ID) AS UNIQUE_PATIENTS FROM CLINICAL_DB.CURATED.ENCOUNTERS e WHERE e.ENCOUNTER_TYPE = 'EMERGENCY' AND e.ENCOUNTER_DATE >= DATEADD('HOUR', -24, CURRENT_TIMESTAMP()) GROUP BY 1 ORDER BY 1 DESC");
    ("high_risk_alerts",
     "SELECT p.PATIENT_ID, p.FIRST_NAME || ' ' || p.LAST_NAME AS PATIENT_NAME, l.TEST_NAME, l.RESULT_VALUE, l.ABNORMAL_FLAG, DATEDIFF('HOUR', l.TEST_DATE, CURRENT_TIMESTAMP()) AS HOURS_AGO FROM CLINICAL_DB.CURATED.LAB_RESULTS l INNER JOIN CLINICAL_DB.CURATED.PATIENTS p ON l.PATIENT_ID = p.PATIENT_ID WHERE l.ABNORMAL_FLAG = 'CRITICAL' AND l.TEST_DATE >= DATEADD('HOUR', -24, CURRENT_TIMESTAMP()) ORDER BY l.TEST_DATE DESC LIMIT 50") ].

(** [d[key]] on a dict kept as an association list. *)
Fixpoint dict_get (d : list (string * string)) (key : string) : Py string :=
  match d with
  | [] => Raise (KeyError key)
  | (k, v) :: d' => if decide (k = key) then Ret v else dict_get d' key
  end.

(** One simulated dashboard open. *)
Record DashboardLoadResult := mkDashboardLoadResult {
  patient_id : string;
  total_load_time_ms : Z;
  query_results : list QueryResult
}.

(** The three patient-specific queries of a dashboard. *)
Definition patient_queries : list string :=
  ["patient_summary"; "recent_encounters"; "recent_labs"].

(** The [for query_name in ...] loop of [simulate_single_dashboard_load]:
    [envs i] is the surroundings of the [i]-th query of the session. *)
Fixpoint dashboard_loop (envs : nat -> QueryEnv) (pid : string)
    (names : list string) (i : nat) (dashboard_results : list QueryResult)
  : Py (list QueryResult) :=
  match names with
  | [] => Ret dashboard_results
  | name :: names' =>
      query_sql ← dict_get dashboard_queries name;
      result ← execute_query (envs i) name query_sql
                 (Some [("patient_id", pid)]);
      dashboard_loop envs pid names' (S i) (dashboard_results ++ [result])
  end.

(** [DashboardSimulator.simulate_single_dashboard_load];
    [round(total_time, 2)] is the identity on hundredths. *)
Definition simulate_single_dashboard_load (envs : nat -> QueryEnv)
    (pid : string) : Py DashboardLoadResult :=
  dashboard_results ← dashboard_loop envs pid patient_queries 0 [];
  let total_time := sum_list (execution_time_ms <$> dashboard_results) in
  Ret (mkDashboardLoadResult pid total_time dashboard_results).

(** ** Concurrent dashboard loads *)

(** What a run of [simulate_concurrent_dashboards] meets: the PATIENT_ID
    column of the patients table in the order the warehouse returns it, the
    surroundings of every query (by iteration, position in the batch and
    query number), and the order in which [as_completed] yields the futures
    of an iteration. *)
Record LoadEnv := mkLoadEnv {
  patients_table : list string;
  session_envs : nat -> nat -> nat -> QueryEnv;
  as_completed :
    nat -> list (Py DashboardLoadResult) -> list (Py DashboardLoadResult)
}.

(** [as_completed] yields every future once, in some order. *)
Definition fair (env : LoadEnv) : Prop :=
  forall iteration futures, as_completed env iteration futures ≡ₚ futures.

(** [get_sample_patient_ids]: [SELECT PATIENT_ID ... LIMIT count]. *)
Definition get_sample_patient_ids (env : LoadEnv) (count : nat)
  : list string :=
  take count (patients_table env).

(** [l[start:stop]] for [0 <= start <= stop]. *)
Definition py_slice {A} (l : list A) (start stop : nat) : list A :=
  take (stop - start) (drop start l).

(** [for query_result in result['query_results']:
       self.query_results.append(query_result)] *)
Definition store_query_results (self_query_results : list QueryResult)
    (result : DashboardLoadResult) : list QueryResult :=
  foldl (λ acc query_result, acc ++ [query_result]) self_query_results
        (query_results result).

(** The loop over [as_completed(futures)]; [future.result()] re-raises what
    the session raised. *)
Fixpoint collect_completed (futures : list (Py DashboardLoadResult))
    (all_results : list DashboardLoadResult)
    (self_query_results : list QueryResult)
  : Py (list DashboardLoadResult * list QueryResult) :=
  match futures with
  | [] => Ret (all_results, self_query_results)
  | future :: futures' =>
      result ← future;
      collect_completed futures' (all_results ++ [result])
        (store_query_results self_query_results result)
  end.

(** [ThreadPoolExecutor(max_workers=n)] refuses [n <= 0]. *)
Definition thread_pool_executor (max_workers : nat) : Py unit :=
  if decide (max_workers = 0%nat)
  then Raise (ValueError "max_workers must be greater than 0")
  else Ret tt.

(** The futures of one iteration: one session per patient of the batch. *)
Definition submit_all (env : LoadEnv) (iteration : nat)
    (iteration_patients : list string) : list (Py DashboardLoadResult) :=
  imap (λ k pid,
        simulate_single_dashboard_load (session_envs env iteration k) pid)
       iteration_patients.

(** The loop over [range(num_iterations)]. *)
Fixpoint iterate_dashboards (env : LoadEnv) (num_concurrent : nat)
    (patient_ids : list string) (iterations : list nat)
    (all_results : list DashboardLoadResult)
    (self_query_results : list QueryResult)
  : Py (list DashboardLoadResult * list QueryResult) :=
  match iterations with
  | [] => Ret (all_results, self_query_results)
  | iteration :: iterations' =>
      let start_idx := (iteration * num_concurrent)%nat in
      let end_idx := (start_idx + num_concurrent)%nat in
      let iteration_patients := py_slice patient_ids start_idx end_idx in
      _ ← thread_pool_executor num_concurrent;
      let futures := submit_all env iteration iteration_patients in
      st ← collect_completed (as_completed env iteration futures)
             all_results self_query_results;
      iterate_dashboards env num_concurrent patient_ids iterations'
        st.1 st.2
  end.

(** [DashboardSimulator.simulate_concurrent_dashboards] on an open
    connection: returns [all_results] and the new contents of
    [self.query_results]. *)
Definition simulate_concurrent_dashboards (env : LoadEnv)
    (num_concurrent num_iterations : nat)
    (self_query_results : list QueryResult)
  : Py (list DashboardLoadResult * list QueryResult) :=
  let patient_ids :=
    get_sample_patient_ids env (num_concurrent * num_iterations) in
  iterate_dashboards env num_concurrent patient_ids (seq 0 num_iterations)
    [] self_query_results.

(** A session result holds its three query results. *)
Definition well_formed_session (s : DashboardLoadResult) : Prop :=
  length (query_results s) = 3%nat.

(** Every session a run submits, in submission order. *)
Definition submitted_sessions (env : LoadEnv)
    (num_concurrent num_iterations : nat) : list (Py DashboardLoadResult) :=
  let patient_ids :=
    get_sample_patient_ids env (num_concurrent * num_iterations) in
  concat ((λ iteration,
           submit_all env iteration
             (py_slice patient_ids (iteration * num_concurrent)
                (iteration * num_concurrent + num_concurrent)))
          <$> seq 0 num_iterations).

(** The underlying query call of [execute_query]. *)
Definition query_call (cursor : Cursor) (query_sql : string)
    (params : option Params) : Py (list Row) :=
  _ ← cur_execute cursor query_sql (passed_params params);
  cur_fetchall cursor.

(** What the [i]-th result of a session records. *)
Definition records_query (envs : nat -> QueryEnv) (pid : string)
    (i : nat) (name : string) (r : QueryResult) : Prop :=
  exists query_sql,
    dict_get dashboard_queries name = Ret query_sql /\
    query_name r = name /\
    execution_time_ms r
      = elapsed_ms (env_start_time (envs i)) (env_end_time (envs i)) /\
    (success r = false
     <-> exists e, query_call (env_cursor (envs i)) query_sql
                     (Some [("patient_id", pid)]) = Raise e).

(** *** Sample surroundings *)

Definition failing_cursor : Cursor :=
  mkCursor (λ _ _, Raise (DatabaseError "000604: SQL execution canceled"))
           (Ret []) "01b2-q0".

Definition working_cursor : Cursor :=
  mkCursor (λ _ _, Ret tt) (Ret [[("PATIENT_ID", "PAT-0A1B2C3D")]]) "01b2-q1".

(** A query that takes 12.347 ms on the wall clock. *)
Definition failing_env : QueryEnv := mkQueryEnv failing_cursor 1000 13347 77.
Definition working_env : QueryEnv := mkQueryEnv working_cursor 1000 13347 77.

(** The same failing query, while the wall clock is set back by 12.347 ms
    between the two readings of [time.time()]. *)
Definition backward_clock_env : QueryEnv :=
  mkQueryEnv failing_cursor 13347 1000 77.

(** A cursor whose [execute] misses a bind parameter. *)
Definition missing_param_cursor : Cursor :=
  mkCursor (λ _ _, Raise (KeyError "patient_id")) (Ret []) "01b2-q4".

(** A session whose second query fails, and one without failure, with the
    same clock readings. *)
Definition session_envs_failing (i : nat) : QueryEnv :=
  if decide (i = 1%nat) then failing_env else working_env.
Definition session_envs_working (i : nat) : QueryEnv := working_env.

(** A warehouse with three patients; futures complete in reverse order of
    submission. *)
Definition sample_load_env : LoadEnv :=
  mkLoadEnv ["PAT-00000001"; "PAT-00000002"; "PAT-00000003"]
            (λ _ _, session_envs_failing) (λ _, reverse).

(** *** Sample results *)

Definition sample_ok : QueryResult :=
  mkQueryResult "ed_census" (Some "01b2-q1") 4200 3 0 true None.

Definition sample_failed : QueryResult :=
  mkQueryResult "ed_census" None 90000 0 0 false (Some "timeout").

(** Twenty successful samples: nineteen at 50 ms and one at 500 ms. *)
Definition sample_19_of_20 : list QueryResult :=
  replicate 19 (mkQueryResult "recent_labs" (Some "01b2-q2") 5000 20 0 true None)
  ++ [mkQueryResult "recent_labs" (Some "01b2-q3") 50000 20 0 true None].

(** Four executions of one query: one succeeds in 50 ms, three fail after
    200 ms each. *)
Definition sample_1_ok_3_failed : list QueryResult :=
  mkQueryResult "recent_labs" (Some "01b2-q2") 5000 20 0 true None
  :: replicate 3 (mkQueryResult "recent_labs" None 20000 0 0 false
                    (Some "000604: SQL execution canceled")).

(* ================================================================== *)
(** * The synthetic data generator *)

(** ** Sources of randomness and time

    The module seeds three generators with 42: Python's [random], numpy's
    global generator and Faker's.  [uuid.uuid4()] reads the operating
    system's entropy pool and [datetime.now()] the wall clock; neither is
    affected by a seed.  A source is the sequence of raw draws it will
    deliver and the number of draws consumed so far. *)

Record Source := mkSource {
  draws : nat -> Z;
  pos : nat
}.

Definition fresh (seq : nat -> Z) : Source := mkSource seq 0.

Record World := mkWorld {
  py_random : Source;       (* random, after random.seed(42) *)
  np_random : Source;       (* numpy, after np.random.seed(42) *)
  faker : Source;           (* Faker, after Faker.seed(42) *)
  os_urandom : Source;      (* os.urandom, read by uuid.uuid4() *)
  wall_clock : Source       (* datetime.now(), in microseconds *)
}.

(** A computation of the generator: reads and advances the sources; may
    raise. *)
Definition Gen (A : Type) : Type := World -> Py (A * World).

Definition gen_ret {A} (a : A) : Gen A := λ w, Ret (a, w).

Definition gen_bind {A B} (m : Gen A) (k : A -> Gen B) : Gen B :=
  λ w, match m w with
       | Ret (a, w') => k a w'
       | Raise e => Raise e
       end.

Definition gen_raise {A} (e : PyExn) : Gen A := λ _, Raise e.

#[global] Instance Gen_ret : MRet Gen := @gen_ret.
#[global] Instance Gen_bind : MBind Gen := fun A B k m => gen_bind m k.

Definition next (s : Source) : Z * Source :=
  (draws s (pos s), mkSource (draws s) (S (pos s))).

Definition draw_py_random : Gen Z :=
  λ w, let '(x, s) := next (py_random w) in
       Ret (x, mkWorld s (np_random w) (faker w) (os_urandom w) (wall_clock w)).

Definition draw_np_random : Gen Z :=
  λ w, let '(x, s) := next (np_random w) in
       Ret (x, mkWorld (py_random w) s (faker w) (os_urandom w) (wall_clock w)).

Definition draw_faker : Gen Z :=
  λ w, let '(x, s) := next (faker w) in
       Ret (x, mkWorld (py_random w) (np_random w) s (os_urandom w) (wall_clock w)).

Definition draw_os_urandom : Gen Z :=
  λ w, let '(x, s) := next (os_urandom w) in
       Ret (x, mkWorld (py_random w) (np_random w) (faker w) s (wall_clock w)).

(** [datetime.now()] *)
Definition datetime_now : Gen Z :=
  λ w, let '(x, s) := next (wall_clock w) in
       Ret (x, mkWorld (py_random w) (np_random w) (faker w) (os_urandom w) s).

(** ** The [random] module *)

(** [random.random()] in millionths: a value in [0, 1000000). *)
Definition random_unit : Z := 1000000.

Definition random_random : Gen Z :=
  raw ← draw_py_random; mret (raw mod random_unit).

(** [random.randint(a, b)] for [a <= b]. *)
Definition randint (a b : Z) : Gen Z :=
  raw ← draw_py_random; mret (a + raw mod (b - a + 1)).

(** [_randbelow(n)] *)
Definition randbelow (n : nat) : Gen nat :=
  raw ← draw_py_random; mret (Z.to_nat (raw mod Z.of_nat n)).

(** [random.choice(seq)] *)
Definition choice {A} (seq : list A) : Gen A :=
  match seq with
  | [] => gen_raise IndexError
  | _ =>
      j ← randbelow (length seq);
      match seq !! j with
      | Some x => mret x
      | None => gen_raise IndexError
      end
  end.

(** [bisect(cum_weights, x, 0, hi)]: the number of the first [hi]
    cumulative weights that are [<= x]; [acc] is the running total. *)
Fixpoint bisect_weights (weights : list Z) (acc x : Z) (hi : nat) : nat :=
  match hi, weights with
  | S hi', wt :: weights' =>
      if decide (acc + wt <= x)
      then S (bisect_weights weights' (acc + wt) x hi')
      else 0
  | _, _ => 0
  end.

(** [random.choices(population, weights=weights)[0]]; weights in percent. *)
Definition choices {A} (population : list A) (weights : list Z) : Gen A :=
  u ← random_random;
  let total := sum_list weights in
  let i := bisect_weights ((λ wt, wt * random_unit) <$> weights) 0
             (u * total) (length population - 1) in
  match population !! i with
  | Some x => mret x
  | None => gen_raise IndexError
  end.

(** [random.uniform(a, b)] followed by [round(_, 2)], on hundredths. *)
Definition uniform_round2 (a b : Z) : Gen Z :=
  u ← random_random;
  mret (round_half_even (a * random_unit + (b - a) * u) random_unit).

(** The selection loop of [random.sample] for a small population:
    [live] is [n - i]. *)
Fixpoint sample_loop {A} (pool : list A) (live k : nat) : Gen (list A) :=
  match k with
  | O => mret []
  | S k' =>
      j ← randbelow live;
      match pool !! j, pool !! (live - 1)%nat with
      | Some x, Some last =>
          rest ← sample_loop (<[j := last]> pool) (live - 1) k';
          mret (x :: rest)
      | _, _ => gen_raise IndexError
      end
  end.

(** [random.sample(population, k)] for populations of at most 21 items,
    where the pool algorithm is used. *)
Definition sample {A} (population : list A) (k : nat) : Gen (list A) :=
  let n := length population in
  if decide (k <= n)%nat
  then sample_loop population n k
  else gen_raise (ValueError "Sample larger than population or is negative").

(** [np.random.poisson(lam)]: some non-negative integer. *)
Definition poisson (lam : Q) : Gen Z :=
  if negb (Qle_bool 0 lam) then gen_raise (ValueError "lam < 0")
  else raw ← draw_np_random;
       mret (if Qeq_bool lam 0 then 0 else Z.abs raw).

(** A value produced by a Faker provider, represented by the draw that
    selects it. *)
Definition FakeValue := Z.
Definition fake : Gen FakeValue := draw_faker.

(** ** Identifiers *)

(** The integer of [uuid.uuid4()]: 16 bytes of entropy with the variant
    and version bits overwritten. *)
Definition uuid4_int (raw : Z) : Z :=
  let n := raw mod 2 ^ 128 in
  let n := Z.land n (Z.lnot (Z.shiftl 0xc000 48)) in
  let n := Z.lor n (Z.shiftl 0x8000 48) in
  let n := Z.land n (Z.lnot (Z.shiftl 0xf000 64)) in
  Z.lor n (Z.shiftl 4 76).

Definition uuid4 : Gen Z := raw ← draw_os_urandom; mret (uuid4_int raw).

Definition hex_digit (d : Z) : ascii :=
  match String.get (Z.to_nat d) "0123456789abcdef" with
  | Some c => c
  | None => "0"%char
  end.

(** [n] as [digits] lower-case hexadecimal digits, most significant first. *)
Fixpoint hex_digits (digits : nat) (n : Z) : string :=
  match digits with
  | O => ""
  | S d => hex_digits d (n / 16) +:+ String (hex_digit (n mod 16)) ""
  end.

(** [uuid.hex] *)
Definition uuid_hex (u : Z) : string := hex_digits 32 u.

Definition is_lower (c : ascii) : bool :=
  let n := N_of_ascii c in ((97 <=? n) && (n <=? 122))%N.
Definition is_upper (c : ascii) : bool :=
  let n := N_of_ascii c in ((65 <=? n) && (n <=? 90))%N.
Definition to_upper (c : ascii) : ascii :=
  if is_lower c then ascii_of_N (N_of_ascii c - 32) else c.
Definition to_lower (c : ascii) : ascii :=
  if is_upper c then ascii_of_N (N_of_ascii c + 32) else c.

(** [str.upper()] *)
Fixpoint upper (s : string) : string :=
  match s with
  | EmptyString => EmptyString
  | String c s' => String (to_upper c) (upper s')
  end.

(** [str.replace('_', ' ')] *)
Fixpoint replace_underscore (s : string) : string :=
  match s with
  | EmptyString => EmptyString
  | String c s' =>
      String (if Ascii.eqb c "_" then " "%char else c) (replace_underscore s')
  end.

(** [str.title()] *)
Fixpoint title_from (prev_cased : bool) (s : string) : string :=
  match s with
  | EmptyString => EmptyString
  | String c s' =>
      if is_lower c
      then String (if prev_cased then c else to_upper c) (title_from true s')
      else if is_upper c
      then String (if prev_cased then to_lower c else c) (title_from true s')
      else String c (title_from false s')
  end.

Definition title (s : string) : string := title_from false s.

(** [f"{prefix}-{uuid.uuid4().hex[:8].upper()}"] *)
Definition new_id (prefix : string) : Gen string :=
  u ← uuid4;
  mret (prefix +:+ "-" +:+ upper (String.substring 0 8 (uuid_hex u))).

(** Decimal digits of a non-negative integer, for [f"PROV-{n}"]. *)
Fixpoint decimal_digits (fuel : nat) (n : Z) : string :=
  match fuel with
  | O => ""
  | S fuel' =>
      let d := String (ascii_of_N (48 + Z.to_N (n mod 10))) "" in
      if decide (n < 10) then d else decimal_digits fuel' (n / 10) +:+ d
  end.

Definition str_int (n : Z) : string := decimal_digits 20 n.

(** ** Times *)

(** [timedelta(days=d)] and [timedelta(hours=h)], in microseconds. *)
Definition timedelta_days (d : Z) : Z := d * 86400000000.
Definition timedelta_hours (h : Z) : Z := h * 3600000000.

(** ** The tables *)

Module Patient.
Record row := mk {
  PATIENT_ID : string;
  FIRST_NAME : FakeValue;
  LAST_NAME : FakeValue;
  DATE_OF_BIRTH : FakeValue;
  GENDER : string;
  SSN : FakeValue;
  EMAIL : FakeValue;
  PHONE : FakeValue;
  ADDRESS : FakeValue;
  CITY : FakeValue;
  STATE : FakeValue;
  ZIP_CODE : FakeValue;
  CREATED_AT : Z;
  UPDATED_AT : Z;
  DELETED_AT : option Z
}.
End Patient.

Module Encounter.
Record row := mk {
  ENCOUNTER_ID : string;
  PATIENT_ID : string;
  ENCOUNTER_TYPE : string;
  ENCOUNTER_DATE : Z;
  PROVIDER_ID : string;
  FACILITY_ID : string;
  CHIEF_COMPLAINT : FakeValue;
  DIAGNOSIS_CODE : string;
  DIAGNOSIS_DESCRIPTION : string;
  DISCHARGE_DATE : option Z;
  STATUS : string;
  CREATED_AT : Z;
  UPDATED_AT : Z;
  DELETED_AT : option Z
}.
End Encounter.

Module LabResult.
Record row := mk {
  LAB_RESULT_ID : string;
  ENCOUNTER_ID : string;
  PATIENT_ID : string;
  TEST_CODE : string;
  TEST_NAME : string;
  RESULT_VALUE : Z;               (* hundredths *)
  RESULT_UNIT : string;
  REFERENCE_RANGE : string;
  ABNORMAL_FLAG : option string;
  TEST_DATE : Z;
  RESULT_DATE : Z;
  PROVIDER_ID : string;
  CREATED_AT : Z;
  UPDATED_AT : Z;
  DELETED_AT : option Z
}.
End LabResult.

(** ** Clinical dictionaries *)

Definition encounter_types : list string :=
  ["EMERGENCY"; "INPATIENT"; "OUTPATIENT"; "TELEHEALTH"].

(** [encounter_weights], in percent. *)
Definition encounter_weights : list Z := [15; 10; 60; 15].

Definition diagnosis_codes : list (string * string) :=
  [ ("E11.9", "Type 2 diabetes mellitus without complications");
    ("I10", "Essential (primary) hypertension");
    ("J44.9", "Chronic obstructive pulmonary disease, unspecified");
    ("E78.5", "Hyperlipidemia, unspecified");
    ("J06.9", "Acute upper respiratory infection, unspecified");
    ("M25.50", "Pain in unspecified joint");
    ("R51", "Headache");
    ("K21.9", "Gastro-esophageal reflux disease without esophagitis");
    ("E66.9", "Obesity, unspecified");
    ("F41.9", "Anxiety disorder, unspecified") ].

(** An entry of [lab_tests]; values in hundredths, and the text of
    [f"{normal_min}-{normal_max}"]. *)
Record LabTest := mkLabTest {
  unit_of : string;
  normal_min : Z;
  normal_max : Z;
  critical_threshold : Z;
  range_text : string
}.

Definition lab_tests : list (string * LabTest) :=
  [ ("HBA1C", mkLabTest "%" 400 560 900 "4.0-5.6");
    ("GLUCOSE", mkLabTest "mg/dL" 7000 10000 25000 "70-100");
    ("WBC", mkLabTest "K/uL" 450 1100 2000 "4.5-11.0");
    ("HEMOGLOBIN", mkLabTest "g/dL" 1200 1600 700 "12.0-16.0");
    ("CREATININE", mkLabTest "mg/dL" 60 120 300 "0.6-1.2");
    ("ALT", mkLabTest "U/L" 700 5600 20000 "7-56");
    ("CHOLESTEROL", mkLabTest "mg/dL" 12500 20000 30000 "125-200");
    ("TROPONIN", mkLabTest "ng/mL" 0 4 100 "0-0.04") ].

(** [list(d.keys())] and [d[key]] *)
Definition keys {V} (d : list (string * V)) : list string := fst <$> d.

Fixpoint lookup_key {V} (d : list (string * V)) (key : string) : Gen V :=
  match d with
  | [] => gen_raise (KeyError key)
  | (k, v) :: d' => if decide (k = key) then mret v else lookup_key d' key
  end.

(** ** The generator object *)

Record Generator := mkGenerator {
  num_patients : Z;
  patients : option (list Patient.row);
  encounters : option (list Encounter.row);
  lab_results : option (list LabResult.row)
}.

(** [SyntheticClinicalDataGenerator(num_patients)] *)
Definition new_generator (num_patients : Z) : Generator :=
  mkGenerator num_patients None None None.

(** [for _ in range(n): data.append(body())] *)
Fixpoint repeat_gen {A} (n : nat) (body : Gen A) : Gen (list A) :=
  match n with
  | O => mret []
  | S n' => x ← body; rest ← repeat_gen n' body; mret (x :: rest)
  end.

(** [for x in xs: ...], where each round appends some rows. *)
Fixpoint for_each {X A} (xs : list X) (body : X -> Gen (list A))
  : Gen (list A) :=
  match xs with
  | [] => mret []
  | x :: xs' => rows ← body x; rest ← for_each xs' body; mret (rows ++ rest)
  end.

(** The dict built in the loop of [generate_patients]. *)
Definition new_patient : Gen Patient.row :=
  pid ← new_id "PAT";
  first_name ← fake;
  last_name ← fake;
  date_of_birth ← fake;
  gender ← choice ["Male"; "Female"; "Other"];
  ssn ← fake;
  email ← fake;
  phone ← fake;
  address ← fake;
  city ← fake;
  state ← fake;
  zipcode ← fake;
  now ← datetime_now;
  days ← randint 365 3650;
  now' ← datetime_now;
  mret (Patient.mk pid first_name last_name date_of_birth gender ssn email
          phone address city state zipcode (now - timedelta_days days) now'
          None).

(** [generate_patients] *)
Definition generate_patients (self : Generator) : Gen Generator :=
  patients_data ← repeat_gen (Z.to_nat (num_patients self)) new_patient;
  mret (mkGenerator (num_patients self) (Some patients_data)
          (encounters self) (lab_results self)).

(** The body of the inner loop of [generate_encounters]. *)
Definition new_encounter (patient : Patient.row) : Gen Encounter.row :=
  let patient_created := Patient.CREATED_AT patient in
  encounter_type ← choices encounter_types encounter_weights;
  days_after_creation ← randint 0 (365 * 2);
  let encounter_date := patient_created + timedelta_days days_after_creation in
  discharge_date ←
    (if decide (encounter_type ∈ ["INPATIENT"; "EMERGENCY"])
     then los_hours ← randint 2 240;
          mret (Some (encounter_date + timedelta_hours los_hours))
     else mret None);
  diagnosis_code ← choice (keys diagnosis_codes);
  eid ← new_id "ENC";
  provider ← randint 1000 9999;
  facility ← randint 100 999;
  chief_complaint ← fake;
  description ← lookup_key diagnosis_codes diagnosis_code;
  mret (Encounter.mk eid (Patient.PATIENT_ID patient) encounter_type
          encounter_date ("PROV-" +:+ str_int provider)
          ("FAC-" +:+ str_int facility) chief_complaint diagnosis_code
          description discharge_date
          (match discharge_date with
           | Some _ => "DISCHARGED"
           | None => "ACTIVE"
           end)
          encounter_date (default encounter_date discharge_date) None).

(** [max(1, min(n, cap))] *)
Definition clamp_count (n cap : Z) : Z := Z.max 1 (Z.min n cap).

(** The body of the loop over patients. *)
Definition encounters_of_patient (encounters_per_patient_avg : Q)
    (patient : Patient.row) : Gen (list Encounter.row) :=
  n ← poisson encounters_per_patient_avg;
  let num_encounters := clamp_count n 20 in
  repeat_gen (Z.to_nat num_encounters) (new_encounter patient).

(** [generate_encounters] *)
Definition generate_encounters (encounters_per_patient_avg : Q)
    (self : Generator) : Gen Generator :=
  match patients self with
  | None => gen_raise (ValueError "Must generate patients first")
  | Some ps =>
      encounters_data ←
        for_each ps (encounters_of_patient encounters_per_patient_avg);
      mret (mkGenerator (num_patients self) (patients self)
              (Some encounters_data) (lab_results self))
  end.

(** The result value and flag drawn for one test. *)
Definition draw_result (test_info : LabTest) : Gen (Z * option string) :=
  let normal_min := normal_min test_info in
  let normal_max := normal_max test_info in
  result_type ← choices ["normal"; "abnormal"; "critical"] [80; 15; 5];
  if decide (result_type = "normal")
  then v ← uniform_round2 normal_min normal_max; mret (v, None)
  else if decide (result_type = "abnormal")
  then r ← random_random;
       if decide (2 * r < random_unit)
       then v ← uniform_round2 normal_max (normal_max * 3 / 2);
            mret (v, Some "HIGH")
       else v ← uniform_round2 (normal_min / 2) normal_min;
            mret (v, Some "LOW")
  else v ← uniform_round2 (normal_max * 3 / 2) (critical_threshold test_info);
       mret (v, Some "CRITICAL").

(** The body of the loop over the selected tests. *)
Definition new_lab_result (encounter : Encounter.row) (test_code : string)
  : Gen LabResult.row :=
  test_info ← lookup_key lab_tests test_code;
  result ← draw_result test_info;
  after ← randint 0 12;
  let test_date := Encounter.ENCOUNTER_DATE encounter + timedelta_hours after in
  turnaround ← randint 1 48;
  let result_date := test_date + timedelta_hours turnaround in
  lid ← new_id "LAB";
  mret (LabResult.mk lid (Encounter.ENCOUNTER_ID encounter)
          (Encounter.PATIENT_ID encounter) test_code
          (title (replace_underscore test_code)) result.1
          (unit_of test_info) (range_text test_info) result.2
          test_date result_date (Encounter.PROVIDER_ID encounter)
          result_date result_date None).

(** The encounter types that receive lab results. *)
Definition lab_encounter_types : list string :=
  ["EMERGENCY"; "INPATIENT"; "OUTPATIENT"].

(** The body of the loop over encounters. *)
Definition labs_of_encounter (labs_per_encounter_avg : Q)
    (encounter : Encounter.row) : Gen (list LabResult.row) :=
  if decide (Encounter.ENCOUNTER_TYPE encounter ∉ lab_encounter_types)
  then mret []
  else
    n ← poisson labs_per_encounter_avg;
    let num_labs := clamp_count n 10 in
    selected_tests ← sample (keys lab_tests)
                       (Z.to_nat (Z.min num_labs (Z.of_nat (length lab_tests))));
    mapM (new_lab_result encounter) selected_tests.

(** [generate_lab_results] *)
Definition generate_lab_results (labs_per_encounter_avg : Q)
    (self : Generator) : Gen Generator :=
  match encounters self with
  | None => gen_raise (ValueError "Must generate encounters first")
  | Some es =>
      lab_results_data ←
        for_each es (labs_of_encounter labs_per_encounter_avg);
      mret (mkGenerator (num_patients self) (patients self)
              (encounters self) (Some lab_results_data))
  end.

(** The three generation calls in a row, as [generate_all] makes them. *)
Definition generate_dataset (num_patients : Z)
    (encounters_per_patient_avg labs_per_encounter_avg : Q) : Gen Generator :=
  self ← generate_patients (new_generator num_patients);
  self ← generate_encounters encounters_per_patient_avg self;
  generate_lab_results labs_per_encounter_avg self.

(** ** Reasoning about generator computations *)

(** Every result of [m] satisfies [P]. *)
Definition gen_post {A} (m : Gen A) (P : A -> Prop) : Prop :=
  forall w a w', m w = Ret (a, w') -> P a.

(** [m] returns from every world. *)
Definition gen_total {A} (m : Gen A) : Prop :=
  forall w, exists a w', m w = Ret (a, w').

(** The rows of a child table lie in it parent by parent: first the rows
    generated for the first parent, then those for the second, and so on;
    [Q parent batch] holds of every parent and the rows generated for it. *)
Definition in_batches {P R} (Q : P -> list R -> Prop) (parents : list P)
    (rows : list R) : Prop :=
  exists batches, rows = concat batches /\ Forall2 Q parents batches.

(** [e] is an encounter generated for patient [p]. *)
Definition encounter_of (p : Patient.row) (e : Encounter.row) : Prop :=
  Encounter.PATIENT_ID e = Patient.PATIENT_ID p /\
  Patient.CREATED_AT p <= Encounter.ENCOUNTER_DATE e /\
  (forall d, Encounter.DISCHARGE_DATE e = Some d ->
             Encounter.ENCOUNTER_DATE e <= d) /\
  Encounter.ENCOUNTER_TYPE e ∈ encounter_types.

(** [l] is a lab result generated for encounter [e]. *)
Definition lab_result_of (e : Encounter.row) (l : LabResult.row) : Prop :=
  LabResult.ENCOUNTER_ID l = Encounter.ENCOUNTER_ID e /\
  LabResult.PATIENT_ID l = Encounter.PATIENT_ID e /\
  Encounter.ENCOUNTER_DATE e <= LabResult.TEST_DATE l /\
  LabResult.TEST_DATE l <= LabResult.RESULT_DATE l /\
  Encounter.ENCOUNTER_TYPE e ∈ lab_encounter_types.

(** *** Sample rows *)

Definition sample_patient : Patient.row :=
  Patient.mk "PAT-0A1B2C3D" 0 31 62 "Female" 93 124 155 186 217 248 279
             1640960000000000 1790000000000001 None.

Definition sample_encounter : Encounter.row :=
  Encounter.mk "ENC-0A1B2C3E" "PAT-0A1B2C3D" "OUTPATIENT" 1652105600000000
               "PROV-6016" "FAC-435" 775 "K21.9"
               "Gastro-esophageal reflux disease without esophagitis"
               None "ACTIVE" 1652105600000000 1652105600000000 None.

(** What a run returns, leaving the final state of the sources aside. *)
Definition result_of {A} (r : Py (A * World)) : Py A :=
  match r with
  | Ret (a, _) => Ret a
  | Raise e => Raise e
  end.

(** *** Sample worlds *)

(** Draw sequences standing for the three generators seeded with 42. *)
Definition seeded_py_random (i : nat) : Z := 7919 * Z.of_nat i + 13.
Definition seeded_np_random (i : nat) : Z := 9 + Z.of_nat i.
Definition seeded_faker (i : nat) : Z := 31 * Z.of_nat i.

(** A process started with the given entropy and clock. *)
Definition seeded_world (entropy clock : nat -> Z) : World :=
  mkWorld (fresh seeded_py_random) (fresh seeded_np_random)
          (fresh seeded_faker) (fresh entropy) (fresh clock).

Definition entropy_a (i : nat) : Z :=
  Z.shiftl (0x0a1b2c3d + Z.of_nat i) 96 + 0x1234.
Definition entropy_b (i : nat) : Z :=
  Z.shiftl (0x5e6f7a8b + Z.of_nat i) 96 + 0x1234.
(** Entropy whose first two reads agree on their first four bytes. *)
Definition entropy_colliding (i : nat) : Z :=
  if decide (i <= 1)%nat then Z.shiftl 0x0a1b2c3d 96 + Z.of_nat i
  else entropy_a i.
Definition clock_a (i : nat) : Z := 1790000000000000 + Z.of_nat i.
Definition clock_b (i : nat) : Z := 1790000060000000 + Z.of_nat i.

(* ================================================================== *)
(** * The rest of the simulator and of the generator *)

(** ** Operational dashboards *)

(** The loop of [simulate_operational_queries]: [envs iteration k] is the
    surroundings of the [k]-th query of an iteration.  The pause between
    iterations has no effect on the results. *)
Fixpoint operational_loop (envs : nat -> nat -> QueryEnv)
    (iterations : list nat)
    (operational_results self_query_results : list QueryResult)
  : Py (list QueryResult * list QueryResult) :=
  match iterations with
  | [] => Ret (operational_results, self_query_results)
  | iteration :: iterations' =>
      ed_sql ← dict_get dashboard_queries "ed_census";
      ed_result ← execute_query (envs iteration 0%nat) "ed_census" ed_sql None;
      let operational_results := operational_results ++ [ed_result] in
      let self_query_results := self_query_results ++ [ed_result] in
      alert_sql ← dict_get dashboard_queries "high_risk_alerts";
      alert_result ← execute_query (envs iteration 1%nat) "high_risk_alerts"
                       alert_sql None;
      operational_loop envs iterations'
        (operational_results ++ [alert_result])
        (self_query_results ++ [alert_result])
  end.

(** [DashboardSimulator.simulate_operational_queries] on an open
    connection: returns [operational_results] and the new contents of
    [self.query_results]. *)
Definition simulate_operational_queries (envs : nat -> nat -> QueryEnv)
    (num_iterations : nat) (self_query_results : list QueryResult)
  : Py (list QueryResult * list QueryResult) :=
  operational_loop envs (seq 0 num_iterations) [] self_query_results.

(** ** A full simulation *)

(** [self.connection]: not yet assigned, an open connection, or a
    connection object that has been closed. *)
Inductive Connection := NotConnected | Open | Closed.

(** What a full simulation meets: whether [snowflake.connector.connect]
    succeeds, and the surroundings of both phases. *)
Record SimEnv := mkSimEnv {
  connect_outcome : Py unit;
  load_env : LoadEnv;
  operational_envs : nat -> nat -> QueryEnv
}.

(** [DashboardSimulator.connect]: the assignment happens only when the
    connector returns. *)
Definition connect (env : SimEnv) (connection : Connection)
  : Py Connection :=
  _ ← connect_outcome env; Ret Open.

(** [DashboardSimulator.disconnect]: [if self.connection: close()]. *)
Definition disconnect (connection : Connection) : Connection :=
  match connection with
  | NotConnected => NotConnected
  | Open | Closed => Closed
  end.

(** [try: body finally: self.disconnect()], where [body] leaves the
    connection in [after] (it assigns it in [connect] only). *)
Definition finally_disconnect {A} (body : Py A) (after : Connection)
  : Py A * Connection :=
  (body, disconnect after).

(** The body of the [try] of [run_full_simulation], once connected. *)
Definition simulation_phases (env : SimEnv)
    (concurrent_dashboards dashboard_iterations operational_iterations : nat)
    (self_query_results : list QueryResult) : Py ReportOutput :=
  st ← simulate_concurrent_dashboards (load_env env) concurrent_dashboards
         dashboard_iterations self_query_results;
  st' ← simulate_operational_queries (operational_envs env)
          operational_iterations st.2;
  generate_performance_report st'.2.

(** [DashboardSimulator.run_full_simulation]: what the report phase
    prints (or the exception that escapes) and the connection left
    behind. *)
Definition run_full_simulation (env : SimEnv)
    (concurrent_dashboards dashboard_iterations operational_iterations : nat)
    (connection : Connection) (self_query_results : list QueryResult)
  : Py ReportOutput * Connection :=
  match connect env connection with
  | Raise e => finally_disconnect (Raise e) connection
  | Ret connection' =>
      finally_disconnect
        (simulation_phases env concurrent_dashboards dashboard_iterations
           operational_iterations self_query_results)
        connection'
  end.

(** ** The operational phase from any state of the connection *)

(** [self.connection.cursor(...)]: [None] has no such attribute, and the
    connector refuses to hand out a cursor of a closed connection. *)
Definition connection_cursor (connection : Connection) : Py unit :=
  match connection with
  | NotConnected =>
      Raise (AttributeError "'NoneType' object has no attribute 'cursor'")
  | Open => Ret tt
  | Closed => Raise (DatabaseError "250002 (08003): Connection is closed")
  end.

(** [execute_query] as a whole: the cursor is obtained before the [try],
    so that this step is not covered by the handler. *)
Definition execute_query_on (connection : Connection) (env : QueryEnv)
    (name query_sql : string) (params : option Params) : Py QueryResult :=
  _ ← connection_cursor connection;
  execute_query env name query_sql params.

(** The loop of [simulate_operational_queries], with [self.connection] in
    the given state. *)
Fixpoint operational_loop_on (connection : Connection)
    (envs : nat -> nat -> QueryEnv) (iterations : list nat)
    (operational_results self_query_results : list QueryResult)
  : Py (list QueryResult * list QueryResult) :=
  match iterations with
  | [] => Ret (operational_results, self_query_results)
  | iteration :: iterations' =>
      ed_sql ← dict_get dashboard_queries "ed_census";
      ed_result ← execute_query_on connection (envs iteration 0%nat)
                    "ed_census" ed_sql None;
      let operational_results := operational_results ++ [ed_result] in
      let self_query_results := self_query_results ++ [ed_result] in
      alert_sql ← dict_get dashboard_queries "high_risk_alerts";
      alert_result ← execute_query_on connection (envs iteration 1%nat)
                       "high_risk_alerts" alert_sql None;
      operational_loop_on connection envs iterations'
        (operational_results ++ [alert_result])
        (self_query_results ++ [alert_result])
  end.

(** [if not self.connection: self.connect()]: a connection object is
    true, whether open or closed. *)
Definition ensure_connected (env : SimEnv) (connection : Connection)
  : Py Connection :=
  match connection with
  | NotConnected => connect env connection
  | Open | Closed => Ret connection
  end.

(** [DashboardSimulator.simulate_operational_queries] from any state of
    [self.connection]: what it returns (or the exception that escapes) and
    the connection it leaves.  [simulate_operational_queries] above is this
    method on an open connection. *)
Definition simulate_operational_queries_on (env : SimEnv)
    (connection : Connection) (num_iterations : nat)
    (self_query_results : list QueryResult)
  : Py (list QueryResult * list QueryResult) * Connection :=
  match ensure_connected env connection with
  | Raise e => (Raise e, connection)
  | Ret connection' =>
      (operational_loop_on connection' (operational_envs env)
         (seq 0 num_iterations) [] self_query_results,
       connection')
  end.

(** A result as [execute_query] builds it: a success has an id and no
    error, a failure has an error, no id and no rows. *)
Definition consistent_result (r : QueryResult) : Prop :=
  if success r
  then is_Some (query_id r) /\ error r = None
  else query_id r = None /\ is_Some (error r) /\ row_count r = 0%nat.

(** The same warehouse as [sample_load_env], with futures completing in
    submission order. *)
Definition sample_load_env_in_order : LoadEnv :=
  mkLoadEnv (patients_table sample_load_env) (session_envs sample_load_env)
            (λ _ futures, futures).

(** *** Sample simulation *)

Definition sample_sim_env : SimEnv :=
  mkSimEnv (Ret tt) sample_load_env (λ _ _, working_env).

Definition unreachable_sim_env : SimEnv :=
  mkSimEnv (Raise (DatabaseError "250001: Could not connect"))
           sample_load_env (λ _ _, working_env).

(** ** The rest of the generator *)

(** What [generate_encounters] writes into an encounter of patient [p]. *)
Definition encounter_rules (p : Patient.row) (e : Encounter.row) : Prop :=
  Encounter.PATIENT_ID e = Patient.PATIENT_ID p /\
  Encounter.ENCOUNTER_TYPE e ∈ encounter_types /\
  Patient.CREATED_AT p <= Encounter.ENCOUNTER_DATE e
    <= Patient.CREATED_AT p + timedelta_days 730 /\
  (Encounter.ENCOUNTER_TYPE e ∈ ["INPATIENT"; "EMERGENCY"] ->
   exists d,
     Encounter.DISCHARGE_DATE e = Some d /\
     Encounter.ENCOUNTER_DATE e + timedelta_hours 2 <= d
       <= Encounter.ENCOUNTER_DATE e + timedelta_hours 240 /\
     Encounter.STATUS e = "DISCHARGED" /\ Encounter.UPDATED_AT e = d) /\
  (Encounter.ENCOUNTER_TYPE e ∉ ["INPATIENT"; "EMERGENCY"] ->
   Encounter.DISCHARGE_DATE e = None /\
   Encounter.STATUS e = "ACTIVE" /\
   Encounter.UPDATED_AT e = Encounter.ENCOUNTER_DATE e) /\
  Encounter.CREATED_AT e = Encounter.ENCOUNTER_DATE e /\
  Encounter.DELETED_AT e = None /\
  (Encounter.DIAGNOSIS_CODE e, Encounter.DIAGNOSIS_DESCRIPTION e)
    ∈ diagnosis_codes.

(** What [generate_lab_results] writes into the dates and copied fields of
    a lab result of encounter [e]. *)
Definition lab_timing_rules (e : Encounter.row) (l : LabResult.row) : Prop :=
  LabResult.ENCOUNTER_ID l = Encounter.ENCOUNTER_ID e /\
  LabResult.PATIENT_ID l = Encounter.PATIENT_ID e /\
  LabResult.PROVIDER_ID l = Encounter.PROVIDER_ID e /\
  Encounter.ENCOUNTER_DATE e <= LabResult.TEST_DATE l
    <= Encounter.ENCOUNTER_DATE e + timedelta_hours 12 /\
  LabResult.TEST_DATE l + timedelta_hours 1 <= LabResult.RESULT_DATE l
    <= LabResult.TEST_DATE l + timedelta_hours 48 /\
  LabResult.CREATED_AT l = LabResult.RESULT_DATE l /\
  LabResult.UPDATED_AT l = LabResult.RESULT_DATE l /\
  LabResult.DELETED_AT l = None /\
  LabResult.TEST_NAME l = title (replace_underscore (LabResult.TEST_CODE l)).

(** How a result value relates to its flag, for the catalog entry [info]
    of its test (hundredths). *)
Definition value_matches_flag (info : LabTest) (value : Z)
    (flag : option string) : Prop :=
  match flag with
  | None => normal_min info <= value <= normal_max info
  | Some f =>
      (f = "HIGH" /\
       normal_max info <= value <= normal_max info * 3 / 2) \/
      (f = "LOW" /\ normal_min info / 2 <= value <= normal_min info) \/
      (f = "CRITICAL" /\
       Z.min (normal_max info * 3 / 2) (critical_threshold info) <= value
         <= Z.max (normal_max info * 3 / 2) (critical_threshold info))
  end.

(** What the loop body of [generate_lab_results] writes for the test
    [test_code] of encounter [e]. *)
Definition lab_row_rules (e : Encounter.row) (test_code : string)
    (l : LabResult.row) : Prop :=
  lab_timing_rules e l /\
  LabResult.TEST_CODE l = test_code /\
  exists info,
    (test_code, info) ∈ lab_tests /\
    LabResult.RESULT_UNIT l = unit_of info /\
    LabResult.REFERENCE_RANGE l = range_text info /\
    value_matches_flag info (LabResult.RESULT_VALUE l)
      (LabResult.ABNORMAL_FLAG l).

(** A catalog entry with a non-negative, non-empty normal range. *)
Definition plausible_test (info : LabTest) : Prop :=
  0 <= normal_min info <= normal_max info.

(** The number of encounters of a table that receive lab results. *)
Definition lab_encounters (es : list Encounter.row) : nat :=
  length (filter (λ e, Encounter.ENCOUNTER_TYPE e ∈ lab_encounter_types) es).

(** [len(self.table)] of a table that has been generated. *)
Definition table_len {A} (table : option (list A)) : nat :=
  length (default [] table).

(** [a / b] on Python integers. *)
Definition py_truediv (a b : nat) : Py Q :=
  if decide (b = 0%nat) then Raise ZeroDivisionError
  else Ret (Qmake (Z.of_nat a) (Pos.of_nat b)).

(** The summary that [generate_all] prints, as far as its first average. *)
Record GenerationSummary := mkGenerationSummary {
  summary_patients : nat;
  summary_encounters : nat;
  summary_lab_results : nat;
  summary_encounters_per_patient : Q
}.

(** [generate_all], up to and including the line that prints the average
    number of encounters per patient; the prints after it are not part of
    the source at hand. *)
Definition generate_all (self : Generator)
  : Gen (Generator * GenerationSummary) :=
  self ← generate_patients self;
  self ← generate_encounters 5 self;
  self ← generate_lab_results 3 self;
  match py_truediv (table_len (encounters self)) (table_len (patients self))
  with
  | Ret avg =>
      mret (self, mkGenerationSummary (table_len (patients self))
                    (table_len (encounters self))
                    (table_len (lab_results self)) avg)
  | Raise e => gen_raise e
  end.

(** ** Configuration *)

(** A Python object as far as its data attributes go: the name of its
    class and the attributes of the instance. *)
Record PyObject := mkPyObject {
  class_name : string;
  attributes : list (string * string)
}.

Fixpoint lookup_attribute (attrs : list (string * string)) (name : string)
  : option string :=
  match attrs with
  | [] => None
  | (k, v) :: attrs' =>
      if decide (k = name) then Some v else lookup_attribute attrs' name
  end.

(** [obj.name] for a data attribute; a missing attribute raises. *)
Definition getattr (obj : PyObject) (name : string) : Py string :=
  match lookup_attribute (attributes obj) name with
  | Some v => Ret v
  | None =>
      Raise (AttributeError
               ("'" +:+ class_name obj +:+ "' object has no attribute '"
                +:+ name +:+ "'"))
  end.

(** [obj.name = value] *)
Definition setattr (obj : PyObject) (name value : string) : PyObject :=
  mkPyObject (class_name obj) ((name, value) :: attributes obj).

(** [SnowflakeConfig(...)] of [config.py]: a dataclass with nine fields. *)
Definition SnowflakeConfig
    (user password account warehouse_init warehouse_cdc
       warehouse_interactive database schema role : string) : PyObject :=
  mkPyObject "SnowflakeConfig"
    [ ("user", user); ("password", password); ("account", account);
      ("warehouse_init", warehouse_init); ("warehouse_cdc", warehouse_cdc);
      ("warehouse_interactive", warehouse_interactive);
      ("database", database); ("schema", schema); ("role", role) ].

(** [SnowflakeConfig.from_env()], where [getenv name] is the value of the
    environment variable [name], if set. *)
Definition from_env (getenv : string -> option string) : PyObject :=
  SnowflakeConfig
    (default "" (getenv "SNOWFLAKE_USER"))
    (default "" (getenv "SNOWFLAKE_PASSWORD"))
    (default "" (getenv "SNOWFLAKE_ACCOUNT"))
    (default "CLINICAL_INIT_WH" (getenv "WAREHOUSE_INIT"))
    (default "CLINICAL_CDC_WH" (getenv "WAREHOUSE_CDC"))
    (default "CLINICAL_INTERACTIVE_WH" (getenv "WAREHOUSE_INTERACTIVE"))
    (default "CLINICAL_DATA_PIPELINE" (getenv "SNOWFLAKE_DATABASE"))
    (default "RAW_DATA" (getenv "SNOWFLAKE_SCHEMA"))
    (default "CLINICAL_DATA_ENGINEER" (getenv "SNOWFLAKE_ROLE")).

(** ** Loading into the warehouse *)

(** What [load_to_snowflake] meets at the connector: the outcome of
    [snowflake.connector.connect], of [conn.cursor()], of the [k]-th call
    of [cursor.execute], of [conn.commit()], [conn.rollback()],
    [cursor.close()] and [conn.close()], and the reading of
    [datetime.now()] taken for the [k]-th statement. *)
Record DbEnv := mkDbEnv {
  connect_outcome_db : Py unit;
  cursor_outcome : Py unit;
  execute_outcome : nat -> Py unit;
  commit_outcome : Py unit;
  rollback_outcome : Py unit;
  cursor_close_outcome : Py unit;
  connection_close_outcome : Py unit;
  statement_time : nat -> Z
}.

(** The calls that [load_to_snowflake] makes on the connector.  A log of
    calls says nothing about their effect on the tables: whether [rollback]
    undoes the statements executed before it is decided by the autocommit
    setting of the session, which the method leaves as the connector has
    it. *)
Inductive DbCall :=
| Connect (user password account warehouse database schema : string)
| GetCursor
| Truncate (table : string)
| Insert (table cdc_operation : string) (cdc_timestamp : Z)
         (row : Patient.row)
| Commit
| Rollback
| CursorClose
| ConnectionClose.

(** A computation that makes calls on the connector: it extends the log
    of the calls made so far and returns or raises. *)
Definition Db (A : Type) : Type := list DbCall -> Py A * list DbCall.

Definition db_ret {A} (a : A) : Db A := λ log, (Ret a, log).

Definition db_bind {A B} (m : Db A) (k : A -> Db B) : Db B :=
  λ log, match m log with
         | (Ret a, log') => k a log'
         | (Raise e, log') => (Raise e, log')
         end.

#[global] Instance Db_ret : MRet Db := @db_ret.
#[global] Instance Db_bind : MBind Db := fun A B k m => db_bind m k.

(** A step that makes no call. *)
Definition db_lift {A} (m : Py A) : Db A := λ log, (m, log).

(** One call, with the outcome the connector gives it. *)
Definition db_call (c : DbCall) (outcome : Py unit) : Db unit :=
  λ log, (outcome, log ++ [c]).

(** [try: body except Exception as e: handler(e)] *)
Definition db_try_except {A} (body : Db A) (handler : PyExn -> Db A) : Db A :=
  λ log, match body log with
         | (Ret a, log') => (Ret a, log')
         | (Raise e, log') => handler e log'
         end.

(** [try: body finally: cleanup]: the cleanup runs in either case, and an
    exception of the cleanup replaces the outcome of the body. *)
Definition db_finally {A} (body : Db A) (cleanup : Db unit) : Db A :=
  λ log, match body log with
         | (r, log') =>
             match cleanup log' with
             | (Ret _, log'') => (r, log'')
             | (Raise e, log'') => (Raise e, log'')
             end
         end.

(** The loop over [self.patients.iterrows()]: [k] statements have been
    executed so far. *)
Fixpoint insert_patients (db : DbEnv) (k : nat) (rows : list Patient.row)
  : Db unit :=
  match rows with
  | [] => mret tt
  | row :: rows' =>
      _ ← db_call (Insert "RAW.PATIENTS_CDC" "INSERT" (statement_time db k) row)
            (execute_outcome db k);
      insert_patients db (S k) rows'
  end.

(** The block under [if self.patients is not None]. *)
Definition load_patients (db : DbEnv) (self : Generator) : Db unit :=
  match patients self with
  | Some ps =>
      _ ← db_call (Truncate "RAW.PATIENTS_CDC") (execute_outcome db 0);
      insert_patients db 1 ps
  | None => mret tt
  end.

(** The body of the [try] of [load_to_snowflake]: only the patients are
    written; for encounters and lab results the method prints a message
    and executes nothing. *)
Definition load_body (db : DbEnv) (self : Generator) : Db unit :=
  _ ← load_patients db self;
  db_call Commit (commit_outcome db).

(** [SyntheticClinicalDataGenerator.load_to_snowflake]: the keyword
    arguments of [connect] are evaluated in the order they are written; the
    connection and the cursor are obtained before the [try]. *)
Definition load_to_snowflake (config : PyObject) (db : DbEnv)
    (self : Generator) : Db unit :=
  user ← db_lift (getattr config "user");
  password ← db_lift (getattr config "password");
  account ← db_lift (getattr config "account");
  warehouse ← db_lift (getattr config "warehouse");
  database ← db_lift (getattr config "database");
  _ ← db_call (Connect user password account warehouse database "RAW")
        (connect_outcome_db db);
  _ ← db_call GetCursor (cursor_outcome db);
  db_finally
    (db_try_except (load_body db self)
       (λ e, db_call Rollback (rollback_outcome db)))
    (_ ← db_call CursorClose (cursor_close_outcome db);
     db_call ConnectionClose (connection_close_outcome db)).

(** The inserts of a complete load of the rows, the first of them being
    statement [k]. *)
Fixpoint inserts (db : DbEnv) (k : nat) (rows : list Patient.row)
  : list DbCall :=
  match rows with
  | [] => []
  | row :: rows' =>
      Insert "RAW.PATIENTS_CDC" "INSERT" (statement_time db k) row
      :: inserts db (S k) rows'
  end.

(** The statements of a complete load of [self]. *)
Definition load_statements (db : DbEnv) (self : Generator) : list DbCall :=
  match patients self with
  | Some ps => Truncate "RAW.PATIENTS_CDC" :: inserts db 1 ps
  | None => []
  end.

(** An identifier of the form [PREFIX-XXXXXXXX]: the prefix, a dash and
    eight upper-case hexadecimal digits. *)
Definition id_format (prefix id : string) : Prop :=
  exists body,
    id = prefix +:+ "-" +:+ body /\
    String.length body = 8%nat /\
    Forall (λ c, c ∈ String.list_ascii_of_string "0123456789ABCDEF")
           (String.list_ascii_of_string body).

(** *** Sample loads *)

Definition sample_generator : Generator :=
  mkGenerator 1 (Some [sample_patient]) (Some [sample_encounter]) (Some []).

(** A configuration read from an empty environment, and the same object
    after [config.warehouse = 'CLINICAL_INIT_WH']. *)
Definition default_config : PyObject := from_env (λ _, None).
Definition patched_config : PyObject :=
  setattr default_config "warehouse" "CLINICAL_INIT_WH".

Definition healthy_db : DbEnv :=
  mkDbEnv (Ret tt) (Ret tt) (λ _, Ret tt) (Ret tt) (Ret tt) (Ret tt) (Ret tt)
          (λ k, 1790000000000000 + Z.of_nat k).

(** The warehouse cannot be reached. *)
Definition unreachable_db : DbEnv :=
  mkDbEnv (Raise (DatabaseError "250001: Could not connect")) (Ret tt)
          (λ _, Ret tt) (Ret tt) (Ret tt) (Ret tt) (Ret tt)
          (λ k, 1790000000000000 + Z.of_nat k).

(** The insert of the first patient fails. *)
Definition failing_db : DbEnv :=
  mkDbEnv (Ret tt) (Ret tt)
          (λ k, if decide (k = 1%nat)
                then Raise (DatabaseError "002003: table does not exist")
                else Ret tt)
          (Ret tt) (Ret tt) (Ret tt) (Ret tt)
          (λ k, 1790000000000000 + Z.of_nat k).

(* ================================================================== *)
(** * Properties *)

(** ** Sorting and indexing *)

#[local] Instance Zle_total : Total Z.le.
Proof. intros x y. lia. Qed.

Lemma sorted_Sorted data : Sorted Z.le (sorted data).
Proof. apply (Sorted_merge_sort Z.le). Qed.

Lemma sorted_Permutation data : sorted data ≡ₚ data.
Proof. apply merge_sort_Permutation. Qed.

Lemma length_sorted data : length (sorted data) = length data.
Proof. apply Permutation_length, sorted_Permutation. Qed.

Lemma py_getitem_in_range {A} (l : list A) (i : Z) :
  0 <= i < Z.of_nat (length l) ->
  exists x, py_getitem l i = Ret x /\ l !! Z.to_nat i = Some x.
Proof.
  intros Hi. unfold py_getitem.
  destruct (decide (i < 0)) as [Hneg|_]; [lia|].
  destruct (decide (0 <= i < Z.of_nat (length l))) as [_|Hn]; [|lia].
  destruct (lookup_lt_is_Some_2 l (Z.to_nat i)) as [x Hx]; [lia|].
  exists x. by rewrite Hx.
Qed.

Lemma py_getitem_past_end {A} (l : list A) (i : Z) :
  Z.of_nat (length l) <= i -> py_getitem l i = Raise IndexError.
Proof.
  intros Hi. unfold py_getitem.
  destruct (decide (i < 0)); [lia|].
  destruct (decide (0 <= i < Z.of_nat (length l))); [lia|done].
Qed.

Lemma int_div100_floor (a b : Z) :
  0 <= a -> 0 <= b -> int_div100 a b = a * b / 100.
Proof. intros. unfold int_div100. apply Z.quot_div_nonneg; lia. Qed.

Lemma nearest_rank_index_bounds (n p : Z) :
  0 < n -> 0 <= p < 100 -> 0 <= n * p / 100 < n.
Proof.
  intros Hn Hp. split.
  - apply Z.div_pos; nia.
  - apply Z.div_lt_upper_bound; nia.
Qed.

Lemma percentile_returns (data : list Z) (p : Z) :
  data <> [] -> 0 <= p < 100 ->
  exists x, percentile data p = Ret x /\
            sorted data !! Z.to_nat (Z.of_nat (length data) * p / 100) = Some x.
Proof.
  intros Hne Hp. unfold percentile.
  assert (0 < Z.of_nat (length data)) by (destruct data; simpl; [done|lia]).
  rewrite int_div100_floor by lia.
  apply py_getitem_in_range. rewrite length_sorted.
  by apply nearest_rank_index_bounds.
Qed.

Example percentile_p95 : percentile [10; 20; 30; 40; 50] 95 = Ret 50.
Proof. vm_compute. reflexivity. Qed.

Example percentile_p50 : percentile [10; 20; 30; 40; 50] 50 = Ret 30.
Proof. vm_compute. reflexivity. Qed.

(** ** C2: the percentile function *)

(** C2, as stated, fails: the index is not clamped.  At percentile 100 the
    index is the length of the list and the lookup raises, whereas the
    clamped index would select 50. *)
Lemma percentile_100_raises :
  percentile [10; 20; 30; 40; 50] 100 = Raise IndexError /\
  sorted [10; 20; 30; 40; 50] !! Z.to_nat (Z.max 0 (Z.min (5 * 100 / 100) (5 - 1)))
    = Some 50.
Proof. split; vm_compute; reflexivity. Qed.

(** C2 (amended): for every non-empty list and every integer percentile
    [0 <= p < 100], [percentile] returns the element of the ascending sort
    of the values at index [floor(N * p / 100)], an index that is always
    within range; no clamping takes place.  On [10,20,30,40,50], P95 is 50
    and P50 is 30. *)
Theorem percentile_nearest_rank (data : list Z) (p : Z) :
  data <> [] -> 0 <= p < 100 ->
  let N := Z.of_nat (length data) in
  Sorted Z.le (sorted data) /\
  sorted data ≡ₚ data /\
  0 <= N * p / 100 < N /\
  (exists x, percentile data p = Ret x /\
             sorted data !! Z.to_nat (N * p / 100) = Some x) /\
  percentile [10; 20; 30; 40; 50] 95 = Ret 50 /\
  percentile [10; 20; 30; 40; 50] 50 = Ret 30.
Proof.
  intros Hne Hp N.
  split; [apply sorted_Sorted|].
  split; [apply sorted_Permutation|].
  split.
  { apply nearest_rank_index_bounds; [|done].
    subst N. destruct data; simpl; [done|lia]. }
  split; [by apply percentile_returns|].
  split; [apply percentile_p95|apply percentile_p50].
Qed.

Lemma percentile_nearest_rank_witness :
  [3; 1; 2] <> [] /\ 0 <= 50 < 100 /\
  exists x, percentile [3; 1; 2] 50 = Ret x /\
            sorted [3; 1; 2] !! Z.to_nat (3 * 50 / 100) = Some x.
Proof.
  split; [done|]. split; [lia|].
  apply (percentile_nearest_rank [3; 1; 2] 50); [done|lia].
Defined.

(** ** Statistics on non-empty samples *)

Lemma py_bind_ret {A B} (a : A) (k : A -> Py B) : (Ret a ≫= k) = k a.
Proof. reflexivity. Qed.

Lemma mean_returns (data : list Z) :
  data <> [] ->
  mean data = Ret (Qmake (sum_list data) (Pos.of_nat (length data))).
Proof. by destruct data. Qed.

Lemma median_returns (data : list Z) :
  data <> [] -> returns (median data).
Proof.
  intros Hne. unfold median.
  assert (Hlen : (0 < length (sorted data))%nat).
  { rewrite length_sorted. destruct data; simpl; [done|lia]. }
  destruct (decide (length (sorted data) = 0%nat)) as [Hz|_]; [lia|].
  pose proof (Nat.Div0.div_lt_upper_bound (length (sorted data)) 2
                (length (sorted data))) as Hhalf.
  destruct (Nat.odd (length (sorted data))) eqn:Hodd.
  - destruct (py_getitem_in_range (sorted data)
                (Z.of_nat (length (sorted data) / 2))) as (x & -> & _);
      [lia|]. by eexists.
  - assert (0 < length (sorted data) / 2)%nat.
    { destruct (length (sorted data)) as [|[|n]] eqn:E; [lia|done|].
      change (S (S n)) with (2 + n)%nat.
      pose proof (Nat.div_le_lower_bound (2 + n) 2 1). lia. }
    destruct (py_getitem_in_range (sorted data)
                (Z.of_nat (length (sorted data) / 2) - 1)) as (a & -> & _);
      [lia|].
    destruct (py_getitem_in_range (sorted data)
                (Z.of_nat (length (sorted data) / 2))) as (b & -> & _);
      [lia|]. by eexists.
Qed.

Lemma py_min_returns (data : list Z) : data <> [] -> returns (py_min data).
Proof. destruct data; [done|]. by eexists. Qed.

Lemma py_max_returns (data : list Z) : data <> [] -> returns (py_max data).
Proof. destruct data; [done|]. by eexists. Qed.

Lemma pct_of_returns (a b : nat) :
  b <> 0%nat ->
  pct_of a b = Ret (Qmake (Z.of_nat a) (Pos.of_nat b) * 100)%Q.
Proof. intros. unfold pct_of. by destruct (decide (b = 0%nat)). Qed.

Lemma target_met_iff (a b : nat) (pct : Q) :
  pct_of a b = Ret pct ->
  target_met pct = true <-> (95 * b <= 100 * a)%nat.
Proof.
  unfold pct_of. destruct (decide (b = 0%nat)) as [|Hb]; [done|].
  intros [= <-]. unfold target_met. rewrite Qle_bool_iff.
  unfold Qle. cbn [Qnum Qden Qmult].
  rewrite Pos.mul_1_r.
  assert (Z.pos (Pos.of_nat b) = Z.of_nat b) as -> by lia.
  lia.
Qed.

(** ** The reporter returns on every input *)

Lemma mapM_returns {A B} (f : A -> Py B) (l : list A) :
  (forall x, x ∈ l -> returns (f x)) ->
  exists k, mapM f l = Ret k /\ Forall2 (λ x y, f x = Ret y) l k.
Proof.
  induction l as [|x l IH]; intros Hf.
  - exists []. split; [done|constructor].
  - destruct (Hf x) as [y Hy]; [left|].
    destruct IH as (k & Hk & HF).
    { intros z Hz. apply Hf. by right. }
    exists (y :: k). split; [|by constructor].
    cbn. rewrite Hy. cbn. by rewrite Hk.
Qed.

Lemma unique_from_elem (seen l : list string) (x : string) :
  x ∈ unique_from seen l -> x ∈ l.
Proof.
  revert seen. induction l as [|y l IH]; intros seen; simpl; [done|].
  destruct (decide (y ∈ seen)).
  - intros H. right. by eapply IH.
  - intros [->|H]%elem_of_cons; [left|right; by eapply IH].
Qed.

Lemma unique_from_complete (seen l : list string) (x : string) :
  x ∈ l -> x ∉ seen -> x ∈ unique_from seen l.
Proof.
  revert seen. induction l as [|y l IH]; intros seen; simpl.
  - by intros ?%elem_of_nil.
  - intros [->|Hx]%elem_of_cons Hseen.
    + destruct (decide (y ∈ seen)); [done|left].
    + destruct (decide (y ∈ seen)); [by apply IH|].
      destruct (decide (x = y)) as [->|Hne]; [left|].
      right. apply IH; [done|]. by intros [?|?]%elem_of_cons.
Qed.

Lemma unique_from_NoDup (seen l : list string) :
  NoDup (unique_from seen l) /\ forall x, x ∈ unique_from seen l -> x ∉ seen.
Proof.
  revert seen. induction l as [|y l IH]; intros seen; simpl.
  - split; [constructor|]. by intros x ?%elem_of_nil.
  - destruct (decide (y ∈ seen)) as [Hin|Hnin]; [apply IH|].
    destruct (IH (y :: seen)) as [Hnd Hfresh]. split.
    + constructor; [|done]. intros Hy. apply (Hfresh y Hy). left.
    + intros x [->|Hx]%elem_of_cons; [done|].
      intros Hs. apply (Hfresh x Hx). by right.
Qed.

Lemma elem_of_unique (l : list string) (x : string) : x ∈ unique l <-> x ∈ l.
Proof.
  split; [apply unique_from_elem|].
  intros H. apply unique_from_complete; [done|]. by intros ?%elem_of_nil.
Qed.

Lemma NoDup_unique (l : list string) : NoDup (unique l).
Proof. apply unique_from_NoDup. Qed.

Lemma times_of_nonempty (succ : list QueryResult) (name : string) :
  name ∈ unique (query_name <$> succ) -> times_of name succ <> [].
Proof.
  rewrite elem_of_unique. intros (r & -> & Hr)%list_elem_of_fmap.
  unfold times_of. intros Hnil%fmap_nil_inv.
  assert (r ∈ filter (λ r0, query_name r0 = query_name r) succ) as Hin
    by (by apply list_elem_of_filter).
  rewrite Hnil in Hin. by apply elem_of_nil in Hin.
Qed.

Lemma query_metrics_returns (succ : list QueryResult) (name : string) :
  times_of name succ <> [] -> returns (query_metrics succ name).
Proof.
  intros Hne. unfold query_metrics.
  rewrite (mean_returns _ Hne). cbn.
  destruct (median_returns _ Hne) as [md ->]. cbn.
  destruct (py_min_returns _ Hne) as [lo ->]. cbn.
  destruct (py_max_returns _ Hne) as [hi ->]. cbn.
  destruct (percentile_returns _ 95 Hne) as (p95 & -> & _); [lia|]. cbn.
  destruct (percentile_returns _ 99 Hne) as (p99 & -> & _); [lia|]. cbn.
  rewrite pct_of_returns by (by destruct (times_of name succ)). cbn.
  by eexists.
Qed.

Lemma overall_metrics_returns (succ : list QueryResult) :
  succ <> [] -> returns (overall_metrics succ).
Proof.
  intros Hne0. unfold overall_metrics.
  assert (Hne : execution_time_ms <$> succ <> []) by (by destruct succ).
  rewrite (mean_returns _ Hne). cbn.
  destruct (median_returns _ Hne) as [md ->]. cbn.
  destruct (percentile_returns _ 95 Hne) as (p95 & -> & _); [lia|]. cbn.
  destruct (percentile_returns _ 99 Hne) as (p99 & -> & _); [lia|]. cbn.
  rewrite pct_of_returns by (by destruct succ). cbn.
  by eexists.
Qed.

Lemma performance_metrics_shape (succ : list QueryResult) :
  exists ms,
    performance_metrics succ = Ret ms /\
    (succ = [] -> ms = None) /\
    (succ <> [] ->
     exists per ov,
       ms = Some (per, ov) /\
       Forall2 (λ name qm, query_metrics succ name = Ret qm)
         (unique (query_name <$> succ)) per /\
       overall_metrics succ = Ret ov).
Proof.
  unfold performance_metrics.
  destruct (decide (0 < length succ)%nat) as [Hpos|Hz].
  - destruct (mapM_returns (query_metrics succ)
                (unique (query_name <$> succ))) as (per & Hper & HF).
    { intros name Hname. by apply query_metrics_returns, times_of_nonempty. }
    destruct (overall_metrics_returns succ) as [ov Hov].
    { intros ->. simpl in Hpos. lia. }
    rewrite Hper. cbn [mbind Py_bind py_bind]. rewrite Hov.
    cbn [mbind Py_bind py_bind].
    eexists. split; [done|]. split.
    + intros ->. simpl in Hpos. lia.
    + intros _. by exists per, ov.
  - eexists. split; [done|]. split; [done|].
    intros Hs. destruct succ; [done|]. simpl in Hz. lia.
Qed.

(** The shape of every report on a non-empty collection. *)
Lemma report_shape (rs : list QueryResult) :
  rs <> [] ->
  exists spct ms,
    generate_performance_report rs =
      Ret (Analysed (mkReport (length rs) (length (successful rs)) spct
                       (length rs - length (successful rs)) ms rs)) /\
    performance_metrics (successful rs) = Ret ms.
Proof.
  intros Hne. unfold generate_performance_report.
  destruct rs as [|r rs']; [done|]. set (rs := r :: rs') in *.
  rewrite pct_of_returns by done. cbn [mbind Py_bind py_bind].
  destruct (performance_metrics_shape (successful rs)) as (ms & Hms & _).
  rewrite Hms. cbn [mbind Py_bind py_bind]. by eexists _, _.
Qed.

Lemma generate_performance_report_returns (rs : list QueryResult) :
  returns (generate_performance_report rs).
Proof.
  destruct rs as [|r rs]; [by eexists|].
  destruct (report_shape (r :: rs)) as (? & ? & -> & _); [done|]. by eexists.
Qed.

(** ** What the printed statistics are statistics of *)

Ltac bind_inv H :=
  repeat match type of H with
         | context [mbind _ ?m] =>
             let E := fresh "E" in
             destruct m eqn:E; cbn [mbind Py_bind py_bind] in H;
             [|discriminate H]
         end.

Lemma times_of_successful (name : string) (rs : list QueryResult) :
  times_of name (successful rs) = successful_times_of name rs.
Proof.
  unfold times_of, successful, successful_times_of.
  by rewrite list_filter_filter.
Qed.

Lemma query_metrics_inv (succ : list QueryResult) (name : string)
    (qm : QueryMetrics) :
  query_metrics succ name = Ret qm ->
  qm_name qm = name /\ query_stats_over (times_of name succ) qm.
Proof.
  unfold query_metrics. intros H. bind_inv H.
  injection H as <-. by repeat split.
Qed.

Lemma overall_metrics_inv (succ : list QueryResult) (ov : OverallMetrics) :
  overall_metrics succ = Ret ov ->
  overall_stats_over (execution_time_ms <$> succ) ov.
Proof.
  unfold overall_metrics. intros H. bind_inv H.
  injection H as <-. by repeat split.
Qed.

Lemma length_filter_success (rs : list QueryResult) :
  (length rs - length (successful rs))%nat
  = length (filter (λ r, success r = false) rs).
Proof.
  unfold successful.
  assert (length rs = length (filter (λ r, success r = true) rs)
                      + length (filter (λ r, success r = false) rs))%nat
    as Hsplit; [|lia].
  induction rs as [|r rs IH]; [done|].
  rewrite !filter_cons. destruct (success r); simpl.
  - destruct (decide (true = true)); [|done].
    destruct (decide (true = false)); [done|]. simpl. lia.
  - destruct (decide (false = true)); [done|].
    destruct (decide (false = false)); [|done]. simpl. lia.
Qed.

Lemma per_query_names (succ : list QueryResult) (names : list string)
    (per : list QueryMetrics) :
  Forall2 (λ name qm, query_metrics succ name = Ret qm) names per ->
  qm_name <$> per = names /\
  Forall (λ qm, query_stats_over (times_of (qm_name qm) succ) qm) per.
Proof.
  induction 1 as [|name qm names per Hqm _ [IHn IHs]]; [done|].
  apply query_metrics_inv in Hqm as [Hname Hstats].
  split; [by rewrite fmap_cons, Hname, IHn|].
  constructor; [by rewrite Hname|done].
Qed.

(** ** C7: reporting on no samples *)

(** C7: invoked on an empty collection of results, the reporter returns
    normally with the "no query results" indicator; it raises nothing (in
    particular no division by zero). *)
Theorem report_empty_no_data :
  generate_performance_report [] = Ret NoQueryResults /\
  returns (generate_performance_report []) /\
  (forall e, generate_performance_report [] <> Raise e).
Proof.
  split; [reflexivity|]. split; [by exists NoQueryResults|].
  intros e. discriminate.
Qed.

(** ** The samples behind a report *)

Lemma statistics_over_successful_only_aux (rs : list QueryResult) :
  rs <> [] ->
  exists rep,
    generate_performance_report rs = Ret (Analysed rep) /\
    match metrics rep with
    | None => forall r, r ∈ rs -> success r = false
    | Some (per, ov) =>
        qm_name <$> per
          = unique (query_name <$> filter (λ r, success r = true) rs) /\
        Forall (λ qm, query_stats_over
                        (successful_times_of (qm_name qm) rs) qm) per /\
        overall_stats_over (successful_times rs) ov
    end.
Proof.
  intros Hne.
  destruct (report_shape rs Hne) as (spct & ms & Hrep & Hms).
  eexists. split; [exact Hrep|]. cbn [metrics].
  destruct (performance_metrics_shape (successful rs))
    as (ms' & Hms' & Hnone & Hsome).
  rewrite Hms in Hms'. injection Hms' as <-.
  destruct (decide (successful rs = [])) as [Hnil|Hsucc].
  - rewrite (Hnone Hnil). intros r Hr.
    destruct (success r) eqn:Hs; [|done].
    assert (r ∈ successful rs) as Hin by (by apply list_elem_of_filter).
    rewrite Hnil in Hin. by apply elem_of_nil in Hin.
  - destruct (Hsome Hsucc) as (per & ov & -> & HF & Hov).
    apply per_query_names in HF as [Hnames Hstats].
    split; [done|]. split.
    + eapply Forall_impl; [exact Hstats|]. intros qm Hq.
      by rewrite <- times_of_successful.
    + by apply overall_metrics_inv in Hov.
Qed.

(** ** C10: statistics are taken over the successful results only *)

(** C10: on a non-empty collection the reporter returns a report whose
    total is the number of results, whose failed count is the number of
    failed results, and whose latency statistics and SLA fractions, per
    query name and overall, are those of the latencies of the successful
    results; any collection with the same successful results has the same
    statistics. *)
Theorem statistics_over_successful_only (rs : list QueryResult) :
  rs <> [] ->
  exists rep,
    generate_performance_report rs = Ret (Analysed rep) /\
    total_executed rep = length rs /\
    successful_count rep = length (filter (λ r, success r = true) rs) /\
    failed_count rep = length (filter (λ r, success r = false) rs) /\
    match metrics rep with
    | None => forall r, r ∈ rs -> success r = false
    | Some (per, ov) =>
        qm_name <$> per
          = unique (query_name <$> filter (λ r, success r = true) rs) /\
        Forall (λ qm, query_stats_over
                        (successful_times_of (qm_name qm) rs) qm) per /\
        overall_stats_over (successful_times rs) ov
    end /\
    (forall rs',
        rs' <> [] ->
        filter (λ r, success r = true) rs'
          = filter (λ r, success r = true) rs ->
        exists rep',
          generate_performance_report rs' = Ret (Analysed rep') /\
          metrics rep' = metrics rep).
Proof.
  intros Hne.
  destruct (report_shape rs Hne) as (spct & ms & Hrep & Hms).
  eexists. split; [exact Hrep|]. cbn [total_executed successful_count
    failed_count metrics].
  split; [done|]. split; [done|]. split; [apply length_filter_success|].
  split.
  - destruct (statistics_over_successful_only_aux rs Hne)
      as (rep' & Hrep' & Hm).
    rewrite Hrep in Hrep'. by injection Hrep' as <-.
  - intros rs' Hne' Hsame.
    destruct (report_shape rs' Hne') as (spct' & ms' & Hrep' & Hms').
    eexists. split; [exact Hrep'|]. cbn [metrics].
    unfold successful in Hms', Hms. rewrite Hsame, Hms in Hms'.
    by injection Hms' as <-.
Qed.

Lemma statistics_over_successful_only_witness :
  [sample_ok; sample_failed] <> [] /\
  exists rep,
    generate_performance_report [sample_ok; sample_failed]
      = Ret (Analysed rep) /\
    total_executed rep = 2%nat /\ failed_count rep = 1%nat.
Proof.
  split; [done|].
  destruct (statistics_over_successful_only [sample_ok; sample_failed])
    as (rep & Hrep & Htot & _ & Hfail & _); [done|].
  exists rep. split; [exact Hrep|]. split; [exact Htot|exact Hfail].
Defined.

(** ** C6: the SLA verdict *)

Lemma nineteen_of_twenty (ts : list Z) :
  length ts = 20%nat -> count_under_100ms ts = 19%nat ->
  exists pct,
    pct_of (count_under_100ms ts) (length ts) = Ret pct /\
    (pct == 95)%Q /\ target_met pct = true.
Proof.
  intros -> ->. eexists. split; [reflexivity|]. split; reflexivity.
Qed.

(** C6, as stated, fails: the fraction is taken over the successful
    executions only.  Of four recorded samples of one query type, one is
    below 100 ms and three (failed after 200 ms) are not, which is 25%; the
    reporter prints 100% and "met", for the query type and for the whole
    run. *)
Lemma sla_met_while_most_samples_slow :
  length sample_1_ok_3_failed = 4%nat /\
  count_under_100ms (execution_time_ms <$> sample_1_ok_3_failed) = 1%nat /\
  ~ (95 * 4 <= 100 * 1)%nat /\
  exists rep qm ov,
    generate_performance_report sample_1_ok_3_failed = Ret (Analysed rep) /\
    metrics rep = Some ([qm], ov) /\
    qm_name qm = "recent_labs" /\
    (qm_pct_under_100ms qm == 100)%Q /\ qm_target_met qm = true /\
    (ov_pct_under_100ms ov == 100)%Q /\ ov_sla_met ov = true.
Proof.
  split; [reflexivity|]. split; [reflexivity|]. split; [lia|].
  eexists _, _, _. split; [vm_compute; reflexivity|].
  cbn [metrics]. split; [reflexivity|].
  cbn [qm_name qm_pct_under_100ms qm_target_met ov_pct_under_100ms
       ov_sla_met].
  split; [reflexivity|]. split; [reflexivity|]. split; [reflexivity|].
  split; reflexivity.
Qed.

(** C6 (amended): in every report, the verdict printed for a query name,
    and the verdict printed for the whole run, is "met" exactly when at
    least 95% of that collection's successful samples are strictly below
    100 ms; failed executions are left out of the fraction.  When at least
    one query succeeded, the report carries one whole-run verdict and
    exactly one per-type verdict for every query name that has a successful
    execution, and for no other name; when no query succeeded it carries no
    verdict.  Twenty samples of which nineteen are below 100 ms give 95.0%,
    which meets the SLA. *)
Theorem sla_verdict_met_iff (rs : list QueryResult) (rep : Report) :
  generate_performance_report rs = Ret (Analysed rep) ->
  (forall per ov,
      metrics rep = Some (per, ov) ->
      Forall (λ qm,
              let ts := successful_times_of (qm_name qm) rs in
              qm_target_met qm = true
              <-> (95 * length ts <= 100 * count_under_100ms ts)%nat) per /\
      (let ts := successful_times rs in
       ov_sla_met ov = true
       <-> (95 * length ts <= 100 * count_under_100ms ts)%nat)) /\
  ((exists r, r ∈ rs /\ success r = true) ->
   exists per ov,
     metrics rep = Some (per, ov) /\
     NoDup (qm_name <$> per) /\
     (forall name,
         name ∈ qm_name <$> per
         <-> exists r, r ∈ rs /\ success r = true /\ query_name r = name)) /\
  ((forall r, r ∈ rs -> success r = false) -> metrics rep = None) /\
  (forall ts : list Z,
      length ts = 20%nat -> count_under_100ms ts = 19%nat ->
      exists pct,
        pct_of (count_under_100ms ts) (length ts) = Ret pct /\
        (pct == 95)%Q /\ target_met pct = true).
Proof.
  intros Hrep.
  assert (rs <> []) as Hne by (intros ->; discriminate Hrep).
  destruct (statistics_over_successful_only_aux rs Hne)
    as (rep' & Hrep' & Hm).
  rewrite Hrep in Hrep'. injection Hrep' as <-.
  split; [|split; [|split; [|apply nineteen_of_twenty]]].
  - intros per ov Hmet. rewrite Hmet in Hm.
    destruct Hm as (_ & Hper & Hov). split.
    + eapply Forall_impl; [exact Hper|]. intros qm Hq. cbv zeta.
      destruct Hq as (_ & _ & _ & _ & _ & _ & _ & Hpct & ->).
      by eapply target_met_iff.
    + destruct Hov as (_ & _ & _ & _ & Hpct & ->).
      by eapply target_met_iff.
  - intros (r & Hr & Hs).
    destruct (metrics rep) as [[per ov]|].
    + exists per, ov. split; [done|]. destruct Hm as (Hnames & _).
      rewrite Hnames. split; [apply NoDup_unique|].
      intros name. rewrite elem_of_unique, list_elem_of_fmap. split.
      * intros (r' & -> & [Hs' Hr']%list_elem_of_filter). by exists r'.
      * intros (r' & Hr' & Hs' & <-). exists r'.
        split; [done|]. by apply list_elem_of_filter.
    + rewrite (Hm r Hr) in Hs. discriminate.
  - intros Hfailed. destruct (metrics rep) as [[per ov]|]; [|done].
    destruct Hm as (_ & _ & Hmean & _). exfalso.
    assert (successful_times rs = []) as Hnil.
    { unfold successful_times.
      assert (filter (λ r, success r = true) rs = []) as ->; [|done].
      clear -Hfailed. induction rs as [|r rs IH]; [done|].
      rewrite filter_cons. rewrite (Hfailed r) by left.
      destruct (decide (false = true)); [done|].
      apply IH. intros r' Hr'. apply Hfailed. by right. }
    rewrite Hnil in Hmean. discriminate Hmean.
Qed.

Lemma sla_verdict_met_iff_witness :
  exists rep per ov,
    generate_performance_report sample_19_of_20 = Ret (Analysed rep) /\
    metrics rep = Some (per, ov) /\
    "recent_labs" ∈ qm_name <$> per /\
    Forall (λ qm, qm_target_met qm = true) per /\
    ov_sla_met ov = true.
Proof.
  destruct (generate_performance_report sample_19_of_20)
    as [[|rep]|] eqn:Hrep; [vm_compute in Hrep; discriminate Hrep | |
                            vm_compute in Hrep; discriminate Hrep].
  destruct (sla_verdict_met_iff sample_19_of_20 rep Hrep)
    as (Hiff & Hboth & _).
  destruct Hboth as (per & ov & Hm & _ & Hnames).
  { eexists. split; [left|reflexivity]. }
  exists rep, per, ov. split; [done|]. split; [done|].
  destruct (Hiff per ov Hm) as [Hper Hov].
  split; [|split].
  - apply Hnames. eexists. split; [left|]. split; reflexivity.
  - apply Forall_forall. intros qm Hqm.
    rewrite Forall_forall in Hper. apply (Hper qm Hqm).
    assert (qm_name qm = "recent_labs") as ->.
    { destruct (proj1 (Hnames (qm_name qm))
                  (list_elem_of_fmap_2 qm_name _ _ Hqm))
        as (r & Hr & _ & <-).
      revert r Hr. apply Forall_forall.
      apply (bool_decide_unpack _). vm_compute. reflexivity. }
    vm_compute. lia.
  - apply Hov. vm_compute. lia.
Defined.

(** ** C3: failures are captured at the execution boundary *)

Lemma round_half_even_nonneg (n d : Z) :
  0 <= n -> 0 < d -> 0 <= round_half_even n d.
Proof.
  intros Hn Hd. unfold round_half_even.
  assert (0 <= n / d) by (apply Z.div_pos; lia).
  repeat case_decide; destruct (Z.even (n / d)); lia.
Qed.

Lemma execute_query_cases (env : QueryEnv) (name query_sql : string)
    (params : option Params) :
  execute_query env name query_sql params =
    match query_call (env_cursor env) query_sql params with
    | Ret results =>
        Ret (mkQueryResult name (Some (cur_sfqid (env_cursor env)))
               (elapsed_ms (env_start_time env) (env_end_time env))
               (length results) (env_now env) true None)
    | Raise e =>
        Ret (mkQueryResult name None
               (elapsed_ms (env_start_time env) (env_end_time env))
               0 (env_now env) false (Some (str_exn e)))
    end.
Proof.
  unfold execute_query, query_call, try_except.
  destruct (cur_execute _ _ _) as [[]|e]; cbn [mbind Py_bind py_bind];
    [|done].
  by destruct (cur_fetchall _).
Qed.

Lemma round_half_even_neg (n d : Z) :
  n <= - d -> 0 < d -> round_half_even n d < 0.
Proof.
  intros Hn Hd. unfold round_half_even.
  assert (n / d <= -1) by (apply Z.div_le_upper_bound; lia).
  pose proof (Z.mod_pos_bound n d Hd) as Hr.
  pose proof (Z.div_mod n d ltac:(lia)) as Hdm.
  repeat case_decide; [lia| |destruct (Z.even (n / d))].
  - assert (n / d < -1 \/ n / d = -1) as [|Heq] by lia; [lia|].
    rewrite Heq in Hdm. lia.
  - lia.
  - assert (n / d < -1 \/ n / d = -1) as [|Heq] by lia; [lia|].
    rewrite Heq in Hdm. lia.
Qed.

(** C3, as stated, fails: the duration is the difference of two readings
    of the wall clock, [time.time()], and when the clock is set back while
    the query runs (here by 12.347 ms) the duration that [execute_query]
    records for the failed attempt is negative, -12.35 ms. *)
Lemma backward_clock_negative_duration :
  query_call (env_cursor backward_clock_env) "SELECT 1" None
    = Raise (DatabaseError "000604: SQL execution canceled") /\
  execute_query backward_clock_env "ed_census" "SELECT 1" None =
    Ret (mkQueryResult "ed_census" None (-1235) 0 77 false
           (Some "000604: SQL execution canceled")) /\
  -1235 < 0.
Proof. split; [reflexivity|]. split; [reflexivity|]. lia. Qed.

(** The error text is [str(e)]: for a [KeyError] the key in quotes. *)
Example execute_query_missing_parameter :
  execute_query (mkQueryEnv missing_param_cursor 1000 13347 77)
    "patient_summary" "SELECT 1" (Some [("id", "PAT-0A1B2C3D")]) =
    Ret (mkQueryResult "patient_summary" None 1235 0 77 false
           (Some "'patient_id'")).
Proof. reflexivity. Qed.

(** C3 (amended): whatever the underlying query call does, [execute_query]
    returns a result and raises nothing.  If the call raises [e], the result
    has [success = false], [str(e)] as its error, no rows, and the duration
    measured between the two readings of the wall clock; if the call returns
    rows, the result has [success = true] and the number of fetched rows.
    The duration is non-negative whenever the second reading is not earlier
    than the first, and negative when the clock was set back by a hundredth
    of a millisecond or more between the readings. *)
Theorem execute_query_captures_failure (env : QueryEnv)
    (name query_sql : string) (params : option Params) :
  returns (execute_query env name query_sql params) /\
  (forall e,
      query_call (env_cursor env) query_sql params = Raise e ->
      execute_query env name query_sql params =
        Ret (mkQueryResult name None
               (elapsed_ms (env_start_time env) (env_end_time env))
               0 (env_now env) false (Some (str_exn e)))) /\
  (forall results,
      query_call (env_cursor env) query_sql params = Ret results ->
      execute_query env name query_sql params =
        Ret (mkQueryResult name (Some (cur_sfqid (env_cursor env)))
               (elapsed_ms (env_start_time env) (env_end_time env))
               (length results) (env_now env) true None)) /\
  (env_start_time env <= env_end_time env ->
   forall r, execute_query env name query_sql params = Ret r ->
             0 <= execution_time_ms r) /\
  (env_end_time env + 10 <= env_start_time env ->
   forall r, execute_query env name query_sql params = Ret r ->
             execution_time_ms r < 0).
Proof.
  rewrite execute_query_cases.
  split; [destruct (query_call _ _ _); by eexists|].
  split; [by intros e ->|]. split; [by intros results ->|].
  split.
  - intros Hclock r Hr.
    assert (0 <= elapsed_ms (env_start_time env) (env_end_time env))
      by (apply round_half_even_nonneg; lia).
    destruct (query_call _ _ _); by injection Hr as <-.
  - intros Hclock r Hr.
    assert (elapsed_ms (env_start_time env) (env_end_time env) < 0)
      by (apply round_half_even_neg; lia).
    destruct (query_call _ _ _); by injection Hr as <-.
Qed.

Lemma execute_query_captures_failure_witness :
  query_call (env_cursor failing_env) "SELECT 1" None
    = Raise (DatabaseError "000604: SQL execution canceled") /\
  env_start_time failing_env <= env_end_time failing_env /\
  execute_query failing_env "ed_census" "SELECT 1" None =
    Ret (mkQueryResult "ed_census" None 1235 0 77 false
           (Some "000604: SQL execution canceled")) /\
  0 <= 1235.
Proof.
  split; [reflexivity|]. split; [vm_compute; discriminate|].
  destruct (execute_query_captures_failure failing_env "ed_census"
              "SELECT 1" None) as (_ & Hfail & _ & Hpos & _).
  split.
  - exact (Hfail _ eq_refl).
  - apply (Hpos ltac:(vm_compute; discriminate) _ (Hfail _ eq_refl)).
Defined.

(** ** Sessions *)

Lemma execute_query_spec (env : QueryEnv) (name query_sql : string)
    (params : option Params) :
  exists r,
    execute_query env name query_sql params = Ret r /\
    query_name r = name /\
    execution_time_ms r
      = elapsed_ms (env_start_time env) (env_end_time env) /\
    (success r = false
     <-> exists e, query_call (env_cursor env) query_sql params = Raise e).
Proof.
  rewrite execute_query_cases.
  destruct (query_call _ _ _) as [rows|e]; eexists; (split; [done|]);
    cbn; (split; [done|]); (split; [done|]).
  - split; [done|]. by intros [e ?].
  - split; [|done]. by exists e.
Qed.

Lemma dashboard_loop_spec (envs : nat -> QueryEnv) (pid : string)
    (names : list string) (i : nat) (acc : list QueryResult) :
  (forall name, name ∈ names ->
                returns (dict_get dashboard_queries name)) ->
  exists rs,
    dashboard_loop envs pid names i acc = Ret (acc ++ rs) /\
    Forall2 (λ kn r, records_query envs pid kn.1 kn.2 r)
            (zip (seq i (length names)) names) rs.
Proof.
  revert i acc. induction names as [|name names IH]; intros i acc Hkeys.
  - exists []. split; [by rewrite app_nil_r|constructor].
  - destruct (Hkeys name) as [query_sql Hsql]; [left|].
    destruct (execute_query_spec (envs i) name query_sql
                (Some [("patient_id", pid)])) as (r & Hr & Hn & Ht & Hs).
    destruct (IH (S i) (acc ++ [r])) as (rs & Hrs & HF).
    { intros n Hn'. apply Hkeys. by right. }
    exists (r :: rs). split.
    + cbn [dashboard_loop]. rewrite Hsql. cbn [mbind Py_bind py_bind].
      rewrite Hr. cbn [mbind Py_bind py_bind].
      by rewrite Hrs, <- app_assoc.
    + cbn [length seq zip zip_with]. constructor; [|done].
      by exists query_sql.
Qed.

Lemma patient_queries_known (name : string) :
  name ∈ patient_queries -> returns (dict_get dashboard_queries name).
Proof.
  unfold patient_queries.
  rewrite !elem_of_cons, elem_of_nil.
  intros [->|[->|[->|[]]]]; by eexists.
Qed.

Lemma simulate_single_dashboard_load_spec (envs : nat -> QueryEnv)
    (pid : string) :
  exists s,
    simulate_single_dashboard_load envs pid = Ret s /\
    patient_id s = pid /\
    total_load_time_ms s = sum_list (execution_time_ms <$> query_results s) /\
    Forall2 (λ kn r, records_query envs pid kn.1 kn.2 r)
            (zip (seq 0 3) patient_queries) (query_results s).
Proof.
  unfold simulate_single_dashboard_load.
  destruct (dashboard_loop_spec envs pid patient_queries 0 [])
    as (rs & Hrs & HF); [apply patient_queries_known|].
  rewrite Hrs. cbn [mbind Py_bind py_bind app].
  eexists. split; [done|]. by cbn.
Qed.

(** ** C9: the session total *)

(** C9, as stated, fails: a session result has no flag.  Two sessions with
    the same clock readings, one with a failed query and one without,
    agree on every session-level field; only the children differ. *)
Lemma session_has_no_failure_flag :
  exists s_failed s_ok,
    simulate_single_dashboard_load session_envs_failing "PAT-00000001"
      = Ret s_failed /\
    simulate_single_dashboard_load session_envs_working "PAT-00000001"
      = Ret s_ok /\
    Exists (λ r, success r = false) (query_results s_failed) /\
    Forall (λ r, success r = true) (query_results s_ok) /\
    patient_id s_failed = patient_id s_ok /\
    total_load_time_ms s_failed = total_load_time_ms s_ok.
Proof.
  eexists _, _. split; [vm_compute; reflexivity|].
  split; [vm_compute; reflexivity|]. cbn [query_results].
  split; [right; left; reflexivity|].
  split; [repeat constructor|]. split; reflexivity.
Qed.

(** C9 (amended): every session returns a result whose total load time is
    the sum of the durations of its three query results, each of which is
    the duration measured for that query whether it failed or not; a
    failure is recorded in the failed child's own [success] field and
    nowhere else in the session result. *)
Theorem session_total_is_sum (envs : nat -> QueryEnv) (pid : string) :
  exists s,
    simulate_single_dashboard_load envs pid = Ret s /\
    patient_id s = pid /\
    total_load_time_ms s = sum_list (execution_time_ms <$> query_results s) /\
    query_name <$> query_results s = patient_queries /\
    (forall i r,
        query_results s !! i = Some r ->
        execution_time_ms r
          = elapsed_ms (env_start_time (envs i)) (env_end_time (envs i)) /\
        exists query_sql,
          dict_get dashboard_queries (query_name r) = Ret query_sql /\
          (success r = false
           <-> exists e, query_call (env_cursor (envs i)) query_sql
                           (Some [("patient_id", pid)]) = Raise e)).
Proof.
  destruct (simulate_single_dashboard_load_spec envs pid)
    as (s & Hs & Hp & Ht & HF).
  exists s. split; [done|]. split; [done|]. split; [done|].
  destruct s as [p t qs]. cbn [query_results] in *.
  cbn [seq zip zip_with patient_queries] in HF.
  apply Forall2_cons_inv_l in HF as (r0 & qs0 & H0 & HF & ->).
  apply Forall2_cons_inv_l in HF as (r1 & qs1 & H1 & HF & ->).
  apply Forall2_cons_inv_l in HF as (r2 & qs2 & H2 & HF & ->).
  apply Forall2_nil_inv_l in HF as ->.
  destruct H0 as (sql0 & ? & Hn0 & ? & ?).
  destruct H1 as (sql1 & ? & Hn1 & ? & ?).
  destruct H2 as (sql2 & ? & Hn2 & ? & ?).
  cbn [fst snd] in *.
  split; [cbn; by rewrite Hn0, Hn1, Hn2|].
  intros [|[|[|i]]] r Hr; cbn in Hr; try done; injection Hr as <-.
  - split; [done|]. exists sql0. by rewrite Hn0.
  - split; [done|]. exists sql1. by rewrite Hn1.
  - split; [done|]. exists sql2. by rewrite Hn2.
Qed.

(** ** Concurrent runs *)

Lemma store_query_results_app (qs : list QueryResult)
    (result : DashboardLoadResult) :
  store_query_results qs result = qs ++ query_results result.
Proof.
  unfold store_query_results. generalize (query_results result) as l.
  intros l. revert qs. induction l as [|q l IH]; intros qs; simpl.
  - by rewrite app_nil_r.
  - rewrite IH. by rewrite <- app_assoc.
Qed.

Lemma collect_completed_returned (rs all : list DashboardLoadResult)
    (qs : list QueryResult) :
  collect_completed (Ret <$> rs) all qs
  = Ret (all ++ rs, qs ++ concat (query_results <$> rs)).
Proof.
  revert all qs. induction rs as [|r rs IH]; intros all qs.
  - cbn. by rewrite !app_nil_r.
  - cbn [fmap list_fmap collect_completed mbind Py_bind py_bind].
    change (list_fmap _ _ Ret rs) with (Ret <$> rs).
    rewrite IH, store_query_results_app.
    cbn [concat]. by rewrite <- !app_assoc.
Qed.

(** A permutation of returned futures is a list of returned futures. *)
Lemma Permutation_returned {A} (fs fs' : list (Py A)) :
  fs' ≡ₚ fs ->
  forall ss, fs = Ret <$> ss -> exists rs, fs' = Ret <$> rs /\ rs ≡ₚ ss.
Proof.
  induction 1 as [|f l l' Hp IH|f g l|l l' l'' Hp1 IH1 Hp2 IH2]; intros ss Hss.
  - exists []. by destruct ss.
  - destruct ss as [|s ss]; [done|]. injection Hss as -> ->.
    destruct (IH ss eq_refl) as (rs & -> & Hrs).
    exists (s :: rs). split; [done|]. by constructor.
  - destruct ss as [|s [|s' ss]]; try done. injection Hss as -> -> ->.
    exists (s' :: s :: ss). split; [done|]. apply perm_swap.
  - destruct (IH2 ss Hss) as (rs' & Hrs' & Hp').
    destruct (IH1 rs' Hrs') as (rs & Hrs & Hp'').
    exists rs. split; [done|]. by etrans.
Qed.

Lemma imap_sessions (g : nat -> string -> Py DashboardLoadResult)
    (pats : list string) :
  (forall k pid, exists s, g k pid = Ret s /\ patient_id s = pid /\
                           well_formed_session s) ->
  exists ss, imap g pats = Ret <$> ss /\
             patient_id <$> ss = pats /\
             Forall well_formed_session ss.
Proof.
  revert g. induction pats as [|pid pats IH]; intros g Hg.
  - exists []. by repeat split.
  - destruct (Hg 0%nat pid) as (s & Hs & Hp & Hw).
    destruct (IH (g ∘ S)) as (ss & Hss & Hps & Hws).
    { intros k pid'. apply Hg. }
    exists (s :: ss). rewrite imap_cons, Hs, Hss.
    split; [done|]. split; [by rewrite fmap_cons, Hp, Hps|by constructor].
Qed.

Lemma submit_all_sessions (env : LoadEnv) (iteration : nat)
    (pats : list string) :
  exists ss, submit_all env iteration pats = Ret <$> ss /\
             patient_id <$> ss = pats /\
             Forall well_formed_session ss.
Proof.
  apply imap_sessions. intros k pid.
  destruct (simulate_single_dashboard_load_spec
              (session_envs env iteration k) pid) as (s & Hs & Hp & _ & HF).
  exists s. split; [done|]. split; [done|].
  unfold well_formed_session. by apply Forall2_length in HF.
Qed.

Lemma iterate_dashboards_spec (env : LoadEnv) (W : nat)
    (ids : list string) (its : list nat)
    (all : list DashboardLoadResult) (qs : list QueryResult) :
  fair env -> W <> 0%nat ->
  exists rs,
    iterate_dashboards env W ids its all qs
      = Ret (all ++ rs, qs ++ concat (query_results <$> rs)) /\
    Ret <$> rs
      ≡ₚ concat ((λ it, submit_all env it
                         (py_slice ids (it * W) (it * W + W))) <$> its) /\
    patient_id <$> rs
      ≡ₚ concat ((λ it, py_slice ids (it * W) (it * W + W)) <$> its) /\
    Forall well_formed_session rs.
Proof.
  intros Hfair HW. revert all qs.
  induction its as [|it its IH]; intros all qs.
  - exists []. cbn. by rewrite !app_nil_r.
  - cbn [iterate_dashboards]. unfold thread_pool_executor.
    destruct (decide (W = 0%nat)) as [|_]; [done|].
    cbn [mbind Py_bind py_bind].
    destruct (submit_all_sessions env it
                (py_slice ids (it * W) (it * W + W)))
      as (ss & Hss & Hps & Hws).
    destruct (Permutation_returned _ _ (Hfair it _) ss Hss)
      as (rs1 & Hrs1 & Hperm).
    rewrite Hrs1, collect_completed_returned.
    cbn [mbind Py_bind py_bind fst snd].
    destruct (IH (all ++ rs1) (qs ++ concat (query_results <$> rs1)))
      as (rs2 & -> & Hp2 & Hid2 & Hw2).
    exists (rs1 ++ rs2). split.
    { by rewrite fmap_app, concat_app, <- !app_assoc. }
    split; [|split].
    + rewrite !fmap_app, fmap_cons. cbn [concat].
      rewrite Hss. by rewrite Hperm, Hp2.
    + rewrite !fmap_app, fmap_cons. cbn [concat].
      by rewrite Hperm, Hps, Hid2.
    + apply Forall_app. split; [by rewrite Hperm|done].
Qed.

Lemma concat_batches {A} (ids : list A) (W I : nat) :
  concat ((λ it, py_slice ids (it * W) (it * W + W)) <$> seq 0 I)
  = take (I * W) ids.
Proof.
  induction I as [|I IH]; [done|].
  rewrite seq_S, fmap_app, concat_app, IH. cbn [fmap list_fmap concat].
  rewrite app_nil_r. unfold py_slice.
  replace (0 + I)%nat with I by lia.
  replace (I * W + W - I * W)%nat with W by lia.
  rewrite take_take_drop. f_equal. lia.
Qed.

Lemma length_concat_sessions (rs : list DashboardLoadResult) :
  Forall well_formed_session rs ->
  length (concat (query_results <$> rs)) = (length rs * 3)%nat.
Proof.
  induction 1 as [|r rs Hr _ IH]; [done|].
  cbn. rewrite length_app, IH, Hr. lia.
Qed.

(** ** C4: the size of a concurrent run *)

(** C4, as stated, fails for width 0: the thread pool refuses zero workers
    and the run raises instead of producing an empty result. *)
Lemma zero_width_run_raises :
  (0 * 1 <= length (patients_table sample_load_env))%nat /\
  simulate_concurrent_dashboards sample_load_env 0 1 []
  = Raise (ValueError "max_workers must be greater than 0").
Proof. split; [simpl; lia|reflexivity]. Qed.

(** C4 (amended): for every width [W >= 1] and every iteration count [I],
    when the patients table yields at least [W * I] ids and every future is
    yielded once, a concurrent run returns exactly [W * I] session results,
    one for each sampled patient id, and appends exactly [W * I * 3] query
    results to the shared collection: the three results of each session,
    none lost and none twice. *)
Theorem concurrent_run_counts (env : LoadEnv) (W I : nat)
    (qs : list QueryResult) :
  fair env -> (1 <= W)%nat ->
  (W * I <= length (patients_table env))%nat ->
  exists all_results new,
    simulate_concurrent_dashboards env W I qs = Ret (all_results, qs ++ new) /\
    length all_results = (W * I)%nat /\
    length new = (W * I * 3)%nat /\
    Forall (λ s, length (query_results s) = 3%nat) all_results /\
    new = concat (query_results <$> all_results) /\
    patient_id <$> all_results ≡ₚ take (W * I) (patients_table env) /\
    Ret <$> all_results ≡ₚ submitted_sessions env W I.
Proof.
  intros Hfair HW Hlen. unfold simulate_concurrent_dashboards.
  destruct (iterate_dashboards_spec env W
              (get_sample_patient_ids env (W * I)) (seq 0 I) [] qs)
    as (rs & Hrun & Hperm & Hids & Hwf); [done|lia|].
  rewrite concat_batches in Hids.
  unfold get_sample_patient_ids in Hids.
  rewrite take_take, (Nat.mul_comm I W), Nat.min_id in Hids.
  assert (length rs = (W * I)%nat) as Hn.
  { rewrite <- (length_fmap patient_id), Hids, length_take. lia. }
  exists rs, (concat (query_results <$> rs)).
  split; [done|]. split; [done|].
  split; [by rewrite length_concat_sessions, Hn|].
  split; [done|]. split; [done|]. split; [done|].
  exact Hperm.
Qed.

Lemma concurrent_run_counts_witness :
  fair sample_load_env /\ (1 <= 3)%nat /\
  (3 * 1 <= length (patients_table sample_load_env))%nat /\
  exists all_results new,
    simulate_concurrent_dashboards sample_load_env 3 1 []
      = Ret (all_results, [] ++ new) /\
    length all_results = (3 * 1)%nat /\
    length new = (3 * 1 * 3)%nat.
Proof.
  assert (fair sample_load_env) as Hfair.
  { intros it fs. simpl. apply reverse_Permutation. }
  split; [exact Hfair|]. split; [lia|]. split; [simpl; lia|].
  destruct (concurrent_run_counts sample_load_env 3 1 [] Hfair)
    as (all_results & new & Hrun & Hn & Hm & _); [lia|simpl; lia|].
  by exists all_results, new.
Defined.

(* ================================================================== *)
(** * The synthetic data generator: properties *)

(** ** A small program logic for [Gen] *)

Lemma gen_bind_inv {A B} (m : Gen A) (k : A -> Gen B) w b w' :
  (m ≫= k) w = Ret (b, w') ->
  exists a w1, m w = Ret (a, w1) /\ k a w1 = Ret (b, w').
Proof.
  unfold mbind, Gen_bind, gen_bind.
  destruct (m w) as [[a w1]|e]; [|done]. intros H. by exists a, w1.
Qed.

Lemma post_ret {A} (a : A) (P : A -> Prop) : P a -> gen_post (mret a) P.
Proof. intros HP w a' w' [= <- _]. exact HP. Qed.

Lemma post_bind {A B} (m : Gen A) (k : A -> Gen B) (Q : A -> Prop)
    (P : B -> Prop) :
  gen_post m Q -> (forall a, Q a -> gen_post (k a) P) ->
  gen_post (m ≫= k) P.
Proof.
  intros Hm Hk w b w' (a & w1 & Ha & Hb)%gen_bind_inv.
  eapply Hk; [|exact Hb]. by eapply Hm.
Qed.

Lemma post_weaken {A} (m : Gen A) (P Q : A -> Prop) :
  gen_post m P -> (forall a, P a -> Q a) -> gen_post m Q.
Proof. intros Hm HPQ w a w' H. eapply HPQ, Hm, H. Qed.

Lemma post_trivial {A} (m : Gen A) : gen_post m (λ _, True).
Proof. by intros w a w' _. Qed.

Lemma post_and {A} (m : Gen A) (P Q : A -> Prop) :
  gen_post m P -> gen_post m Q -> gen_post m (λ a, P a /\ Q a).
Proof. intros HP HQ w a w' H. split; [eapply HP|eapply HQ]; exact H. Qed.

Lemma post_raise {A} (e : PyExn) (P : A -> Prop) : gen_post (gen_raise e) P.
Proof. intros w a w' H. discriminate H. Qed.

Lemma total_ret {A} (a : A) : gen_total (mret a : Gen A).
Proof. intros w. by exists a, w. Qed.

Lemma total_bind {A B} (m : Gen A) (k : A -> Gen B) (Q : A -> Prop) :
  gen_total m -> gen_post m Q -> (forall a, Q a -> gen_total (k a)) ->
  gen_total (m ≫= k).
Proof.
  intros Hm HQ Hk w. destruct (Hm w) as (a & w1 & Ha).
  destruct (Hk a (HQ _ _ _ Ha) w1) as (b & w' & Hb).
  exists b, w'. unfold mbind, Gen_bind, gen_bind. by rewrite Ha.
Qed.

Lemma total_bind_any {A B} (m : Gen A) (k : A -> Gen B) :
  gen_total m -> (forall a, gen_total (k a)) -> gen_total (m ≫= k).
Proof.
  intros Hm Hk. apply (total_bind m k (λ _, True)); [done| |done].
  apply post_trivial.
Qed.

(** ** The draws *)

Lemma total_draw_py_random : gen_total draw_py_random.
Proof. intros w. unfold draw_py_random. simpl. by eexists _, _. Qed.

Lemma total_draw_np_random : gen_total draw_np_random.
Proof. intros w. unfold draw_np_random. simpl. by eexists _, _. Qed.

Lemma total_fake : gen_total fake.
Proof. intros w. unfold fake, draw_faker. simpl. by eexists _, _. Qed.

Lemma total_datetime_now : gen_total datetime_now.
Proof. intros w. unfold datetime_now. simpl. by eexists _, _. Qed.

Lemma total_uuid4 : gen_total uuid4.
Proof.
  apply total_bind_any; [|intros; apply total_ret].
  intros w. unfold draw_os_urandom. simpl. by eexists _, _.
Qed.

Lemma total_new_id (prefix : string) : gen_total (new_id prefix).
Proof. apply total_bind_any; [apply total_uuid4|intros; apply total_ret]. Qed.

Lemma total_random_random : gen_total random_random.
Proof.
  apply total_bind_any; [apply total_draw_py_random|intros; apply total_ret].
Qed.

Lemma post_random_random :
  gen_post random_random (λ u, 0 <= u < random_unit).
Proof.
  eapply post_bind; [apply post_trivial|]. intros raw _.
  apply post_ret. by apply Z.mod_pos_bound.
Qed.

Lemma total_randint (a b : Z) : gen_total (randint a b).
Proof.
  apply total_bind_any; [apply total_draw_py_random|intros; apply total_ret].
Qed.

Lemma post_randint (a b : Z) :
  a <= b -> gen_post (randint a b) (λ x, a <= x <= b).
Proof.
  intros Hab. eapply post_bind; [apply post_trivial|]. intros raw _.
  apply post_ret. pose proof (Z.mod_pos_bound raw (b - a + 1)). lia.
Qed.

Lemma total_randbelow (n : nat) : gen_total (randbelow n).
Proof.
  apply total_bind_any; [apply total_draw_py_random|intros; apply total_ret].
Qed.

Lemma post_randbelow (n : nat) :
  (0 < n)%nat -> gen_post (randbelow n) (λ j, (j < n)%nat).
Proof.
  intros Hn. eapply post_bind; [apply post_trivial|]. intros raw _.
  apply post_ret. pose proof (Z.mod_pos_bound raw (Z.of_nat n)). lia.
Qed.

Lemma post_choice {A} (seq : list A) : gen_post (choice seq) (λ x, x ∈ seq).
Proof.
  unfold choice. destruct seq as [|a seq]; [apply post_raise|].
  eapply post_bind; [apply post_trivial|]. intros j _.
  destruct (_ !! j) as [x|] eqn:Hx; [|apply post_raise].
  apply post_ret. by eapply list_elem_of_lookup_2.
Qed.

Lemma total_choice {A} (seq : list A) : seq <> [] -> gen_total (choice seq).
Proof.
  intros Hne. unfold choice. destruct seq as [|a seq]; [done|].
  eapply total_bind; [apply total_randbelow|apply post_randbelow|].
  { simpl. lia. }
  intros j Hj. cbv beta in Hj.
  destruct (lookup_lt_is_Some_2 (a :: seq) j Hj) as [x ->].
  apply total_ret.
Qed.

Lemma bisect_weights_le (weights : list Z) (acc x : Z) (hi : nat) :
  (bisect_weights weights acc x hi <= hi)%nat.
Proof.
  revert weights acc. induction hi as [|hi IH]; intros [|wt weights] acc;
    simpl; try lia.
  case_decide; [|lia]. specialize (IH weights (acc + wt)). lia.
Qed.

Lemma post_choices {A} (population : list A) (weights : list Z) :
  gen_post (choices population weights) (λ x, x ∈ population).
Proof.
  unfold choices. eapply post_bind; [apply post_trivial|]. intros u _.
  destruct (_ !! _) as [x|] eqn:Hx; [|apply post_raise].
  apply post_ret. by eapply list_elem_of_lookup_2.
Qed.

Lemma total_choices {A} (population : list A) (weights : list Z) :
  population <> [] -> gen_total (choices population weights).
Proof.
  intros Hne. unfold choices.
  apply total_bind_any; [apply total_random_random|]. intros u.
  match goal with |- context [population !! ?i] =>
    destruct (lookup_lt_is_Some_2 population i) as [x ->] end;
    [|apply total_ret].
  match goal with |- (bisect_weights ?ws ?a ?x ?hi < _)%nat =>
    pose proof (bisect_weights_le ws a x hi) end.
  destruct population; [done|]. simpl in *. lia.
Qed.

Lemma total_uniform_round2 (a b : Z) : gen_total (uniform_round2 a b).
Proof.
  apply total_bind_any; [apply total_random_random|intros; apply total_ret].
Qed.

Lemma post_poisson (lam : Q) : gen_post (poisson lam) (λ n, 0 <= n).
Proof.
  unfold poisson. destruct (negb _); [apply post_raise|].
  eapply post_bind; [apply post_trivial|]. intros raw _.
  apply post_ret. destruct (Qeq_bool lam 0); lia.
Qed.

Lemma total_poisson (lam : Q) : (0 <= lam)%Q -> gen_total (poisson lam).
Proof.
  intros Hlam. unfold poisson.
  apply Qle_bool_iff in Hlam. rewrite Hlam. cbn [negb].
  apply total_bind_any; [apply total_draw_np_random|intros; apply total_ret].
Qed.

(** ** Loops *)

Lemma post_repeat_gen {A} (n : nat) (body : Gen A) (P : A -> Prop) :
  gen_post body P ->
  gen_post (repeat_gen n body) (λ rows, Forall P rows /\ length rows = n).
Proof.
  intros Hbody. induction n as [|n IH]; simpl.
  - apply post_ret. by split.
  - eapply post_bind; [exact Hbody|]. intros x Hx.
    eapply post_bind; [exact IH|]. intros rest [Hrest Hlen].
    apply post_ret. split; [by constructor|]. simpl. by rewrite Hlen.
Qed.

Lemma total_repeat_gen {A} (n : nat) (body : Gen A) :
  gen_total body -> gen_total (repeat_gen n body).
Proof.
  intros Hbody. induction n as [|n IH]; simpl; [apply total_ret|].
  apply total_bind_any; [done|]. intros x.
  apply total_bind_any; [done|]. intros rest. apply total_ret.
Qed.

Lemma post_for_each {X A} (xs : list X) (body : X -> Gen (list A))
    (P : X -> A -> Prop) :
  (forall x, x ∈ xs -> gen_post (body x) (Forall (P x))) ->
  gen_post (for_each xs body)
           (Forall (λ row, exists x, x ∈ xs /\ P x row)).
Proof.
  induction xs as [|x xs IH]; intros Hbody; simpl.
  - apply post_ret. constructor.
  - eapply post_bind; [apply Hbody; left|]. intros rows Hrows.
    eapply post_bind.
    { apply IH. intros y Hy. apply Hbody. by right. }
    intros rest Hrest. apply post_ret. apply Forall_app. split.
    + eapply Forall_impl; [exact Hrows|]. intros row Hrow.
      exists x. split; [left|done].
    + eapply Forall_impl; [exact Hrest|]. intros row (y & Hy & Hrow).
      exists y. split; [by right|done].
Qed.

Lemma post_for_each_batches {X A} (xs : list X) (body : X -> Gen (list A))
    (Q : X -> list A -> Prop) :
  (forall x, x ∈ xs -> gen_post (body x) (Q x)) ->
  gen_post (for_each xs body) (in_batches Q xs).
Proof.
  induction xs as [|x xs IH]; intros Hbody; simpl.
  - apply post_ret. exists []. split; [done|constructor].
  - eapply post_bind; [apply Hbody; left|]. intros rows Hrows.
    eapply post_bind.
    { apply IH. intros y Hy. apply Hbody. by right. }
    intros rest (batches & -> & HF). apply post_ret.
    exists (rows :: batches). split; [done|by constructor].
Qed.

Lemma in_batches_weaken {P R} (Q Q' : P -> list R -> Prop)
    (parents : list P) (rows : list R) :
  (forall p b, p ∈ parents -> Q p b -> Q' p b) ->
  in_batches Q parents rows -> in_batches Q' parents rows.
Proof.
  intros HQ (batches & -> & HF). exists batches. split; [done|].
  clear -HQ HF. induction HF as [|p b ps bs Hpb _ IH]; constructor.
  - apply HQ; [left|done].
  - apply IH. intros p' b' Hp'. apply HQ. by right.
Qed.

Lemma in_batches_elem {P R} (rel : P -> R -> Prop) (parents : list P)
    (rows : list R) :
  in_batches (λ p b, Forall (rel p) b) parents rows ->
  Forall (λ row, exists p, p ∈ parents /\ rel p row) rows.
Proof.
  intros (batches & -> & HF).
  induction HF as [|p b ps bs Hpb _ IH]; [constructor|].
  cbn [concat]. apply Forall_app. split.
  - eapply Forall_impl; [exact Hpb|]. intros row Hrow.
    exists p. split; [left|done].
  - eapply Forall_impl; [exact IH|]. intros row (p' & Hp' & Hrow).
    exists p'. split; [by right|done].
Qed.

Lemma NoDup_fmap_elem_inj {A B} (f : A -> B) (l : list A) (x y : A) :
  NoDup (f <$> l) -> x ∈ l -> y ∈ l -> f x = f y -> x = y.
Proof.
  induction l as [|a l IH]; [by intros _ ?%elem_of_nil|].
  rewrite fmap_cons. intros [Ha Hnd]%NoDup_cons.
  intros [->|Hx]%elem_of_cons [->|Hy]%elem_of_cons Hf.
  - done.
  - exfalso. apply Ha. rewrite Hf. by apply list_elem_of_fmap_2.
  - exfalso. apply Ha. rewrite <- Hf. by apply list_elem_of_fmap_2.
  - by apply IH.
Qed.

Lemma total_for_each {X A} (xs : list X) (body : X -> Gen (list A)) :
  (forall x, x ∈ xs -> gen_total (body x)) -> gen_total (for_each xs body).
Proof.
  induction xs as [|x xs IH]; intros Hbody; simpl; [apply total_ret|].
  apply total_bind_any; [apply Hbody; left|]. intros rows.
  apply total_bind_any; [|intros; apply total_ret].
  apply IH. intros y Hy. apply Hbody. by right.
Qed.

Lemma post_mapM {X A} (f : X -> Gen A) (xs : list X) (P : X -> A -> Prop) :
  (forall x, x ∈ xs -> gen_post (f x) (P x)) ->
  gen_post (mapM f xs) (λ rows, Forall2 P xs rows).
Proof.
  induction xs as [|x xs IH]; intros Hf; simpl.
  - apply post_ret. constructor.
  - eapply post_bind; [apply Hf; left|]. intros row Hrow.
    eapply post_bind.
    { apply IH. intros y Hy. apply Hf. by right. }
    intros rest Hrest. apply post_ret. by constructor.
Qed.

Lemma total_mapM {X A} (f : X -> Gen A) (xs : list X) :
  (forall x, x ∈ xs -> gen_total (f x)) -> gen_total (mapM f xs).
Proof.
  induction xs as [|x xs IH]; intros Hf; simpl; [apply total_ret|].
  apply total_bind_any; [apply Hf; left|]. intros row.
  apply total_bind_any; [|intros; apply total_ret].
  apply IH. intros y Hy. apply Hf. by right.
Qed.

Lemma post_lookup_key {V} (d : list (string * V)) (key : string) :
  gen_post (lookup_key d key) (λ v, (key, v) ∈ d).
Proof.
  induction d as [|[k v] d IH]; simpl; [apply post_raise|].
  case_decide as Hk.
  - subst k. apply post_ret. left.
  - eapply post_weaken; [exact IH|]. intros v' Hv'. by right.
Qed.

Lemma total_lookup_key {V} (d : list (string * V)) (key : string) :
  key ∈ keys d -> gen_total (lookup_key d key).
Proof.
  induction d as [|[k v] d IH]; cbn [lookup_key].
  - by intros ?%elem_of_nil.
  - change (keys ((k, v) :: d)) with (k :: keys d). intros Hin.
    case_decide as Hk; [apply total_ret|].
    apply IH. apply elem_of_cons in Hin as [->|Hin]; done.
Qed.

(** ** Patients *)

Lemma total_new_patient : gen_total new_patient.
Proof.
  unfold new_patient.
  apply total_bind_any; [apply total_new_id|intros pid].
  do 3 (apply total_bind_any; [apply total_fake|intros ?]).
  apply total_bind_any; [by apply total_choice|intros gender].
  do 7 (apply total_bind_any; [apply total_fake|intros ?]).
  apply total_bind_any; [apply total_datetime_now|intros now].
  apply total_bind_any; [apply total_randint|intros days].
  apply total_bind_any; [apply total_datetime_now|intros now'].
  apply total_ret.
Qed.

Lemma total_generate_patients (self : Generator) :
  gen_total (generate_patients self).
Proof.
  apply total_bind_any; [|intros; apply total_ret].
  apply total_repeat_gen, total_new_patient.
Qed.

Lemma post_generate_patients (self : Generator) :
  gen_post (generate_patients self)
    (λ g, exists ps, patients g = Some ps /\
                     length ps = Z.to_nat (num_patients self) /\
                     encounters g = encounters self /\
                     lab_results g = lab_results self).
Proof.
  eapply post_bind; [apply (post_repeat_gen _ _ (λ _, True)), post_trivial|].
  intros ps [_ Hlen]. apply post_ret. by exists ps.
Qed.

(** ** Encounters *)

Lemma post_new_encounter (p : Patient.row) :
  gen_post (new_encounter p) (encounter_of p).
Proof.
  unfold new_encounter.
  eapply post_bind; [apply post_choices|]. intros encounter_type Htype.
  eapply post_bind; [apply post_randint; lia|]. intros days Hdays.
  eapply (post_bind _ _
            (λ dd, forall d, dd = Some d ->
                             Patient.CREATED_AT p + timedelta_days days <= d)).
  { case_decide.
    - eapply post_bind; [apply post_randint; lia|]. intros los Hlos.
      apply post_ret. intros d [= <-]. cbv beta in Hlos.
      unfold timedelta_hours. lia.
    - apply post_ret. by intros d. }
  intros discharge_date Hdischarge.
  do 6 (eapply post_bind; [apply post_trivial|]; intros ? _).
  apply post_ret. unfold encounter_of. cbn. cbv beta in Hdays.
  split; [done|]. split; [unfold timedelta_days; lia|]. by split.
Qed.

Lemma total_new_encounter (p : Patient.row) : gen_total (new_encounter p).
Proof.
  unfold new_encounter.
  apply total_bind_any; [by apply total_choices|intros encounter_type].
  apply total_bind_any; [apply total_randint|intros days].
  apply total_bind_any.
  { case_decide; [|apply total_ret].
    apply total_bind_any; [apply total_randint|intros; apply total_ret]. }
  intros discharge_date.
  eapply total_bind; [by apply total_choice|apply post_choice|].
  intros diagnosis_code Hcode.
  apply total_bind_any; [apply total_new_id|intros eid].
  do 2 (apply total_bind_any; [apply total_randint|intros ?]).
  apply total_bind_any; [apply total_fake|intros ?].
  apply total_bind_any; [by apply total_lookup_key|intros; apply total_ret].
Qed.

Lemma post_encounters_of_patient (lam : Q) (p : Patient.row) :
  gen_post (encounters_of_patient lam p)
    (λ rows, Forall (encounter_of p) rows /\
             (1 <= length rows <= 20)%nat).
Proof.
  unfold encounters_of_patient.
  eapply post_bind; [apply post_poisson|]. intros n Hn.
  eapply post_weaken; [apply post_repeat_gen, post_new_encounter|].
  intros rows [Hrows Hlen]. split; [done|].
  rewrite Hlen. unfold clamp_count. lia.
Qed.

Lemma total_encounters_of_patient (lam : Q) (p : Patient.row) :
  (0 <= lam)%Q -> gen_total (encounters_of_patient lam p).
Proof.
  intros Hlam. apply total_bind_any; [by apply total_poisson|]. intros n.
  apply total_repeat_gen, total_new_encounter.
Qed.

Lemma post_generate_encounters (lam : Q) (self : Generator) :
  gen_post (generate_encounters lam self)
    (λ g, exists ps es,
        patients self = Some ps /\ patients g = Some ps /\
        encounters g = Some es /\
        Forall (λ e, exists p, p ∈ ps /\ encounter_of p e) es).
Proof.
  unfold generate_encounters. destruct (patients self) as [ps|] eqn:Hps;
    [|apply post_raise].
  eapply post_bind.
  { apply (post_for_each ps _ encounter_of). intros p _.
    eapply post_weaken; [apply post_encounters_of_patient|]. by intros ? []. }
  intros es Hes. apply post_ret. by exists ps, es.
Qed.

Lemma post_generate_encounters_batches (lam : Q) (self : Generator) :
  gen_post (generate_encounters lam self)
    (λ g, exists ps es,
        patients self = Some ps /\ patients g = Some ps /\
        encounters g = Some es /\ lab_results g = lab_results self /\
        in_batches (λ p b, Forall (encounter_of p) b /\
                           (1 <= length b <= 20)%nat) ps es).
Proof.
  unfold generate_encounters. destruct (patients self) as [ps|] eqn:Hps;
    [|apply post_raise].
  eapply post_bind.
  { apply (post_for_each_batches ps _
             (λ p b, Forall (encounter_of p) b /\ (1 <= length b <= 20)%nat)).
    intros p _. apply post_encounters_of_patient. }
  intros es Hes. apply post_ret. by exists ps, es.
Qed.

Lemma total_generate_encounters (lam : Q) (self : Generator) :
  (0 <= lam)%Q -> is_Some (patients self) ->
  gen_total (generate_encounters lam self).
Proof.
  intros Hlam [ps Hps]. unfold generate_encounters. rewrite Hps.
  apply total_bind_any; [|intros; apply total_ret].
  apply total_for_each. intros p _. by apply total_encounters_of_patient.
Qed.

(** ** Sampling without replacement *)

Lemma swap_out_last {A} (a b : list A) (x last : A) :
  (a ++ x :: b) ++ [last] ≡ₚ x :: a ++ last :: b.
Proof.
  rewrite <- app_assoc. cbn [app].
  rewrite <- (Permutation_middle a (b ++ [last]) x).
  constructor.
  rewrite <- (Permutation_middle a b last).
  rewrite (Permutation_app_comm b [last]). cbn [app].
  by rewrite <- Permutation_middle.
Qed.

(** One round of the pool algorithm: the drawn item leaves the live part
    of the pool, the last live item takes its place. *)
Lemma take_swap_last {A} (pool : list A) (live j : nat) (x last : A) :
  (j < live)%nat -> (live <= length pool)%nat ->
  pool !! j = Some x -> pool !! (live - 1)%nat = Some last ->
  take live pool ≡ₚ x :: take (live - 1) (<[j := last]> pool).
Proof.
  intros Hj Hlive Hx Hlast.
  destruct live as [|m]; [lia|].
  replace (S m - 1)%nat with m in * by lia.
  rewrite (take_S_r _ _ _ Hlast).
  destruct (decide (j = m)) as [->|Hne].
  - rewrite take_insert_ge by lia.
    assert (x = last) as -> by congruence.
    by rewrite Permutation_app_comm.
  - rewrite take_insert_lt by lia.
    assert (take m pool !! j = Some x) as Hxt.
    { rewrite lookup_take_lt by lia. done. }
    rewrite insert_take_drop by (rewrite length_take; lia).
    rewrite <- (take_drop_middle (take m pool) j x Hxt) at 1.
    apply swap_out_last.
Qed.

Lemma post_sample_loop {A} (pool : list A) (live k : nat) :
  (k <= live <= length pool)%nat ->
  gen_post (sample_loop pool live k)
    (λ res, length res = k /\ exists rest, res ++ rest ≡ₚ take live pool).
Proof.
  revert pool live. induction k as [|k IH]; intros pool live Hk; simpl.
  - apply post_ret. split; [done|]. by exists (take live pool).
  - eapply post_bind; [apply post_randbelow; lia|]. intros j Hj.
    cbv beta in Hj.
    destruct (pool !! j) as [x|] eqn:Hx; [|apply post_raise].
    destruct (pool !! (live - 1)%nat) as [last|] eqn:Hlast;
      [|apply post_raise].
    eapply post_bind.
    { apply (IH (<[j := last]> pool) (live - 1)%nat).
      rewrite length_insert. lia. }
    intros rest (Hlen & rem & Hperm). apply post_ret.
    split; [simpl; by rewrite Hlen|].
    exists rem. cbn [app]. rewrite Hperm.
    symmetry. apply take_swap_last; [done|lia|done|done].
Qed.

Lemma total_sample_loop {A} (pool : list A) (live k : nat) :
  (k <= live <= length pool)%nat -> gen_total (sample_loop pool live k).
Proof.
  revert pool live. induction k as [|k IH]; intros pool live Hk; simpl;
    [apply total_ret|].
  eapply total_bind; [apply total_randbelow|apply post_randbelow; lia|].
  intros j Hj. cbv beta in Hj.
  destruct (lookup_lt_is_Some_2 pool j) as [x ->]; [lia|].
  destruct (lookup_lt_is_Some_2 pool (live - 1)) as [last ->]; [lia|].
  apply total_bind_any; [|intros; apply total_ret].
  apply IH. rewrite length_insert. lia.
Qed.

Lemma post_sample {A} (population : list A) (k : nat) :
  NoDup population ->
  gen_post (sample population k)
    (λ res, length res = k /\ NoDup res /\ forall x, x ∈ res -> x ∈ population).
Proof.
  intros Hnd. unfold sample. case_decide as Hk; [|apply post_raise].
  eapply post_weaken; [apply post_sample_loop; lia|].
  intros res (Hlen & rest & Hperm). rewrite firstn_all in Hperm.
  split; [done|]. split.
  - rewrite <- Hperm in Hnd. by apply NoDup_app in Hnd as [? _].
  - intros x Hx. rewrite <- Hperm. apply elem_of_app. by left.
Qed.

Lemma total_sample {A} (population : list A) (k : nat) :
  (k <= length population)%nat -> gen_total (sample population k).
Proof.
  intros Hk. unfold sample. case_decide; [|lia].
  apply total_sample_loop. lia.
Qed.

Lemma NoDup_lab_test_codes : NoDup (keys lab_tests).
Proof. apply (bool_decide_unpack _). by vm_compute. Qed.

(** ** Lab results *)

Lemma total_draw_result (test_info : LabTest) :
  gen_total (draw_result test_info).
Proof.
  unfold draw_result.
  apply total_bind_any; [by apply total_choices|intros result_type].
  repeat case_decide.
  - apply total_bind_any; [apply total_uniform_round2|intros; apply total_ret].
  - apply total_bind_any; [apply total_random_random|intros r].
    case_decide;
      (apply total_bind_any;
       [apply total_uniform_round2|intros; apply total_ret]).
  - apply total_bind_any; [apply total_uniform_round2|intros; apply total_ret].
Qed.

Lemma post_new_lab_result (e : Encounter.row) (test_code : string) :
  gen_post (new_lab_result e test_code)
    (λ l, LabResult.TEST_CODE l = test_code /\
          LabResult.ENCOUNTER_ID l = Encounter.ENCOUNTER_ID e /\
          LabResult.PATIENT_ID l = Encounter.PATIENT_ID e /\
          Encounter.ENCOUNTER_DATE e <= LabResult.TEST_DATE l /\
          LabResult.TEST_DATE l <= LabResult.RESULT_DATE l).
Proof.
  unfold new_lab_result.
  do 2 (eapply post_bind; [apply post_trivial|]; intros ? _).
  eapply post_bind; [apply post_randint; lia|]. intros after Hafter.
  eapply post_bind; [apply post_randint; lia|]. intros turnaround Hturn.
  eapply post_bind; [apply post_trivial|]. intros lid _.
  apply post_ret. cbn. cbv beta in Hafter, Hturn.
  unfold timedelta_hours. repeat split; lia.
Qed.

Lemma total_new_lab_result (e : Encounter.row) (test_code : string) :
  test_code ∈ keys lab_tests -> gen_total (new_lab_result e test_code).
Proof.
  intros Hcode. unfold new_lab_result.
  apply total_bind_any; [by apply total_lookup_key|intros test_info].
  apply total_bind_any; [apply total_draw_result|intros result].
  do 2 (apply total_bind_any; [apply total_randint|intros ?]).
  apply total_bind_any; [apply total_new_id|intros; apply total_ret].
Qed.

Lemma test_codes_of_rows (e : Encounter.row) (codes : list string)
    (rows : list LabResult.row) :
  Forall2 (λ code l,
           LabResult.TEST_CODE l = code /\
           LabResult.ENCOUNTER_ID l = Encounter.ENCOUNTER_ID e /\
           LabResult.PATIENT_ID l = Encounter.PATIENT_ID e /\
           Encounter.ENCOUNTER_DATE e <= LabResult.TEST_DATE l /\
           LabResult.TEST_DATE l <= LabResult.RESULT_DATE l) codes rows ->
  LabResult.TEST_CODE <$> rows = codes /\
  Forall (λ l, LabResult.ENCOUNTER_ID l = Encounter.ENCOUNTER_ID e /\
               LabResult.PATIENT_ID l = Encounter.PATIENT_ID e /\
               Encounter.ENCOUNTER_DATE e <= LabResult.TEST_DATE l /\
               LabResult.TEST_DATE l <= LabResult.RESULT_DATE l) rows.
Proof.
  induction 1 as [|code l codes rows (Hc & Hl) _ [IHc IHl]]; [done|].
  split; [by rewrite fmap_cons, Hc, IHc|by constructor].
Qed.

Lemma post_labs_of_encounter (lam : Q) (e : Encounter.row) :
  gen_post (labs_of_encounter lam e)
    (λ rows,
     (Encounter.ENCOUNTER_TYPE e ∉ lab_encounter_types -> rows = []) /\
     (Encounter.ENCOUNTER_TYPE e ∈ lab_encounter_types ->
      (1 <= length rows <= 8)%nat) /\
     NoDup (LabResult.TEST_CODE <$> rows) /\
     (forall l, l ∈ rows -> LabResult.TEST_CODE l ∈ keys lab_tests) /\
     Forall (lab_result_of e) rows).
Proof.
  unfold labs_of_encounter. case_decide as Htype.
  - apply post_ret. split; [done|]. split; [done|].
    split; [constructor|]. split; [by intros l ?%elem_of_nil|constructor].
  - eapply post_bind; [apply post_poisson|]. intros n Hn.
    eapply post_bind; [apply post_sample, NoDup_lab_test_codes|].
    intros codes (Hlen & Hnd & Hsub).
    eapply post_weaken; [apply post_mapM; intros; apply post_new_lab_result|].
    intros rows [Hcodes Hrows]%test_codes_of_rows.
    split; [done|]. split.
    { intros _. rewrite <- (length_fmap LabResult.TEST_CODE), Hcodes, Hlen.
      unfold clamp_count. simpl. lia. }
    rewrite Hcodes. split; [done|]. split.
    + intros l Hl. apply Hsub. rewrite <- Hcodes.
      by apply list_elem_of_fmap_2.
    + eapply Forall_impl; [exact Hrows|].
      intros l (? & ? & ? & ?). by repeat split.
Qed.

Lemma total_labs_of_encounter (lam : Q) (e : Encounter.row) :
  (0 <= lam)%Q -> gen_total (labs_of_encounter lam e).
Proof.
  intros Hlam. unfold labs_of_encounter. case_decide; [apply total_ret|].
  apply total_bind_any; [by apply total_poisson|intros n].
  eapply total_bind;
    [apply total_sample|apply post_sample, NoDup_lab_test_codes|].
  { unfold keys. rewrite length_fmap. lia. }
  intros codes (_ & _ & Hsub).
  apply total_mapM. intros code Hcode. by apply total_new_lab_result, Hsub.
Qed.

Lemma post_generate_lab_results (lam : Q) (self : Generator) :
  gen_post (generate_lab_results lam self)
    (λ g, exists es ls,
        encounters self = Some es /\ encounters g = Some es /\
        patients g = patients self /\ lab_results g = Some ls /\
        Forall (λ l, exists e, e ∈ es /\ lab_result_of e l) ls).
Proof.
  unfold generate_lab_results. destruct (encounters self) as [es|] eqn:Hes;
    [|apply post_raise].
  eapply post_bind.
  { apply (post_for_each es _ lab_result_of). intros e _.
    eapply post_weaken; [apply post_labs_of_encounter|].
    by intros ? (_ & _ & _ & _ & ?). }
  intros ls Hls. apply post_ret. by exists es, ls.
Qed.

Lemma post_generate_lab_results_batches (lam : Q) (self : Generator) :
  gen_post (generate_lab_results lam self)
    (λ g, exists es ls,
        encounters self = Some es /\ encounters g = Some es /\
        patients g = patients self /\ lab_results g = Some ls /\
        in_batches
          (λ e b,
           Forall (lab_result_of e) b /\
           (Encounter.ENCOUNTER_TYPE e ∉ lab_encounter_types -> b = []) /\
           (Encounter.ENCOUNTER_TYPE e ∈ lab_encounter_types ->
            (1 <= length b <= 8)%nat) /\
           NoDup (LabResult.TEST_CODE <$> b)) es ls).
Proof.
  unfold generate_lab_results. destruct (encounters self) as [es|] eqn:Hes;
    [|apply post_raise].
  eapply post_bind.
  { apply (post_for_each_batches es _
             (λ e b,
              Forall (lab_result_of e) b /\
              (Encounter.ENCOUNTER_TYPE e ∉ lab_encounter_types -> b = []) /\
              (Encounter.ENCOUNTER_TYPE e ∈ lab_encounter_types ->
               (1 <= length b <= 8)%nat) /\
              NoDup (LabResult.TEST_CODE <$> b))).
    intros e _. eapply post_weaken; [apply post_labs_of_encounter|].
    intros b (Hnone & Hsome & Hnd & _ & Hrows). cbv beta.
    split; [exact Hrows|]. split; [exact Hnone|]. split; [exact Hsome|].
    exact Hnd. }
  intros ls Hls. apply post_ret. by exists es, ls.
Qed.

Lemma total_generate_lab_results (lam : Q) (self : Generator) :
  (0 <= lam)%Q -> is_Some (encounters self) ->
  gen_total (generate_lab_results lam self).
Proof.
  intros Hlam [es Hes]. unfold generate_lab_results. rewrite Hes.
  apply total_bind_any; [|intros; apply total_ret].
  apply total_for_each. intros e _. by apply total_labs_of_encounter.
Qed.

Lemma total_generate_dataset (N : Z) (lam1 lam2 : Q) :
  (0 <= lam1)%Q -> (0 <= lam2)%Q ->
  gen_total (generate_dataset N lam1 lam2).
Proof.
  intros H1 H2. unfold generate_dataset.
  eapply total_bind;
    [apply total_generate_patients|apply post_generate_patients|].
  intros g (ps & Hps & _).
  eapply total_bind;
    [apply total_generate_encounters; [done|by rewrite Hps]
    |apply post_generate_encounters|].
  intros g' (ps' & es & _ & _ & Hes & _).
  apply total_generate_lab_results; [done|by rewrite Hes].
Qed.

(** ** C5: relational and temporal invariants of a generated dataset *)

(** C5, as stated, fails: identifiers are the first eight hexadecimal
    digits of a [uuid4] and are not kept apart.  When the entropy read for
    the second patient agrees with that of the first on its first four
    bytes, both patients are PAT-0A1B2C3D, and the first encounter of the
    first patient, which carries this PATIENT_ID, is dated before the
    CREATED_AT of the second patient. *)
Lemma colliding_ids_break_date_order :
  exists g p1 p2 e,
    result_of (generate_dataset 2 1 1 (seeded_world entropy_colliding clock_a))
      = Ret g /\
    patients g = Some [p1; p2] /\
    e ∈ default [] (encounters g) /\
    Patient.PATIENT_ID p1 = "PAT-0A1B2C3D" /\
    Patient.PATIENT_ID p2 = "PAT-0A1B2C3D" /\
    Encounter.PATIENT_ID e = Patient.PATIENT_ID p2 /\
    Encounter.ENCOUNTER_DATE e < Patient.CREATED_AT p2.
Proof.
  eexists _, _, _, _. split; [vm_compute; reflexivity|].
  cbn [patients encounters default]. split; [reflexivity|].
  split; [left|].
  cbn [Patient.PATIENT_ID Patient.CREATED_AT Encounter.PATIENT_ID
       Encounter.ENCOUNTER_DATE].
  split; [reflexivity|]. split; [reflexivity|]. split; [reflexivity|].
  reflexivity.
Qed.

(** C5 (amended): in every dataset the generator produces, the encounters
    lie in their table patient by patient and the lab results encounter by
    encounter; every encounter carries the PATIENT_ID of the patient it was
    generated for and is dated no earlier than that patient's CREATED_AT;
    every lab result carries the ENCOUNTER_ID and PATIENT_ID of the
    encounter it was generated for and is tested no earlier than that
    encounter's ENCOUNTER_DATE; so every foreign key is the key of a
    generated row.  Whenever the PATIENT_IDs of the dataset are pairwise
    distinct, every encounter is dated no earlier than the CREATED_AT of
    the patient with its PATIENT_ID, and whenever the ENCOUNTER_IDs are
    pairwise distinct, every lab result agrees on the PATIENT_ID with the
    encounter with its ENCOUNTER_ID and is tested no earlier than that
    encounter's date.  Every DISCHARGE_DATE is no earlier than the
    ENCOUNTER_DATE and every RESULT_DATE no earlier than the TEST_DATE. *)
Theorem dataset_invariants (N : Z) (lam1 lam2 : Q) (w w' : World)
    (g : Generator) :
  generate_dataset N lam1 lam2 w = Ret (g, w') ->
  exists ps es ls,
    patients g = Some ps /\ encounters g = Some es /\
    lab_results g = Some ls /\
    in_batches
      (λ p b, Forall (λ e, Encounter.PATIENT_ID e = Patient.PATIENT_ID p /\
                           Patient.CREATED_AT p <= Encounter.ENCOUNTER_DATE e)
                     b) ps es /\
    in_batches
      (λ e b, Forall (λ l, LabResult.ENCOUNTER_ID l = Encounter.ENCOUNTER_ID e /\
                           LabResult.PATIENT_ID l = Encounter.PATIENT_ID e /\
                           Encounter.ENCOUNTER_DATE e <= LabResult.TEST_DATE l)
                     b) es ls /\
    Forall (λ e, exists p, p ∈ ps /\
                   Encounter.PATIENT_ID e = Patient.PATIENT_ID p /\
                   Patient.CREATED_AT p <= Encounter.ENCOUNTER_DATE e) es /\
    Forall (λ l, exists e, e ∈ es /\
                   LabResult.ENCOUNTER_ID l = Encounter.ENCOUNTER_ID e /\
                   LabResult.PATIENT_ID l = Encounter.PATIENT_ID e /\
                   Encounter.ENCOUNTER_DATE e <= LabResult.TEST_DATE l) ls /\
    Forall (λ l, exists p, p ∈ ps /\
                   LabResult.PATIENT_ID l = Patient.PATIENT_ID p) ls /\
    (NoDup (Patient.PATIENT_ID <$> ps) ->
     forall e p, e ∈ es -> p ∈ ps ->
                 Encounter.PATIENT_ID e = Patient.PATIENT_ID p ->
                 Patient.CREATED_AT p <= Encounter.ENCOUNTER_DATE e) /\
    (NoDup (Encounter.ENCOUNTER_ID <$> es) ->
     forall l e, l ∈ ls -> e ∈ es ->
                 LabResult.ENCOUNTER_ID l = Encounter.ENCOUNTER_ID e ->
                 LabResult.PATIENT_ID l = Encounter.PATIENT_ID e /\
                 Encounter.ENCOUNTER_DATE e <= LabResult.TEST_DATE l) /\
    Forall (λ e, forall d, Encounter.DISCHARGE_DATE e = Some d ->
                           Encounter.ENCOUNTER_DATE e <= d) es /\
    Forall (λ l, LabResult.TEST_DATE l <= LabResult.RESULT_DATE l) ls.
Proof.
  unfold generate_dataset.
  intros (g1 & w1 & H1 & (g2 & w2 & H2 & H3)%gen_bind_inv)%gen_bind_inv.
  apply post_generate_encounters_batches in H2
    as (ps & es & _ & Hps & Hes & _ & Hencb).
  apply post_generate_lab_results_batches in H3
    as (es' & ls & Hes' & Hes'' & Hps' & Hls & Hlabb).
  rewrite Hes in Hes'. injection Hes' as <-.
  exists ps, es, ls. rewrite Hps'. split; [done|]. split; [done|].
  split; [done|].
  assert (in_batches (λ p b, Forall (encounter_of p) b) ps es) as Henc'.
  { eapply in_batches_weaken; [|exact Hencb]. by intros p b _ [? _]. }
  assert (in_batches (λ e b, Forall (lab_result_of e) b) es ls) as Hlab'.
  { eapply in_batches_weaken; [|exact Hlabb]. by intros e b _ [? _]. }
  pose proof (in_batches_elem _ _ _ Henc') as Henc.
  pose proof (in_batches_elem _ _ _ Hlab') as Hlab.
  rewrite Forall_forall in Henc. rewrite Forall_forall in Hlab.
  split; [|split; [|split; [|split; [|split; [|split; [|split; [|split]]]]]]].
  - eapply in_batches_weaken; [|exact Henc']. intros p b _ Hb.
    eapply Forall_impl; [exact Hb|]. by intros e (? & ? & _).
  - eapply in_batches_weaken; [|exact Hlab']. intros e b _ Hb.
    eapply Forall_impl; [exact Hb|]. by intros l (? & ? & ? & _).
  - apply Forall_forall.
    intros e (p & Hp & Hid & Hdate & _)%Henc. by exists p.
  - apply Forall_forall.
    intros l (e & He & Hid & Hpid & Hdate & _)%Hlab. by exists e.
  - apply Forall_forall. intros l (e & He & _ & Hpid & _)%Hlab.
    destruct (Henc e He) as (p & Hp & Hid & _).
    exists p. split; [done|]. by rewrite Hpid.
  - intros Hnd e p He Hp Hid.
    destruct (Henc e He) as (p0 & Hp0 & Hid0 & Hdate & _).
    assert (p0 = p) as <-; [|done].
    apply (NoDup_fmap_elem_inj Patient.PATIENT_ID ps); [done..|].
    by rewrite <- Hid0.
  - intros Hnd l e Hl He Hid.
    destruct (Hlab l Hl) as (e0 & He0 & Hid0 & Hpid & Hdate & _).
    assert (e0 = e) as <-; [|done].
    apply (NoDup_fmap_elem_inj Encounter.ENCOUNTER_ID es); [done..|].
    by rewrite <- Hid0.
  - apply Forall_forall.
    intros e (p & _ & _ & _ & Hd & _)%Henc. exact Hd.
  - apply Forall_forall.
    intros l (e & _ & _ & _ & _ & Hr & _)%Hlab. exact Hr.
Qed.

Lemma dataset_invariants_witness :
  exists g w',
    generate_dataset 2 1 1 (seeded_world entropy_a clock_a) = Ret (g, w') /\
    exists ps es,
      patients g = Some ps /\ encounters g = Some es /\
      Patient.PATIENT_ID <$> ps = ["PAT-0A1B2C3D"; "PAT-0A1B2C3E"] /\
      NoDup (Patient.PATIENT_ID <$> ps) /\
      forall e p, e ∈ es -> p ∈ ps ->
                  Encounter.PATIENT_ID e = Patient.PATIENT_ID p ->
                  Patient.CREATED_AT p <= Encounter.ENCOUNTER_DATE e.
Proof.
  destruct (total_generate_dataset 2 1 1 ltac:(discriminate)
              ltac:(discriminate) (seeded_world entropy_a clock_a))
    as (g & w' & Hrun).
  exists g, w'. split; [exact Hrun|].
  destruct (dataset_invariants _ _ _ _ _ _ Hrun)
    as (ps & es & ls & Hps & Hes & _ & _ & _ & _ & _ & _ & Hbyid & _).
  assert (exists g0,
             result_of (generate_dataset 2 1 1 (seeded_world entropy_a clock_a))
               = Ret g0 /\
             Patient.PATIENT_ID <$> default [] (patients g0)
               = ["PAT-0A1B2C3D"; "PAT-0A1B2C3E"]) as (g0 & Hg0 & Hids).
  { eexists. split; [vm_compute; reflexivity|reflexivity]. }
  rewrite Hrun in Hg0. cbn [result_of] in Hg0. injection Hg0 as Hg.
  rewrite <- Hg, Hps in Hids.
  change (Patient.PATIENT_ID <$> ps = ["PAT-0A1B2C3D"; "PAT-0A1B2C3E"])
    in Hids.
  assert (NoDup (Patient.PATIENT_ID <$> ps)) as Hnd.
  { rewrite Hids. apply (bool_decide_unpack _). vm_compute. reflexivity. }
  exists ps, es.
  split; [exact Hps|]. split; [exact Hes|]. split; [exact Hids|].
  split; [exact Hnd|]. exact (Hbyid Hnd).
Defined.

(** ** C8: lab results per encounter *)

(** C8, as stated, fails: a Poisson draw of 9 is clamped to 9, but the
    catalog holds eight tests and eight lab results are generated. *)
Lemma nine_drawn_eight_generated :
  Encounter.ENCOUNTER_TYPE sample_encounter = "OUTPATIENT" /\
  result_of (poisson 3 (seeded_world entropy_a clock_a)) = Ret 9 /\
  clamp_count 9 10 = 9 /\
  exists rows,
    result_of (labs_of_encounter 3 sample_encounter
                 (seeded_world entropy_a clock_a)) = Ret rows /\
    length rows = 8%nat.
Proof.
  split; [reflexivity|]. split; [vm_compute; reflexivity|].
  split; [reflexivity|].
  eexists. split; [vm_compute; reflexivity|]. reflexivity.
Qed.

(** C8 (amended): lab results are generated only for EMERGENCY, INPATIENT
    and OUTPATIENT encounters, a TELEHEALTH encounter receives none; for
    every such encounter the number of lab results is the Poisson draw
    clamped to [1, 10] and then capped at the size of the catalog, eight;
    the test codes of one encounter are drawn from the catalog and are
    pairwise distinct. *)
Theorem lab_results_per_encounter :
  (forall (lam : Q) (e : Encounter.row) (w w' : World)
          (rows : list LabResult.row),
      labs_of_encounter lam e w = Ret (rows, w') ->
      (Encounter.ENCOUNTER_TYPE e ∉ lab_encounter_types -> rows = []) /\
      (Encounter.ENCOUNTER_TYPE e = "TELEHEALTH" -> rows = []) /\
      (Encounter.ENCOUNTER_TYPE e ∈ lab_encounter_types ->
       exists n w1,
         poisson lam w = Ret (n, w1) /\ 0 <= n /\
         Z.of_nat (length rows) = Z.min (clamp_count n 10) 8) /\
      NoDup (LabResult.TEST_CODE <$> rows) /\
      (forall l, l ∈ rows ->
                 LabResult.TEST_CODE l ∈ keys lab_tests /\
                 LabResult.ENCOUNTER_ID l = Encounter.ENCOUNTER_ID e)) /\
  (forall (lam : Q) (self g : Generator) (w w' : World),
      generate_lab_results lam self w = Ret (g, w') ->
      exists es ls,
        encounters self = Some es /\ lab_results g = Some ls /\
        Forall (λ l, exists e,
                  e ∈ es /\
                  LabResult.ENCOUNTER_ID l = Encounter.ENCOUNTER_ID e /\
                  Encounter.ENCOUNTER_TYPE e
                    ∈ ["EMERGENCY"; "INPATIENT"; "OUTPATIENT"]) ls).
Proof.
  split.
  - intros lam e w w' rows Hrun.
    destruct (post_labs_of_encounter lam e _ _ _ Hrun)
      as (Hnone & Hsome & Hnd & Hcodes & Hrows).
    split; [done|]. split.
    { intros Htele. apply Hnone. rewrite Htele. unfold lab_encounter_types.
      rewrite !elem_of_cons, elem_of_nil. by intros [|[|[|[]]]]. }
    split; [|split; [done|]].
    + intros Htype. unfold labs_of_encounter in Hrun.
      destruct (decide (Encounter.ENCOUNTER_TYPE e ∉ lab_encounter_types));
        [done|].
      apply gen_bind_inv in Hrun as (k & w1 & Hn & Hrun).
      apply gen_bind_inv in Hrun as (codes & w2 & Hcodes' & Hrun).
      exists k, w1. split; [done|].
      pose proof (post_poisson lam _ _ _ Hn) as Hpos. cbv beta in Hpos.
      split; [done|].
      destruct (post_sample _ _ NoDup_lab_test_codes _ _ _ Hcodes')
        as (Hlen & _ & _).
      pose proof (post_mapM _ _ _
                    (λ x _, post_new_lab_result e x) _ _ _ Hrun) as HF.
      cbv beta in HF. apply Forall2_length in HF.
      rewrite <- HF, Hlen. unfold clamp_count. simpl. lia.
    + intros l Hl. split; [by apply Hcodes|].
      rewrite Forall_forall in Hrows. by destruct (Hrows l Hl).
  - intros lam self g w w' Hrun.
    apply post_generate_lab_results in Hrun
      as (es & ls & Hes & _ & _ & Hls & Hlab).
    exists es, ls. split; [done|]. split; [done|].
    eapply Forall_impl; [exact Hlab|].
    intros l (e & He & Hid & _ & _ & _ & Htype). by exists e.
Qed.

Lemma lab_results_per_encounter_witness :
  exists rows w',
    labs_of_encounter 3 sample_encounter (seeded_world entropy_a clock_a)
      = Ret (rows, w') /\
    NoDup (LabResult.TEST_CODE <$> rows).
Proof.
  destruct (total_labs_of_encounter 3 sample_encounter ltac:(discriminate)
              (seeded_world entropy_a clock_a)) as (rows & w' & Hrun).
  exists rows, w'. split; [exact Hrun|].
  destruct lab_results_per_encounter as [Hper _].
  destruct (Hper _ _ _ _ _ Hrun) as (_ & _ & _ & Hnd & _). exact Hnd.
Defined.

(** ** C1: reproducibility under the fixed seed *)

(** C1 fails on the code: two runs whose three seeded generators deliver
    the same draws, started at the same clock readings but with different
    operating-system entropy, produce different PATIENT_ID, ENCOUNTER_ID
    and LAB_RESULT_ID columns. *)
Theorem same_seed_different_ids :
  py_random (seeded_world entropy_a clock_a)
    = py_random (seeded_world entropy_b clock_a) /\
  np_random (seeded_world entropy_a clock_a)
    = np_random (seeded_world entropy_b clock_a) /\
  faker (seeded_world entropy_a clock_a)
    = faker (seeded_world entropy_b clock_a) /\
  exists g_a g_b,
    result_of (generate_dataset 1 1 1 (seeded_world entropy_a clock_a))
      = Ret g_a /\
    result_of (generate_dataset 1 1 1 (seeded_world entropy_b clock_a))
      = Ret g_b /\
    Patient.PATIENT_ID <$> default [] (patients g_a) = ["PAT-0A1B2C3D"] /\
    Patient.PATIENT_ID <$> default [] (patients g_b) = ["PAT-5E6F7A8B"] /\
    patients g_a <> patients g_b /\
    encounters g_a <> encounters g_b /\
    lab_results g_a <> lab_results g_b.
Proof.
  split; [reflexivity|]. split; [reflexivity|]. split; [reflexivity|].
  eexists _, _.
  split; [vm_compute; reflexivity|]. split; [vm_compute; reflexivity|].
  cbn [patients encounters lab_results default].
  split; [reflexivity|]. split; [reflexivity|].
  split; [discriminate|]. split; discriminate.
Qed.

(* ================================================================== *)
(** * Further properties of the reporter *)

(** ** Where the percentile is defined *)

Lemma percentile_nonempty_in_range (data : list Z) (p : Z) :
  data <> [] -> -100 <= p < 100 -> returns (percentile data p).
Proof.
  intros Hne Hp. unfold percentile, py_getitem.
  rewrite length_sorted. set (N := Z.of_nat (length data)).
  assert (0 < N) by (subst N; destruct data; simpl; [done|lia]).
  assert (- N <= int_div100 N p < N) as Hidx.
  { unfold int_div100. destruct (decide (0 <= p)) as [Hpos|Hneg].
    - rewrite Z.quot_div_nonneg by lia.
      pose proof (nearest_rank_index_bounds N p). lia.
    - assert (N * p = - (N * - p)) as -> by lia.
      rewrite Z.quot_opp_l by lia.
      rewrite Z.quot_div_nonneg by lia.
      assert (0 <= N * - p / 100) by (apply Z.div_pos; nia).
      assert (N * - p / 100 <= N); [|lia].
      apply Z.div_le_upper_bound; nia. }
  set (i := int_div100 N p) in *.
  destruct (decide (i < 0)).
  - destruct (decide (0 <= N + i < N)); [|lia].
    destruct (lookup_lt_is_Some_2 (sorted data) (Z.to_nat (N + i)))
      as [x ->]; [rewrite length_sorted; lia|]. by eexists.
  - destruct (decide (0 <= i < N)); [|lia].
    destruct (lookup_lt_is_Some_2 (sorted data) (Z.to_nat i))
      as [x ->]; [rewrite length_sorted; lia|]. by eexists.
Qed.

(** X1: the percentile function raises [IndexError] on an empty list for
    every percentile, and on every list for a percentile of 100 or more;
    on a non-empty list it returns for every percentile from -100 up to,
    but not including, 100. *)
Theorem percentile_domain :
  (forall p, percentile [] p = Raise IndexError) /\
  (forall data p, 100 <= p -> percentile data p = Raise IndexError) /\
  (forall data p, data <> [] -> -100 <= p < 100 ->
                  returns (percentile data p)).
Proof.
  split; [|split].
  - intros p. unfold percentile. cbn. unfold int_div100. cbn.
    by rewrite Z.quot_0_l by done.
  - intros data p Hp. unfold percentile.
    apply py_getitem_past_end. rewrite length_sorted.
    rewrite int_div100_floor by lia.
    apply Z.div_le_lower_bound; nia.
  - apply percentile_nonempty_in_range.
Qed.

Lemma percentile_domain_witness :
  100 <= 100 /\ [7; 3] <> [] /\ -100 <= -100 < 100 /\
  percentile [7; 3] 100 = Raise IndexError /\
  returns (percentile [7; 3] (-100)).
Proof.
  destruct percentile_domain as (_ & Hhigh & Hin).
  split; [lia|]. split; [discriminate|]. split; [lia|].
  split; [apply Hhigh; lia|apply Hin; [discriminate|lia]].
Defined.

(** ** Order of the percentiles *)

Lemma StronglySorted_lookup_le (l : list Z) (i j : nat) (x y : Z) :
  StronglySorted Z.le l -> (i <= j)%nat ->
  l !! i = Some x -> l !! j = Some y -> x <= y.
Proof.
  intros Hs. revert i j. induction Hs as [|a l Hs IH Hall];
    intros i j Hij Hi Hj; [done|].
  destruct i as [|i], j as [|j]; simpl in *; try lia.
  - injection Hi as <-. injection Hj as <-. lia.
  - injection Hi as <-. rewrite Forall_forall in Hall.
    apply Hall. by eapply list_elem_of_lookup_2.
  - eapply IH; [|done..]. lia.
Qed.

Lemma sorted_StronglySorted (data : list Z) : StronglySorted Z.le (sorted data).
Proof. apply Sorted_StronglySorted; [apply _|apply sorted_Sorted]. Qed.

Lemma nearest_rank_le (data : list Z) (p q x y : Z) :
  data <> [] -> 0 <= p -> p <= q -> q < 100 ->
  sorted data !! Z.to_nat (Z.of_nat (length data) * p / 100) = Some x ->
  sorted data !! Z.to_nat (Z.of_nat (length data) * q / 100) = Some y ->
  x <= y.
Proof.
  intros Hne Hp Hpq Hq Hlx Hly.
  eapply (StronglySorted_lookup_le (sorted data)); [|..|exact Hlx|exact Hly].
  - apply sorted_StronglySorted.
  - apply Z2Nat.inj_le.
    + apply Z.div_pos; nia.
    + apply Z.div_pos; nia.
    + apply Z.div_le_mono; nia.
Qed.

Lemma p95_le_p99 (data : list Z) (x y : Z) :
  data <> [] ->
  percentile data 95 = Ret x -> percentile data 99 = Ret y -> x <= y.
Proof.
  intros Hne Hx Hy.
  destruct (percentile_returns data 95 Hne) as (x' & Hx' & Hlx); [lia|].
  destruct (percentile_returns data 99 Hne) as (y' & Hy' & Hly); [lia|].
  rewrite Hx in Hx'. injection Hx' as <-.
  rewrite Hy in Hy'. injection Hy' as <-.
  eapply (nearest_rank_le data 95 99); eauto; lia.
Qed.

(** X2: on a non-empty sample the percentile function is monotone in the
    percentile: for [0 <= p <= q < 100] the [p]-th percentile is at most
    the [q]-th (so P95 never exceeds P99). *)
Theorem percentile_monotone (data : list Z) (p q x y : Z) :
  data <> [] -> 0 <= p -> p <= q -> q < 100 ->
  percentile data p = Ret x -> percentile data q = Ret y -> x <= y.
Proof.
  intros Hne Hp Hpq Hq Hx Hy.
  destruct (percentile_returns data p Hne) as (x' & Hx' & Hlx); [lia|].
  destruct (percentile_returns data q Hne) as (y' & Hy' & Hly); [lia|].
  rewrite Hx in Hx'. injection Hx' as <-.
  rewrite Hy in Hy'. injection Hy' as <-.
  by eapply (nearest_rank_le data p q).
Qed.

Lemma percentile_monotone_witness :
  [30; 10; 20] <> [] /\ 0 <= 50 /\ 50 <= 99 /\ 99 < 100 /\
  percentile [30; 10; 20] 50 = Ret 20 /\
  percentile [30; 10; 20] 99 = Ret 30 /\ 20 <= 30.
Proof.
  split; [discriminate|]. split; [lia|]. split; [lia|]. split; [lia|].
  split; [reflexivity|]. split; [reflexivity|].
  apply (percentile_monotone [30; 10; 20] 50 99 20 30);
    [discriminate|lia|lia|lia|reflexivity|reflexivity].
Defined.

(** ** The statistics of a sample lie between its extremes *)

Lemma py_getitem_elem {A} (l : list A) (i : Z) (x : A) :
  py_getitem l i = Ret x -> x ∈ l.
Proof.
  unfold py_getitem. case_decide; [|done].
  destruct (l !! _) as [y|] eqn:Hy; [|done].
  intros [= <-]. by eapply list_elem_of_lookup_2.
Qed.

Lemma percentile_elem (data : list Z) (p x : Z) :
  percentile data p = Ret x -> x ∈ data.
Proof.
  intros H%py_getitem_elem. by rewrite sorted_Permutation in H.
Qed.

Lemma foldl_min_spec (x : Z) (l : list Z) :
  foldl Z.min x l ∈ x :: l /\ forall y, y ∈ x :: l -> foldl Z.min x l <= y.
Proof.
  revert x. induction l as [|a l IH]; intros x; simpl.
  - split; [left|]. intros y ?%list_elem_of_singleton. lia.
  - destruct (IH (Z.min x a)) as [Hin Hle]. split.
    + apply elem_of_cons in Hin as [->|Hin].
      * destruct (Z.min_spec x a) as [[_ ->]|[_ ->]]; [left|right; left].
      * by do 2 right.
    + intros y Hy.
      assert (foldl Z.min (Z.min x a) l <= Z.min x a) by (apply Hle; left).
      apply elem_of_cons in Hy as [->|[->|Hy]%elem_of_cons]; [lia|lia|].
      apply Hle. by right.
Qed.

Lemma foldl_max_spec (x : Z) (l : list Z) :
  foldl Z.max x l ∈ x :: l /\ forall y, y ∈ x :: l -> y <= foldl Z.max x l.
Proof.
  revert x. induction l as [|a l IH]; intros x; simpl.
  - split; [left|]. intros y ?%list_elem_of_singleton. lia.
  - destruct (IH (Z.max x a)) as [Hin Hle]. split.
    + apply elem_of_cons in Hin as [->|Hin].
      * destruct (Z.max_spec x a) as [[_ ->]|[_ ->]]; [right; left|left].
      * by do 2 right.
    + intros y Hy.
      assert (Z.max x a <= foldl Z.max (Z.max x a) l) by (apply Hle; left).
      apply elem_of_cons in Hy as [->|[->|Hy]%elem_of_cons]; [lia|lia|].
      apply Hle. by right.
Qed.

Lemma py_min_spec (data : list Z) (m : Z) :
  py_min data = Ret m -> m ∈ data /\ forall y, y ∈ data -> m <= y.
Proof.
  destruct data as [|x l]; [done|]. intros [= <-]. apply foldl_min_spec.
Qed.

Lemma py_max_spec (data : list Z) (m : Z) :
  py_max data = Ret m -> m ∈ data /\ forall y, y ∈ data -> y <= m.
Proof.
  destruct data as [|x l]; [done|]. intros [= <-]. apply foldl_max_spec.
Qed.

Lemma sum_list_bounds (data : list Z) (lo hi : Z) :
  (forall y, y ∈ data -> lo <= y <= hi) ->
  Z.of_nat (length data) * lo <= sum_list data
  <= Z.of_nat (length data) * hi.
Proof.
  induction data as [|x l IH]; intros Hb; simpl; [lia|].
  assert (lo <= x <= hi) by (apply Hb; left).
  destruct IH as [? ?]; [intros y Hy; apply Hb; by right|].
  unfold sum_list in *. lia.
Qed.

Lemma mean_between (data : list Z) (lo hi : Z) (q : Q) :
  mean data = Ret q -> (forall y, y ∈ data -> lo <= y <= hi) ->
  (inject_Z lo <= q)%Q /\ (q <= inject_Z hi)%Q.
Proof.
  intros Hq Hb.
  assert (data <> []) as Hne by (intros ->; discriminate Hq).
  rewrite (mean_returns _ Hne) in Hq. injection Hq as <-.
  pose proof (sum_list_bounds data lo hi Hb) as [? ?].
  assert (length data <> 0%nat) by (by destruct data).
  assert (Z.pos (Pos.of_nat (length data)) = Z.of_nat (length data))
    as Hpos by lia.
  unfold Qle, inject_Z. cbn [Qnum Qden]. rewrite Hpos. lia.
Qed.

Lemma median_between (data : list Z) (lo hi : Z) (q : Q) :
  median data = Ret q -> (forall y, y ∈ data -> lo <= y <= hi) ->
  (inject_Z lo <= q)%Q /\ (q <= inject_Z hi)%Q.
Proof.
  intros Hq Hb. unfold median in Hq.
  assert (forall i x, py_getitem (sorted data) i = Ret x -> lo <= x <= hi)
    as Hget.
  { intros i x Hx%py_getitem_elem. apply Hb.
    by rewrite sorted_Permutation in Hx. }
  case_decide; [done|]. destruct (Nat.odd _).
  - destruct (py_getitem _ _) as [x|] eqn:Hx; [|done].
    cbn [mbind Py_bind py_bind] in Hq.
    injection Hq; intros <-. apply Hget in Hx.
    unfold Qle, inject_Z. cbn [Qnum Qden]. lia.
  - destruct (py_getitem _ (_ - 1)) as [a|] eqn:Ha; [|done].
    cbn [mbind Py_bind py_bind] in Hq.
    destruct (py_getitem _ (Z.of_nat _)) as [b|] eqn:Hb'; [|done].
    cbn [mbind Py_bind py_bind] in Hq.
    injection Hq; intros <-.
    apply Hget in Ha. apply Hget in Hb'.
    unfold Qle, inject_Z. cbn [Qnum Qden]. lia.
Qed.

Lemma query_stats_ordered (ts : list Z) (qm : QueryMetrics) :
  query_stats_over ts qm ->
  (1 <= qm_count qm)%nat /\
  qm_min qm <= qm_p95 qm /\ qm_p95 qm <= qm_p99 qm /\
  qm_p99 qm <= qm_max qm /\
  (inject_Z (qm_min qm) <= qm_mean qm)%Q /\
  (qm_mean qm <= inject_Z (qm_max qm))%Q /\
  (inject_Z (qm_min qm) <= qm_median qm)%Q /\
  (qm_median qm <= inject_Z (qm_max qm))%Q.
Proof.
  intros (Hc & Hmean & Hmed & Hmin & Hmax & H95 & H99 & _).
  assert (ts <> []) as Hne by (intros ->; discriminate Hmean).
  apply py_min_spec in Hmin as [_ Hlo].
  apply py_max_spec in Hmax as [_ Hhi].
  assert (forall y, y ∈ ts -> qm_min qm <= y <= qm_max qm) as Hb
    by (intros y Hy; split; [by apply Hlo|by apply Hhi]).
  split; [rewrite Hc; destruct ts; simpl; [done|lia]|].
  split; [apply Hlo; by eapply percentile_elem|].
  split; [by eapply (p95_le_p99 ts)|].
  split; [apply Hhi; by eapply percentile_elem|].
  destruct (mean_between ts _ _ _ Hmean Hb).
  destruct (median_between ts _ _ _ Hmed Hb). done.
Qed.

(** X3: in every report, the statistics printed for a query name are
    ordered: the count is at least 1, min <= P95 <= P99 <= max, and both
    the mean and the median lie between min and max; for the whole run,
    P95 <= P99. *)
Theorem report_statistics_ordered (rs : list QueryResult) (rep : Report)
    (per : list QueryMetrics) (ov : OverallMetrics) :
  generate_performance_report rs = Ret (Analysed rep) ->
  metrics rep = Some (per, ov) ->
  Forall (λ qm,
          (1 <= qm_count qm)%nat /\
          qm_min qm <= qm_p95 qm /\ qm_p95 qm <= qm_p99 qm /\
          qm_p99 qm <= qm_max qm /\
          (inject_Z (qm_min qm) <= qm_mean qm)%Q /\
          (qm_mean qm <= inject_Z (qm_max qm))%Q /\
          (inject_Z (qm_min qm) <= qm_median qm)%Q /\
          (qm_median qm <= inject_Z (qm_max qm))%Q) per /\
  ov_p95 ov <= ov_p99 ov.
Proof.
  intros Hrep Hm.
  assert (rs <> []) as Hne by (intros ->; discriminate Hrep).
  destruct (statistics_over_successful_only_aux rs Hne)
    as (rep' & Hrep' & Hstats).
  rewrite Hrep in Hrep'. injection Hrep' as <-. rewrite Hm in Hstats.
  destruct Hstats as (_ & Hper & Hov). split.
  - eapply Forall_impl; [exact Hper|]. intros qm Hq.
    exact (query_stats_ordered _ _ Hq).
  - destruct Hov as (Hmean & _ & H95 & H99 & _).
    assert (successful_times rs <> []) by (intros E; rewrite E in Hmean;
                                            discriminate Hmean).
    by eapply (p95_le_p99 (successful_times rs)).
Qed.

Lemma report_statistics_ordered_witness :
  exists rep per ov,
    generate_performance_report sample_19_of_20 = Ret (Analysed rep) /\
    metrics rep = Some (per, ov) /\ ov_p95 ov <= ov_p99 ov.
Proof.
  destruct (generate_performance_report sample_19_of_20)
    as [[|rep]|] eqn:Hrep; [vm_compute in Hrep; discriminate Hrep | |
                            vm_compute in Hrep; discriminate Hrep].
  destruct (metrics rep) as [[per ov]|] eqn:Hm.
  - exists rep, per, ov. split; [reflexivity|]. split; [exact Hm|].
    exact (proj2 (report_statistics_ordered _ _ _ _ Hrep Hm)).
  - vm_compute in Hrep. injection Hrep as <-. discriminate Hm.
Defined.

(** ** The report does not depend on the order of the results *)

Lemma sorted_perm (data data' : list Z) :
  data ≡ₚ data' -> sorted data = sorted data'.
Proof.
  intros Hp. apply (StronglySorted_unique Z.le);
    [apply sorted_StronglySorted..|].
  by rewrite !sorted_Permutation.
Qed.

Lemma sum_list_perm (data data' : list Z) :
  data ≡ₚ data' -> sum_list data = sum_list data'.
Proof.
  unfold sum_list.
  induction 1 as [|x l l' _ IH|x y l|l l' l'' _ IH1 _ IH2]; simpl; lia.
Qed.

Lemma percentile_perm (data data' : list Z) (p : Z) :
  data ≡ₚ data' -> percentile data p = percentile data' p.
Proof.
  intros Hp. unfold percentile. by rewrite (sorted_perm _ _ Hp), Hp.
Qed.

Lemma mean_perm (data data' : list Z) :
  data ≡ₚ data' -> mean data = mean data'.
Proof.
  intros Hp. destruct data as [|x l], data' as [|x' l'].
  - done.
  - by apply Permutation_nil_l in Hp.
  - by apply Permutation_nil_r in Hp.
  - unfold mean. by rewrite (sum_list_perm _ _ Hp), Hp.
Qed.

Lemma median_perm (data data' : list Z) :
  data ≡ₚ data' -> median data = median data'.
Proof. intros Hp. unfold median. by rewrite (sorted_perm _ _ Hp). Qed.

Lemma py_min_perm (data data' : list Z) :
  data ≡ₚ data' -> py_min data = py_min data'.
Proof.
  intros Hp. destruct data as [|x l], data' as [|x' l'].
  - done.
  - by apply Permutation_nil_l in Hp.
  - by apply Permutation_nil_r in Hp.
  - destruct (py_min_spec (x :: l) _ eq_refl) as [Hin Hle].
    destruct (py_min_spec (x' :: l') _ eq_refl) as [Hin' Hle'].
    cbn [py_min] in *. f_equal. apply Z.le_antisymm.
    + apply Hle. by rewrite Hp.
    + apply Hle'. by rewrite <- Hp.
Qed.

Lemma py_max_perm (data data' : list Z) :
  data ≡ₚ data' -> py_max data = py_max data'.
Proof.
  intros Hp. destruct data as [|x l], data' as [|x' l'].
  - done.
  - by apply Permutation_nil_l in Hp.
  - by apply Permutation_nil_r in Hp.
  - destruct (py_max_spec (x :: l) _ eq_refl) as [Hin Hle].
    destruct (py_max_spec (x' :: l') _ eq_refl) as [Hin' Hle'].
    cbn [py_max] in *. f_equal. apply Z.le_antisymm.
    + apply Hle'. by rewrite <- Hp.
    + apply Hle. by rewrite Hp.
Qed.

Lemma count_under_100ms_perm (data data' : list Z) :
  data ≡ₚ data' -> count_under_100ms data = count_under_100ms data'.
Proof. intros Hp. unfold count_under_100ms. by rewrite Hp. Qed.

Lemma query_metrics_perm (succ succ' : list QueryResult) (name : string) :
  succ ≡ₚ succ' -> query_metrics succ name = query_metrics succ' name.
Proof.
  intros Hp. unfold query_metrics.
  assert (times_of name succ ≡ₚ times_of name succ') as Ht
    by (unfold times_of; by rewrite Hp).
  rewrite (mean_perm _ _ Ht), (median_perm _ _ Ht), (py_min_perm _ _ Ht),
    (py_max_perm _ _ Ht), !(percentile_perm _ _ _ Ht),
    (count_under_100ms_perm _ _ Ht).
  by rewrite (Permutation_length Ht).
Qed.

Lemma overall_metrics_perm (succ succ' : list QueryResult) :
  succ ≡ₚ succ' -> overall_metrics succ = overall_metrics succ'.
Proof.
  intros Hp. unfold overall_metrics.
  assert (execution_time_ms <$> succ ≡ₚ execution_time_ms <$> succ') as Ht
    by (by rewrite Hp).
  rewrite (mean_perm _ _ Ht), (median_perm _ _ Ht),
    !(percentile_perm _ _ _ Ht), (count_under_100ms_perm _ _ Ht).
  by rewrite (Permutation_length Ht).
Qed.

Lemma unique_perm (l l' : list string) : l ≡ₚ l' -> unique l ≡ₚ unique l'.
Proof.
  intros Hp. apply NoDup_Permutation; [apply NoDup_unique..|].
  intros x. by rewrite !elem_of_unique, Hp.
Qed.

Lemma Forall2_functional_fmap {A B} (R : A -> B -> Prop) (g : A -> B)
    (l : list A) (k : list B) :
  (forall x y, R x y -> y = g x) -> Forall2 R l k -> k = g <$> l.
Proof.
  intros Hg. induction 1 as [|x y l k Hxy _ IH]; [done|].
  by rewrite fmap_cons, <- IH, <- (Hg x y Hxy).
Qed.

(** X4: permuting the collection of results changes nothing in the
    report but the order of its per-query sections: the counts and the
    whole-run statistics are equal, and the per-query statistics are the
    same up to their order. *)
Theorem report_order_independent (rs rs' : list QueryResult)
    (rep rep' : Report) :
  rs ≡ₚ rs' ->
  generate_performance_report rs = Ret (Analysed rep) ->
  generate_performance_report rs' = Ret (Analysed rep') ->
  total_executed rep = total_executed rep' /\
  successful_count rep = successful_count rep' /\
  failed_count rep = failed_count rep' /\
  match metrics rep, metrics rep' with
  | Some (per, ov), Some (per', ov') => per ≡ₚ per' /\ ov = ov'
  | None, None => True
  | _, _ => False
  end.
Proof.
  intros Hp Hrep Hrep'.
  assert (rs <> []) as Hne by (intros ->; discriminate Hrep).
  assert (rs' <> []) as Hne' by (intros ->; discriminate Hrep').
  destruct (report_shape rs Hne) as (spct & ms & Hr & Hms).
  destruct (report_shape rs' Hne') as (spct' & ms' & Hr' & Hms').
  rewrite Hrep in Hr. injection Hr as ->.
  rewrite Hrep' in Hr'. injection Hr' as ->.
  cbn [total_executed successful_count failed_count metrics].
  assert (successful rs ≡ₚ successful rs') as Hs
    by (unfold successful; by rewrite Hp).
  rewrite (Permutation_length Hp), (Permutation_length Hs).
  split; [done|]. split; [done|]. split; [done|].
  destruct (performance_metrics_shape (successful rs))
    as (m & Hm & Hnone & Hsome).
  destruct (performance_metrics_shape (successful rs'))
    as (m' & Hm' & Hnone' & Hsome').
  rewrite Hms in Hm. injection Hm as <-.
  rewrite Hms' in Hm'. injection Hm' as <-.
  destruct (decide (successful rs = [])) as [Hnil|Hsucc].
  - rewrite (Hnone Hnil), Hnone'; [done|].
    rewrite Hnil in Hs. by apply Permutation_nil_l in Hs.
  - assert (successful rs' <> []) as Hsucc'.
    { intros E. rewrite E in Hs. by apply Permutation_nil_r in Hs. }
    destruct (Hsome Hsucc) as (per & ov & -> & HF & Hov).
    destruct (Hsome' Hsucc') as (per' & ov' & -> & HF' & Hov').
    rewrite (overall_metrics_perm _ _ Hs), Hov' in Hov.
    injection Hov as <-. split; [|done].
    set (g := λ name, match query_metrics (successful rs) name with
                      | Ret qm => qm
                      | Raise _ => mkQueryMetrics name 0 0 0 0 0 0 0 0 false
                      end).
    assert (per = g <$> unique (query_name <$> successful rs)) as ->.
    { eapply Forall2_functional_fmap; [|exact HF].
      intros x y Hy. unfold g. by rewrite Hy. }
    assert (per' = g <$> unique (query_name <$> successful rs')) as ->.
    { eapply Forall2_functional_fmap; [|exact HF'].
      intros x y Hy. unfold g.
      by rewrite (query_metrics_perm _ _ x Hs), Hy. }
    apply fmap_Permutation, unique_perm. by rewrite Hs.
Qed.

Lemma report_order_independent_witness :
  [sample_ok; sample_failed] ≡ₚ [sample_failed; sample_ok] /\
  exists rep rep',
    generate_performance_report [sample_ok; sample_failed]
      = Ret (Analysed rep) /\
    generate_performance_report [sample_failed; sample_ok]
      = Ret (Analysed rep') /\
    failed_count rep = failed_count rep'.
Proof.
  split; [apply perm_swap|].
  eexists _, _. split; [vm_compute; reflexivity|].
  split; [vm_compute; reflexivity|].
  eapply (report_order_independent [sample_ok; sample_failed]
            [sample_failed; sample_ok]);
    [apply perm_swap|reflexivity|reflexivity].
Defined.

(** ** The per-query sections partition the successful results *)

Lemma sum_list_with_zero {A} (l : list A) : sum_list_with (λ _, 0%nat) l = 0%nat.
Proof. induction l; simpl; lia. Qed.

Lemma sum_list_with_plus {A} (f g : A -> nat) (l : list A) :
  sum_list_with (λ x, f x + g x)%nat l
  = (sum_list_with f l + sum_list_with g l)%nat.
Proof. induction l; simpl; lia. Qed.

Lemma sum_list_with_indicator (names : list string) (x : string) (k : nat) :
  NoDup names -> x ∈ names ->
  sum_list_with (λ n, if decide (x = n) then k else 0%nat) names = k.
Proof.
  induction 1 as [|n names Hn Hnd IH]; [by intros ?%elem_of_nil|].
  intros Hx. simpl. destruct (decide (x = n)) as [->|Hne].
  - assert (sum_list_with (λ n0, if decide (n = n0) then k else 0%nat) names
            = 0%nat) as ->; [|lia].
    clear IH Hx Hnd. induction names as [|m names IH]; [done|]. simpl.
    destruct (decide (n = m)) as [->|_]; [exfalso; apply Hn; left|].
    rewrite IH; [done|]. intros Hin. apply Hn. by right.
  - apply elem_of_cons in Hx as [?|Hx]; [done|]. rewrite IH; [lia|done].
Qed.

Lemma sum_list_with_ext_in {A} (f g : A -> nat) (l : list A) :
  (forall x, x ∈ l -> f x = g x) -> sum_list_with f l = sum_list_with g l.
Proof.
  induction l as [|a l IH]; intros Hfg; simpl; [done|].
  rewrite (Hfg a) by left. rewrite IH; [done|].
  intros x Hx. apply Hfg. by right.
Qed.

Lemma partition_by_name (P : Z -> Prop) `{!forall x, Decision (P x)}
    (names : list string) (succ : list QueryResult) :
  NoDup names -> (forall r, r ∈ succ -> query_name r ∈ names) ->
  sum_list_with (λ n, length (filter P (times_of n succ))) names
  = length (filter P (execution_time_ms <$> succ)).
Proof.
  intros Hnd. induction succ as [|r succ IH]; intros Hcover.
  - unfold times_of. cbn. apply sum_list_with_zero.
  - set (k := if decide (P (execution_time_ms r)) then 1%nat else 0%nat).
    assert (forall n,
               length (filter P (times_of n (r :: succ)))
               = ((if decide (query_name r = n) then k else 0)
                  + length (filter P (times_of n succ)))%nat) as Hstep.
    { intros n. unfold times_of. rewrite filter_cons.
      destruct (decide (query_name r = n)); [|done].
      rewrite fmap_cons, filter_cons. subst k. by case_decide. }
    rewrite (sum_list_with_ext_in _ _ names (λ n _, Hstep n)).
    rewrite sum_list_with_plus.
    rewrite (sum_list_with_indicator names (query_name r) k Hnd)
      by (apply Hcover; left).
    rewrite IH by (intros r' Hr'; apply Hcover; by right).
    rewrite fmap_cons, filter_cons. subst k. by case_decide.
Qed.

Lemma filter_True {A} (l : list A) : filter (λ _, True) l = l.
Proof.
  induction l as [|a l IH]; [done|]. rewrite filter_cons.
  destruct (decide True); [by rewrite IH|done].
Qed.

Lemma sum_list_with_fmap {A B} (f : B -> nat) (g : A -> B) (l : list A) :
  sum_list_with f (g <$> l) = sum_list_with (f ∘ g) l.
Proof. induction l; simpl; [done|]. by f_equal. Qed.

Lemma names_cover (succ : list QueryResult) (r : QueryResult) :
  r ∈ succ -> query_name r ∈ unique (query_name <$> succ).
Proof. intros Hr. apply elem_of_unique. by apply list_elem_of_fmap_2. Qed.

(** What a report's sections count, in terms of the successful results. *)
Lemma report_sections (rs : list QueryResult) (rep : Report)
    (per : list QueryMetrics) (ov : OverallMetrics) :
  generate_performance_report rs = Ret (Analysed rep) ->
  metrics rep = Some (per, ov) ->
  successful_count rep = length (successful rs) /\
  qm_name <$> per = unique (query_name <$> successful rs) /\
  Forall (λ qm, query_stats_over (times_of (qm_name qm) (successful rs)) qm)
         per /\
  overall_stats_over (execution_time_ms <$> successful rs) ov.
Proof.
  intros Hrep Hm.
  assert (rs <> []) as Hne by (intros ->; discriminate Hrep).
  destruct (report_shape rs Hne) as (spct & ms & Hr & _).
  destruct (statistics_over_successful_only_aux rs Hne)
    as (rep' & Hrep' & Hstats).
  rewrite Hrep in Hrep'. injection Hrep' as <-. rewrite Hm in Hstats.
  rewrite Hrep in Hr. injection Hr as ->.
  destruct Hstats as (Hnames & Hper & Hov).
  split; [done|]. split; [done|]. split; [|done].
  eapply Forall_impl; [exact Hper|]. intros qm Hq.
  by rewrite times_of_successful.
Qed.

(** X5: in every report the counts of the per-query sections add up to
    the number of successful queries: every successful result is counted
    under exactly one query name. *)
Theorem per_query_counts_add_up (rs : list QueryResult) (rep : Report)
    (per : list QueryMetrics) (ov : OverallMetrics) :
  generate_performance_report rs = Ret (Analysed rep) ->
  metrics rep = Some (per, ov) ->
  sum_list_with qm_count per = successful_count rep /\
  (successful_count rep + failed_count rep = total_executed rep)%nat /\
  NoDup (qm_name <$> per).
Proof.
  intros Hrep Hm.
  destruct (report_sections rs rep per ov Hrep Hm)
    as (Hsc & Hnames & Hper & _).
  split; [|split].
  - rewrite Hsc.
    rewrite <- (length_fmap execution_time_ms (successful rs)).
    rewrite <- (filter_True (execution_time_ms <$> successful rs)).
    rewrite <- (partition_by_name (λ _, True)
                  (unique (query_name <$> successful rs)))
      by (apply NoDup_unique || apply names_cover).
    rewrite <- Hnames, sum_list_with_fmap.
    apply sum_list_with_ext_in. intros qm Hqm.
    rewrite Forall_forall in Hper. destruct (Hper qm Hqm) as (Hc & _).
    cbn. by rewrite filter_True.
  - assert (rs <> []) as Hne by (intros ->; discriminate Hrep).
    destruct (report_shape rs Hne) as (spct & ms & Hr & _).
    rewrite Hrep in Hr. injection Hr as ->.
    cbn [successful_count failed_count total_executed].
    pose proof (length_filter (λ r, success r = true) rs).
    unfold successful. lia.
  - rewrite Hnames. apply NoDup_unique.
Qed.

Lemma per_query_counts_add_up_witness :
  exists rep per ov,
    generate_performance_report sample_19_of_20 = Ret (Analysed rep) /\
    metrics rep = Some (per, ov) /\
    sum_list_with qm_count per = successful_count rep.
Proof.
  destruct (generate_performance_report sample_19_of_20)
    as [[|rep]|] eqn:Hrep; [vm_compute in Hrep; discriminate Hrep | |
                            vm_compute in Hrep; discriminate Hrep].
  destruct (metrics rep) as [[per ov]|] eqn:Hm.
  - exists rep, per, ov. split; [reflexivity|]. split; [exact Hm|].
    exact (proj1 (per_query_counts_add_up _ _ _ _ Hrep Hm)).
  - vm_compute in Hrep. injection Hrep as <-. discriminate Hm.
Defined.

(** ** Per-query verdicts and the whole-run verdict *)

Lemma sum_list_with_scaled_le {A} (f g : A -> nat) (l : list A) :
  Forall (λ x, 95 * f x <= 100 * g x)%nat l ->
  (95 * sum_list_with f l <= 100 * sum_list_with g l)%nat.
Proof. induction 1; simpl; lia. Qed.

(** X6: when the target is met for every query name of a report, it is
    met for the whole run. *)
Theorem all_targets_met_overall_met (rs : list QueryResult) (rep : Report)
    (per : list QueryMetrics) (ov : OverallMetrics) :
  generate_performance_report rs = Ret (Analysed rep) ->
  metrics rep = Some (per, ov) ->
  Forall (λ qm, qm_target_met qm = true) per ->
  ov_sla_met ov = true.
Proof.
  intros Hrep Hm Hall.
  destruct (report_sections rs rep per ov Hrep Hm)
    as (_ & Hnames & Hper & Hov).
  destruct Hov as (_ & _ & _ & _ & Hpct & ->).
  apply (target_met_iff _ _ _ Hpct).
  set (succ := successful rs) in *.
  set (names := unique (query_name <$> succ)) in *.
  assert (NoDup names) as Hnd by apply NoDup_unique.
  assert (forall r, r ∈ succ -> query_name r ∈ names) as Hcover
    by apply names_cover.
  rewrite <- (filter_True (execution_time_ms <$> succ)) at 1.
  rewrite <- (partition_by_name (λ _, True) names succ Hnd Hcover).
  unfold count_under_100ms.
  rewrite <- (partition_by_name under_target names succ Hnd Hcover).
  apply sum_list_with_scaled_le.
  rewrite <- Hnames. apply Forall_fmap.
  rewrite Forall_forall in Hper, Hall. apply Forall_forall. intros qm Hqm.
  destruct (Hper qm Hqm) as (_ & _ & _ & _ & _ & _ & _ & Hq & Hv).
  cbn. rewrite filter_True.
  apply (target_met_iff _ _ _ Hq). rewrite <- Hv. by apply Hall.
Qed.

Lemma all_targets_met_overall_met_witness :
  exists rep per ov,
    generate_performance_report sample_19_of_20 = Ret (Analysed rep) /\
    metrics rep = Some (per, ov) /\
    Forall (λ qm, qm_target_met qm = true) per /\
    ov_sla_met ov = true.
Proof.
  destruct (generate_performance_report sample_19_of_20)
    as [[|rep]|] eqn:Hrep; [vm_compute in Hrep; discriminate Hrep | |
                            vm_compute in Hrep; discriminate Hrep].
  destruct (metrics rep) as [[per ov]|] eqn:Hm.
  - assert (Forall (λ qm, qm_target_met qm = true) per) as Hall.
    { vm_compute in Hrep. injection Hrep as <-. injection Hm as <- _.
      repeat constructor. }
    exists rep, per, ov. split; [reflexivity|]. split; [exact Hm|].
    split; [exact Hall|].
    exact (all_targets_met_overall_met _ _ _ _ Hrep Hm Hall).
  - vm_compute in Hrep. injection Hrep as <-. discriminate Hm.
Defined.

(* ================================================================== *)
(** * Further properties of the load generator *)

(** ** Every stored result is consistent *)

Lemma execute_query_consistent (env : QueryEnv) (name query_sql : string)
    (params : option Params) :
  exists r,
    execute_query env name query_sql params = Ret r /\
    query_name r = name /\ consistent_result r.
Proof.
  rewrite execute_query_cases.
  destruct (query_call _ _ _) as [rows|e]; eexists; (split; [done|]);
    (split; [done|]); unfold consistent_result; cbn; eauto.
Qed.

Lemma dashboard_loop_consistent (envs : nat -> QueryEnv) (pid : string)
    (names : list string) (i : nat) (acc res : list QueryResult) :
  dashboard_loop envs pid names i acc = Ret res ->
  Forall consistent_result acc -> Forall consistent_result res.
Proof.
  revert i acc. induction names as [|name names IH]; intros i acc;
    cbn [dashboard_loop].
  - by intros [= <-].
  - destruct (dict_get dashboard_queries name) as [query_sql|];
      cbn [mbind Py_bind py_bind]; [|done].
    destruct (execute_query_consistent (envs i) name query_sql
                (Some [("patient_id", pid)])) as (r & -> & _ & Hr).
    cbn [mbind Py_bind py_bind]. intros Hres Hacc.
    eapply IH; [exact Hres|]. apply Forall_app. split; [done|].
    by constructor.
Qed.

Lemma session_consistent (envs : nat -> QueryEnv) (pid : string)
    (s : DashboardLoadResult) :
  simulate_single_dashboard_load envs pid = Ret s ->
  Forall consistent_result (query_results s).
Proof.
  unfold simulate_single_dashboard_load.
  destruct (dashboard_loop _ _ _ _ _) as [res|] eqn:Hres;
    cbn [mbind Py_bind py_bind]; [|done].
  intros [= <-]. cbn.
  eapply dashboard_loop_consistent; [exact Hres|constructor].
Qed.

Lemma collect_completed_consistent (futures : list (Py DashboardLoadResult))
    (all all' : list DashboardLoadResult) (qs qs' : list QueryResult) :
  collect_completed futures all qs = Ret (all', qs') ->
  (forall r, Ret r ∈ futures -> Forall consistent_result (query_results r)) ->
  Forall (λ s, Forall consistent_result (query_results s)) all ->
  Forall consistent_result qs ->
  Forall (λ s, Forall consistent_result (query_results s)) all' /\
  Forall consistent_result qs'.
Proof.
  revert all qs. induction futures as [|f futures IH]; intros all qs;
    cbn [collect_completed].
  - by intros [= <- <-].
  - destruct f as [r|e]; cbn [mbind Py_bind py_bind]; [|done].
    intros Hrun Hf Hall Hqs.
    assert (Forall consistent_result (query_results r)) by (apply Hf; left).
    eapply IH; [exact Hrun| | |].
    + intros r' Hr'. apply Hf. by right.
    + apply Forall_app. split; [done|]. by constructor.
    + rewrite store_query_results_app. by apply Forall_app.
Qed.

Lemma submit_all_elem (env : LoadEnv) (iteration : nat)
    (pats : list string) (f : Py DashboardLoadResult) :
  f ∈ submit_all env iteration pats ->
  exists k pid,
    f = simulate_single_dashboard_load (session_envs env iteration k) pid.
Proof.
  unfold submit_all. intros (k & pid & -> & _)%elem_of_lookup_imap_1.
  by exists k, pid.
Qed.

(** X7: a concurrent run keeps the shared collection consistent: when
    [as_completed] yields the submitted futures, every query result that
    the run stores, and every result inside the session results it
    returns, has either [success] with a query id and no error, or no
    [success] with an error message, no query id and no rows. *)
Theorem concurrent_run_consistent (env : LoadEnv) (W I : nat)
    (qs qs' : list QueryResult) (all : list DashboardLoadResult) :
  fair env ->
  simulate_concurrent_dashboards env W I qs = Ret (all, qs') ->
  Forall consistent_result qs ->
  Forall consistent_result qs' /\
  Forall (λ s, Forall consistent_result (query_results s)) all.
Proof.
  intros Hfair. unfold simulate_concurrent_dashboards.
  generalize (get_sample_patient_ids env (W * I)) as ids.
  generalize (seq 0 I) as its. intros its ids.
  assert (Forall (λ s : DashboardLoadResult,
                    Forall consistent_result (query_results s)) [])
    as Hall by constructor.
  revert Hall. generalize (@nil DashboardLoadResult) as all0.
  revert qs. induction its as [|it its IH]; intros qs all0 Hall;
    cbn [iterate_dashboards].
  - by intros [= <- <-].
  - destruct (thread_pool_executor W); cbn [mbind Py_bind py_bind]; [|done].
    destruct (collect_completed _ _ _) as [[all1 qs1]|] eqn:Hc;
      cbn [mbind Py_bind py_bind fst snd]; [|done].
    intros Hrun Hqs.
    destruct (collect_completed_consistent _ _ _ _ _ Hc) as [Hall1 Hqs1];
      [|done|done|].
    { intros r Hr. rewrite (Hfair it _) in Hr.
      apply submit_all_elem in Hr as (k & pid & Hr).
      by eapply session_consistent. }
    by eapply IH.
Qed.

Lemma concurrent_run_consistent_witness :
  fair sample_load_env /\
  exists all qs',
    simulate_concurrent_dashboards sample_load_env 3 1 [] = Ret (all, qs') /\
    Forall consistent_result qs'.
Proof.
  assert (fair sample_load_env) as Hfair.
  { intros it fs. simpl. apply reverse_Permutation. }
  split; [exact Hfair|].
  eexists _, _. split; [vm_compute; reflexivity|].
  eapply (concurrent_run_consistent sample_load_env 3 1 []);
    [exact Hfair|vm_compute; reflexivity|constructor].
Defined.

(** ** Operational queries *)

Lemma dict_get_ed_census : returns (dict_get dashboard_queries "ed_census").
Proof. by eexists. Qed.

Lemma dict_get_high_risk_alerts :
  returns (dict_get dashboard_queries "high_risk_alerts").
Proof. by eexists. Qed.

Lemma operational_loop_spec (envs : nat -> nat -> QueryEnv)
    (its : list nat) (ops qs : list QueryResult) :
  exists new,
    operational_loop envs its ops qs = Ret (ops ++ new, qs ++ new) /\
    query_name <$> new
      = concat ((λ _, ["ed_census"; "high_risk_alerts"]) <$> its) /\
    Forall consistent_result new.
Proof.
  revert ops qs. induction its as [|it its IH]; intros ops qs.
  - exists []. by rewrite !app_nil_r.
  - cbn [operational_loop].
    destruct dict_get_ed_census as [ed_sql ->].
    cbn [mbind Py_bind py_bind].
    destruct (execute_query_consistent (envs it 0%nat) "ed_census" ed_sql None)
      as (r1 & -> & Hn1 & Hc1).
    cbn [mbind Py_bind py_bind].
    destruct dict_get_high_risk_alerts as [alert_sql ->].
    cbn [mbind Py_bind py_bind].
    destruct (execute_query_consistent (envs it 1%nat) "high_risk_alerts"
                alert_sql None) as (r2 & -> & Hn2 & Hc2).
    cbn [mbind Py_bind py_bind].
    destruct (IH ((ops ++ [r1]) ++ [r2]) ((qs ++ [r1]) ++ [r2]))
      as (new & -> & Hnames & Hcons).
    exists (r1 :: r2 :: new). split; [by rewrite <- !app_assoc|].
    split; [cbn; by rewrite Hn1, Hn2, Hnames|by repeat constructor].
Qed.

Lemma concat_const_seq {A} (l : list A) (start n : nat) :
  concat ((λ _ : nat, l) <$> seq start n) = concat (replicate n l).
Proof.
  revert start. induction n as [|n IH]; intros start; [done|].
  cbn. by rewrite IH.
Qed.

Lemma length_concat_replicate_pair {A} (x y : A) (n : nat) :
  length (concat (replicate n [x; y])) = (2 * n)%nat.
Proof. induction n as [|n IH]; [done|]. cbn. rewrite IH. lia. Qed.

Lemma operational_queries_two_per_iteration_aux
    (envs : nat -> nat -> QueryEnv) (num_iterations : nat)
    (qs : list QueryResult) :
  exists ops,
    simulate_operational_queries envs num_iterations qs
      = Ret (ops, qs ++ ops) /\
    length ops = (2 * num_iterations)%nat.
Proof.
  unfold simulate_operational_queries.
  destruct (operational_loop_spec envs (seq 0 num_iterations) [] qs)
    as (new & Hrun & Hnames & _).
  exists new. split; [exact Hrun|].
  rewrite concat_const_seq in Hnames.
  rewrite <- (length_fmap query_name), Hnames.
  apply length_concat_replicate_pair.
Qed.

Lemma operational_loop_on_open (envs : nat -> nat -> QueryEnv)
    (its : list nat) (ops qs : list QueryResult) :
  operational_loop_on Open envs its ops qs = operational_loop envs its ops qs.
Proof.
  revert ops qs. induction its as [|it its IH]; intros ops qs; [done|].
  cbn [operational_loop_on operational_loop].
  destruct (dict_get dashboard_queries "ed_census") as [ed_sql|];
    cbn [mbind Py_bind py_bind]; [|done].
  unfold execute_query_on. cbn [connection_cursor mbind Py_bind py_bind].
  destruct (execute_query (envs it 0%nat) "ed_census" ed_sql None)
    as [r1|]; cbn [mbind Py_bind py_bind]; [|done].
  destruct (dict_get dashboard_queries "high_risk_alerts") as [alert_sql|];
    cbn [mbind Py_bind py_bind]; [|done].
  destruct (execute_query (envs it 1%nat) "high_risk_alerts" alert_sql None)
    as [r2|]; cbn [mbind Py_bind py_bind]; [|done].
  apply IH.
Qed.

Lemma operational_loop_on_closed (envs : nat -> nat -> QueryEnv)
    (it : nat) (its : list nat) (ops qs : list QueryResult) :
  operational_loop_on Closed envs (it :: its) ops qs
  = Raise (DatabaseError "250002 (08003): Connection is closed").
Proof.
  cbn [operational_loop_on].
  destruct dict_get_ed_census as [ed_sql ->]. reflexivity.
Qed.

(** X8: on an open connection, or on a simulator that has no connection
    yet and obtains one, the operational phase does not raise: for every
    iteration count it returns exactly two results per iteration, an
    [ed_census] result followed by a [high_risk_alerts] result, appends
    exactly these results, in this order, to the shared collection, and
    leaves the connection open; a failed query is stored like any other.
    When there is no connection and none can be obtained, the exception of
    the connector escapes and nothing is run.  On a connection that has
    been closed, as [run_full_simulation] leaves it, the phase raises at
    its first query when asked for at least one iteration, and returns
    nothing new when asked for none. *)
Theorem operational_queries_two_per_iteration (env : SimEnv)
    (connection : Connection) (num_iterations : nat)
    (qs : list QueryResult) :
  (connection = Open \/
   (connection = NotConnected /\ connect_outcome env = Ret tt) ->
   exists ops,
     simulate_operational_queries_on env connection num_iterations qs
       = (Ret (ops, qs ++ ops), Open) /\
     length ops = (2 * num_iterations)%nat /\
     query_name <$> ops
       = concat (replicate num_iterations ["ed_census"; "high_risk_alerts"]) /\
     Forall consistent_result ops) /\
  (forall e,
      connection = NotConnected -> connect_outcome env = Raise e ->
      simulate_operational_queries_on env connection num_iterations qs
        = (Raise e, NotConnected)) /\
  (connection = Closed -> (0 < num_iterations)%nat ->
   exists e,
     simulate_operational_queries_on env connection num_iterations qs
       = (Raise e, Closed)) /\
  (connection = Closed ->
   simulate_operational_queries_on env connection 0 qs
     = (Ret ([], qs), Closed)).
Proof.
  split; [|split; [|split]].
  - intros Hconn.
    assert (ensure_connected env connection = Ret Open) as Hopen.
    { destruct Hconn as [->|[-> Hc]]; [done|].
      cbn [ensure_connected]. unfold connect. by rewrite Hc. }
    unfold simulate_operational_queries_on. rewrite Hopen.
    rewrite operational_loop_on_open.
    destruct (operational_loop_spec (operational_envs env)
                (seq 0 num_iterations) [] qs)
      as (new & Hrun & Hnames & Hcons).
    exists new. split; [by rewrite Hrun|].
    rewrite concat_const_seq in Hnames. split; [|done].
    rewrite <- (length_fmap query_name), Hnames.
    apply length_concat_replicate_pair.
  - intros e -> Hc. unfold simulate_operational_queries_on.
    cbn [ensure_connected]. unfold connect. by rewrite Hc.
  - intros -> Hn. unfold simulate_operational_queries_on.
    cbn [ensure_connected].
    destruct num_iterations as [|n]; [lia|].
    cbn [seq]. rewrite operational_loop_on_closed. by eexists.
  - by intros ->.
Qed.

Lemma operational_queries_two_per_iteration_witness :
  exists ops,
    simulate_operational_queries_on sample_sim_env NotConnected 2 [sample_ok]
      = (Ret (ops, [sample_ok] ++ ops), Open) /\
    length ops = 4%nat /\
    query_name <$> ops
      = ["ed_census"; "high_risk_alerts"; "ed_census"; "high_risk_alerts"].
Proof.
  destruct (operational_queries_two_per_iteration sample_sim_env
              NotConnected 2 [sample_ok]) as (Hrun & _).
  destruct Hrun as (ops & Hops & Hlen & Hnames & _).
  { right. split; reflexivity. }
  exists ops. split; [exact Hops|]. split; [exact Hlen|exact Hnames].
Defined.

(** ** The completion order of the sessions does not matter *)

Lemma concat_Permutation {A} (ls ls' : list (list A)) :
  ls ≡ₚ ls' -> concat ls ≡ₚ concat ls'.
Proof.
  induction 1 as [|l ls ls' _ IH|l k ls|ls ls' ls'' _ IH1 _ IH2]; cbn.
  - done.
  - by rewrite IH.
  - rewrite !app_assoc. by rewrite (Permutation_app_comm k l).
  - by etrans.
Qed.

Lemma fmap_Ret_inj {A} (rs rs' : list A) :
  Ret <$> rs = Ret <$> rs' -> rs = rs'.
Proof.
  revert rs'. induction rs as [|r rs IH]; intros [|r' rs'] Heq; try done.
  rewrite !fmap_cons in Heq. injection Heq as -> Heq. f_equal. by apply IH.
Qed.

Lemma returned_Permutation_inj {A} (rs rs' : list A) :
  Ret <$> rs ≡ₚ Ret <$> rs' -> rs ≡ₚ rs'.
Proof.
  intros Hp.
  destruct (Permutation_returned _ _ Hp rs' eq_refl) as (rs'' & Heq & Hp').
  by rewrite (fmap_Ret_inj _ _ Heq).
Qed.

(** X9: the completion order of the futures does not affect what a
    concurrent run produces beyond its order: two runs on the same
    warehouse that differ only in the order in which [as_completed] yields
    the futures return the same session results and store the same query
    results up to a permutation, so that the statistics of the report are
    the same, per query name and overall. *)
Theorem completion_order_irrelevant (env env' : LoadEnv) (W I : nat)
    (qs qs1 qs1' : list QueryResult) (all all' : list DashboardLoadResult) :
  fair env -> fair env' ->
  patients_table env = patients_table env' ->
  session_envs env = session_envs env' ->
  simulate_concurrent_dashboards env W I qs = Ret (all, qs1) ->
  simulate_concurrent_dashboards env' W I qs = Ret (all', qs1') ->
  all ≡ₚ all' /\ qs1 ≡ₚ qs1' /\
  overall_metrics (successful qs1) = overall_metrics (successful qs1') /\
  (forall name,
      query_metrics (successful qs1) name
      = query_metrics (successful qs1') name).
Proof.
  intros Hfair Hfair' Htable Henvs Hrun Hrun'.
  assert (all ≡ₚ all' /\ qs1 ≡ₚ qs1') as [Hall Hqs].
  { unfold simulate_concurrent_dashboards in *.
    destruct W as [|w].
    - destruct I as [|i]; [|discriminate Hrun].
      cbn in Hrun, Hrun'. injection Hrun as <- <-.
      by injection Hrun' as <- <-.
    - destruct (iterate_dashboards_spec env (S w)
                  (get_sample_patient_ids env (S w * I)) (seq 0 I) [] qs)
        as (rs & Hrs & Hp & _); [done|done|].
      destruct (iterate_dashboards_spec env' (S w)
                  (get_sample_patient_ids env' (S w * I)) (seq 0 I) [] qs)
        as (rs' & Hrs' & Hp' & _); [done|done|].
      rewrite Hrun in Hrs. injection Hrs as -> ->.
      rewrite Hrun' in Hrs'. injection Hrs' as -> ->.
      assert (rs ≡ₚ rs') as Hperm.
      { apply returned_Permutation_inj. rewrite Hp, Hp'.
        unfold get_sample_patient_ids, submit_all.
        by rewrite Htable, Henvs. }
      split; [done|]. apply Permutation_app; [done|].
      apply concat_Permutation. by rewrite Hperm. }
  split; [done|]. split; [done|].
  assert (successful qs1 ≡ₚ successful qs1') as Hs
    by (unfold successful; by rewrite Hqs).
  split; [by apply overall_metrics_perm|].
  intros name. by apply query_metrics_perm.
Qed.

Lemma completion_order_irrelevant_witness :
  fair sample_load_env /\ fair sample_load_env_in_order /\
  exists all all' qs1 qs1',
    simulate_concurrent_dashboards sample_load_env 3 1 [] = Ret (all, qs1) /\
    simulate_concurrent_dashboards sample_load_env_in_order 3 1 []
      = Ret (all', qs1') /\
    all ≡ₚ all' /\ qs1 ≡ₚ qs1'.
Proof.
  assert (fair sample_load_env) as Hfair.
  { intros it fs. simpl. apply reverse_Permutation. }
  assert (fair sample_load_env_in_order) as Hfair'.
  { intros it fs. simpl. reflexivity. }
  split; [exact Hfair|]. split; [exact Hfair'|].
  eexists _, _, _, _. split; [vm_compute; reflexivity|].
  split; [vm_compute; reflexivity|].
  destruct (completion_order_irrelevant sample_load_env
              sample_load_env_in_order 3 1 [] _ _ _ _ Hfair Hfair'
              eq_refl eq_refl eq_refl eq_refl) as (Hall & Hqs & _).
  split; [exact Hall|exact Hqs].
Defined.

(** ** A full simulation *)

Lemma concurrent_run_shape (env : LoadEnv) (W I : nat)
    (qs : list QueryResult) :
  fair env -> (1 <= W)%nat ->
  (W * I <= length (patients_table env))%nat ->
  exists all new,
    simulate_concurrent_dashboards env W I qs = Ret (all, qs ++ new) /\
    length new = (3 * (W * I))%nat.
Proof.
  intros Hfair HW Hlen. unfold simulate_concurrent_dashboards.
  destruct (iterate_dashboards_spec env W
              (get_sample_patient_ids env (W * I)) (seq 0 I) [] qs)
    as (rs & Hrun & _ & Hids & Hwf); [done|lia|].
  rewrite concat_batches in Hids. unfold get_sample_patient_ids in Hids.
  rewrite take_take, (Nat.mul_comm I W), Nat.min_id in Hids.
  exists rs, (concat (query_results <$> rs)). split; [done|].
  rewrite length_concat_sessions by done.
  rewrite <- (length_fmap patient_id), Hids, length_take. lia.
Qed.

Lemma report_on_nonempty (rs : list QueryResult) :
  rs <> [] ->
  exists rep, generate_performance_report rs = Ret (Analysed rep) /\
              total_executed rep = length rs.
Proof.
  intros Hne. destruct (report_shape rs Hne) as (spct & ms & -> & _).
  by eexists.
Qed.

(** X10: once the connection is established, a full simulation with at
    least one worker and enough patient ids never raises and always leaves
    the connection closed; its report covers every earlier result, three
    results per session and two per operational iteration, and it is the
    "no query results" notice only when there is nothing at all to
    report. *)
Theorem full_simulation_reports_all (env : SimEnv) (W I J : nat)
    (connection : Connection) (qs : list QueryResult) :
  connect_outcome env = Ret tt ->
  fair (load_env env) -> (1 <= W)%nat ->
  (W * I <= length (patients_table (load_env env)))%nat ->
  exists out,
    run_full_simulation env W I J connection qs = (Ret out, Closed) /\
    match out with
    | NoQueryResults => qs = [] /\ I = 0%nat /\ J = 0%nat
    | Analysed rep =>
        total_executed rep = (length qs + 3 * (W * I) + 2 * J)%nat
    end.
Proof.
  intros Hconnect Hfair HW Hlen.
  unfold run_full_simulation, connect. rewrite Hconnect.
  cbn [mbind Py_bind py_bind]. unfold finally_disconnect, simulation_phases.
  destruct (concurrent_run_shape (load_env env) W I qs Hfair HW Hlen)
    as (all & new & -> & Hnew).
  cbn [mbind Py_bind py_bind snd].
  destruct (operational_queries_two_per_iteration_aux (operational_envs env)
              J (qs ++ new)) as (ops & -> & Hops).
  cbn [mbind Py_bind py_bind snd disconnect].
  destruct (decide ((qs ++ new) ++ ops = [])) as [Hnil|Hne].
  - rewrite Hnil. exists NoQueryResults. split; [done|].
    apply app_eq_nil in Hnil as [[-> ->]%app_eq_nil ->].
    simpl in *. split; [done|]. nia.
  - destruct (report_on_nonempty _ Hne) as (rep & -> & Htotal).
    exists (Analysed rep). split; [done|].
    rewrite Htotal, !length_app, Hnew, Hops. lia.
Qed.

Lemma full_simulation_reports_all_witness :
  connect_outcome sample_sim_env = Ret tt /\
  fair (load_env sample_sim_env) /\ (1 <= 3)%nat /\
  (3 * 1 <= length (patients_table (load_env sample_sim_env)))%nat /\
  exists out,
    run_full_simulation sample_sim_env 3 1 2 NotConnected []
      = (Ret out, Closed).
Proof.
  assert (fair (load_env sample_sim_env)) as Hfair.
  { intros it fs. simpl. apply reverse_Permutation. }
  split; [reflexivity|]. split; [exact Hfair|]. split; [lia|].
  split; [simpl; lia|].
  destruct (full_simulation_reports_all sample_sim_env 3 1 2 NotConnected []
              eq_refl Hfair) as (out & Hrun & _); [lia|simpl; lia|].
  exists out. exact Hrun.
Defined.

(** X11: a full simulation closes what it opened on its failure paths
    too.  When the connector refuses the connection, that exception
    escapes, no query is run and an earlier connection object, if any, is
    closed; when the connection is established and the run is asked for
    zero workers and at least one iteration, the [ValueError] of the thread
    pool escapes and the connection is closed all the same. *)
Theorem full_simulation_failure_paths (env : SimEnv) (W I J : nat)
    (connection : Connection) (qs : list QueryResult) :
  (forall e,
      connect_outcome env = Raise e ->
      run_full_simulation env W I J connection qs
      = (Raise e, disconnect connection)) /\
  (connect_outcome env = Ret tt ->
   snd (run_full_simulation env W I J connection qs) = Closed) /\
  (connect_outcome env = Ret tt -> (0 < I)%nat ->
   run_full_simulation env 0 I J connection qs
   = (Raise (ValueError "max_workers must be greater than 0"), Closed)).
Proof.
  unfold run_full_simulation, connect, finally_disconnect.
  split; [|split].
  - by intros e ->.
  - by intros ->.
  - intros -> HI. cbn [mbind Py_bind py_bind disconnect].
    unfold simulation_phases, simulate_concurrent_dashboards.
    destruct I as [|i]; [lia|]. done.
Qed.

Lemma full_simulation_failure_paths_witness :
  connect_outcome unreachable_sim_env
    = Raise (DatabaseError "250001: Could not connect") /\
  run_full_simulation unreachable_sim_env 3 1 2 NotConnected []
    = (Raise (DatabaseError "250001: Could not connect"), NotConnected) /\
  connect_outcome sample_sim_env = Ret tt /\ (0 < 1)%nat /\
  run_full_simulation sample_sim_env 0 1 2 NotConnected []
    = (Raise (ValueError "max_workers must be greater than 0"), Closed).
Proof.
  destruct (full_simulation_failure_paths unreachable_sim_env 3 1 2
              NotConnected []) as (Hrefused & _).
  destruct (full_simulation_failure_paths sample_sim_env 0 1 2
              NotConnected []) as (_ & _ & Hzero).
  split; [reflexivity|]. split; [exact (Hrefused _ eq_refl)|].
  split; [reflexivity|]. split; [lia|]. apply Hzero; [reflexivity|lia].
Defined.

(* ================================================================== *)
(** * Further properties of the generator *)

(** ** Sizes of the tables *)

Lemma post_for_each_length {X A} (xs : list X) (body : X -> Gen (list A))
    (lo hi : X -> nat) :
  (forall x, x ∈ xs ->
             gen_post (body x) (λ rows, (lo x <= length rows <= hi x)%nat)) ->
  gen_post (for_each xs body)
    (λ rows, (sum_list_with lo xs <= length rows <= sum_list_with hi xs)%nat).
Proof.
  induction xs as [|x xs IH]; intros Hbody; simpl.
  - apply post_ret. simpl. lia.
  - eapply post_bind; [apply Hbody; left|]. intros rows Hrows.
    eapply post_bind.
    { apply IH. intros y Hy. apply Hbody. by right. }
    intros rest Hrest. apply post_ret. cbv beta in *.
    rewrite length_app. lia.
Qed.

Lemma sum_list_with_const {A} (k : nat) (l : list A) :
  sum_list_with (λ _, k) l = (k * length l)%nat.
Proof. induction l; simpl; lia. Qed.

Lemma sum_list_with_filter {A} (P : A -> Prop) `{!forall x, Decision (P x)}
    (k : nat) (l : list A) :
  sum_list_with (λ x, if decide (P x) then k else 0%nat) l
  = (k * length (filter P l))%nat.
Proof.
  induction l as [|a l IH]; simpl; [lia|]. rewrite filter_cons.
  destruct (decide (P a)); simpl; lia.
Qed.

Lemma post_generate_encounters_size (lam : Q) (self : Generator) :
  gen_post (generate_encounters lam self)
    (λ g, exists ps es,
        patients self = Some ps /\ encounters g = Some es /\
        (length ps <= length es <= 20 * length ps)%nat).
Proof.
  unfold generate_encounters. destruct (patients self) as [ps|] eqn:Hps;
    [|apply post_raise].
  eapply post_bind.
  { apply (post_for_each_length ps _ (λ _, 1%nat) (λ _, 20%nat)).
    intros p _. eapply post_weaken; [apply post_encounters_of_patient|].
    by intros ? []. }
  intros es Hes. apply post_ret. exists ps, es.
  rewrite !sum_list_with_const in Hes. cbn. split; [done|]. split; [done|].
  lia.
Qed.

Lemma post_generate_lab_results_size (lam : Q) (self : Generator) :
  gen_post (generate_lab_results lam self)
    (λ g, exists es ls,
        encounters self = Some es /\ lab_results g = Some ls /\
        (lab_encounters es <= length ls <= 8 * lab_encounters es)%nat).
Proof.
  unfold generate_lab_results. destruct (encounters self) as [es|] eqn:Hes;
    [|apply post_raise].
  eapply post_bind.
  { apply (post_for_each_length es _
             (λ e, if decide (Encounter.ENCOUNTER_TYPE e ∈ lab_encounter_types)
                   then 1%nat else 0%nat)
             (λ e, if decide (Encounter.ENCOUNTER_TYPE e ∈ lab_encounter_types)
                   then 8%nat else 0%nat)).
    intros e _. eapply post_weaken; [apply post_labs_of_encounter|].
    intros rows (Hnone & Hsome & _). case_decide.
    - by apply Hsome.
    - rewrite Hnone by done. simpl. lia. }
  intros ls Hls. apply post_ret. exists es, ls.
  rewrite !sum_list_with_filter in Hls. cbn. split; [done|]. split; [done|].
  unfold lab_encounters. lia.
Qed.

Lemma filter_all_match {A} (P : A -> Prop) `{!forall x, Decision (P x)}
    (l : list A) :
  Forall P l -> filter P l = l.
Proof.
  induction 1 as [|a l Ha _ IH]; [done|].
  rewrite filter_cons. destruct (decide (P a)); [by rewrite IH|done].
Qed.

Lemma filter_none_match {A} (P : A -> Prop) `{!forall x, Decision (P x)}
    (l : list A) :
  Forall (λ a, ~ P a) l -> filter P l = [].
Proof.
  induction 1 as [|a l Ha _ IH]; [done|].
  rewrite filter_cons. destruct (decide (P a)); [done|exact IH].
Qed.

Lemma batches_keys {P R} (key : P -> string) (fk : R -> string)
    (C : P -> list R -> Prop) (ps : list P) (bs : list (list R)) :
  Forall2 (λ p b, C p b /\ Forall (λ r, fk r = key p) b) ps bs ->
  Forall (λ r, fk r ∈ key <$> ps) (concat bs).
Proof.
  induction 1 as [|p b ps bs [_ Hb] _ IH]; [constructor|].
  cbn [concat]. rewrite fmap_cons. apply Forall_app. split.
  - eapply Forall_impl; [exact Hb|]. intros r ->. left.
  - eapply Forall_impl; [exact IH|]. intros r Hr. by right.
Qed.

(** With distinct keys, the rows that carry the key of a parent are the
    rows generated for it. *)
Lemma in_batches_count_by_key {P R} (key : P -> string) (fk : R -> string)
    (C : P -> nat -> Prop) (ps : list P) (rows : list R) :
  NoDup (key <$> ps) ->
  in_batches (λ p b, C p (length b) /\ Forall (λ r, fk r = key p) b) ps rows ->
  forall p, p ∈ ps -> C p (length (filter (λ r, fk r = key p) rows)).
Proof.
  intros Hnd (batches & -> & HF).
  induction HF as [|p0 b ps bs [HC Hb] HF IH]; intros p Hp.
  - by apply elem_of_nil in Hp.
  - rewrite fmap_cons in Hnd. apply NoDup_cons in Hnd as [Hnot Hnd].
    pose proof (batches_keys key fk (λ p b, C p (length b)) ps bs HF)
      as Hrest.
    cbn [concat]. rewrite filter_app, length_app.
    apply elem_of_cons in Hp as [->|Hp].
    + rewrite (filter_all_match _ b Hb).
      rewrite (filter_none_match _ (concat bs)).
      { cbn [length]. by rewrite Nat.add_0_r. }
      eapply Forall_impl; [exact Hrest|]. intros r Hr Heq. cbv beta in *.
      apply Hnot. by rewrite <- Heq.
    + rewrite (filter_none_match _ b).
      { cbn [length]. by apply IH. }
      eapply Forall_impl; [exact Hb|]. intros r Hr Heq. cbv beta in *.
      apply Hnot. rewrite <- Hr, Heq. by apply list_elem_of_fmap_2.
Qed.

(** X12: the sizes of a generated dataset.  There are exactly
    [max(0, N)] patients.  The encounters lie in their table patient by
    patient, between 1 and 20 for every patient, each with that patient's
    PATIENT_ID; the lab results lie in their table encounter by encounter,
    between 1 and 8 for every EMERGENCY, INPATIENT or OUTPATIENT encounter
    and none for any other, each with that encounter's ENCOUNTER_ID.  So
    whenever the PATIENT_IDs are pairwise distinct every PATIENT_ID occurs
    on 1 to 20 encounters, and whenever the ENCOUNTER_IDs are pairwise
    distinct every ENCOUNTER_ID occurs on 1 to 8 lab results, or on none,
    by the type of the encounter.  In total there are between one and
    twenty times as many encounters as patients. *)
Theorem dataset_sizes (N : Z) (lam1 lam2 : Q) (w w' : World)
    (g : Generator) :
  generate_dataset N lam1 lam2 w = Ret (g, w') ->
  exists ps es ls,
    patients g = Some ps /\ encounters g = Some es /\
    lab_results g = Some ls /\
    length ps = Z.to_nat N /\
    in_batches
      (λ p b, (1 <= length b <= 20)%nat /\
              Forall (λ e, Encounter.PATIENT_ID e = Patient.PATIENT_ID p) b)
      ps es /\
    in_batches
      (λ e b,
       (if decide (Encounter.ENCOUNTER_TYPE e ∈ lab_encounter_types)
        then (1 <= length b <= 8)%nat else length b = 0%nat) /\
       Forall (λ l, LabResult.ENCOUNTER_ID l = Encounter.ENCOUNTER_ID e) b)
      es ls /\
    (NoDup (Patient.PATIENT_ID <$> ps) ->
     forall p, p ∈ ps ->
       (1 <= length (filter (λ e, Encounter.PATIENT_ID e
                                  = Patient.PATIENT_ID p) es) <= 20)%nat) /\
    (NoDup (Encounter.ENCOUNTER_ID <$> es) ->
     forall e, e ∈ es ->
       let n := length (filter (λ l, LabResult.ENCOUNTER_ID l
                                     = Encounter.ENCOUNTER_ID e) ls) in
       if decide (Encounter.ENCOUNTER_TYPE e ∈ lab_encounter_types)
       then (1 <= n <= 8)%nat else n = 0%nat) /\
    (length ps <= length es <= 20 * length ps)%nat /\
    (lab_encounters es <= length ls <= 8 * lab_encounters es)%nat.
Proof.
  unfold generate_dataset.
  intros (g1 & w1 & H1 & (g2 & w2 & H2 & H3)%gen_bind_inv)%gen_bind_inv.
  pose proof (post_generate_patients _ _ _ _ H1)
    as (ps & Hps & Hlen & _).
  pose proof (post_generate_encounters_batches _ _ _ _ _ H2)
    as (ps' & es & Hps' & Hps2 & Hes & _ & Hencb).
  pose proof (post_generate_encounters_size _ _ _ _ _ H2)
    as (ps'' & es' & Hps'' & Hes' & Hsize).
  pose proof (post_generate_lab_results_batches _ _ _ _ _ H3)
    as (es2 & ls & Hes2 & Hes_g & Hpat & Hls & Hlabb).
  pose proof (post_generate_lab_results_size _ _ _ _ _ H3)
    as (es3 & ls' & Hes3 & Hls' & Hlabs).
  rewrite Hps in Hps'. injection Hps' as <-.
  rewrite Hps in Hps''. injection Hps'' as <-.
  rewrite Hes in Hes'. injection Hes' as <-.
  rewrite Hes in Hes2. injection Hes2 as <-.
  rewrite Hes in Hes3. injection Hes3 as <-.
  rewrite Hls in Hls'. injection Hls' as <-.
  assert (in_batches
            (λ p b, (1 <= length b <= 20)%nat /\
                    Forall (λ e, Encounter.PATIENT_ID e
                                 = Patient.PATIENT_ID p) b) ps es) as Henc.
  { eapply in_batches_weaken; [|exact Hencb]. intros p b _ [Hb Hn].
    split; [exact Hn|]. eapply Forall_impl; [exact Hb|]. by intros e [? _]. }
  assert (in_batches
            (λ e b,
             (if decide (Encounter.ENCOUNTER_TYPE e ∈ lab_encounter_types)
              then (1 <= length b <= 8)%nat else length b = 0%nat) /\
             Forall (λ l, LabResult.ENCOUNTER_ID l
                          = Encounter.ENCOUNTER_ID e) b) es ls) as Hlab.
  { eapply in_batches_weaken; [|exact Hlabb].
    intros e b _ (Hb & Hnone & Hsome & _). split.
    - case_decide as Ht; [by apply Hsome|]. by rewrite (Hnone Ht).
    - eapply Forall_impl; [exact Hb|]. by intros l [? _]. }
  exists ps, es, ls. rewrite Hpat, Hps2.
  split; [done|]. split; [done|]. split; [done|]. split; [exact Hlen|].
  split; [exact Henc|]. split; [exact Hlab|].
  split; [|split; [|split; [exact Hsize|exact Hlabs]]].
  - intros Hnd.
    exact (in_batches_count_by_key Patient.PATIENT_ID Encounter.PATIENT_ID
             (λ _ n, (1 <= n <= 20)%nat) ps es Hnd Henc).
  - intros Hnd e He. cbv zeta.
    exact (in_batches_count_by_key Encounter.ENCOUNTER_ID
             LabResult.ENCOUNTER_ID
             (λ e n,
              if decide (Encounter.ENCOUNTER_TYPE e ∈ lab_encounter_types)
              then (1 <= n <= 8)%nat else n = 0%nat) es ls Hnd Hlab e He).
Qed.

Lemma dataset_sizes_witness :
  exists g w',
    generate_dataset 2 1 1 (seeded_world entropy_a clock_a) = Ret (g, w') /\
    exists ps es,
      patients g = Some ps /\ encounters g = Some es /\
      length ps = 2%nat /\
      NoDup (Patient.PATIENT_ID <$> ps) /\
      forall p, p ∈ ps ->
        (1 <= length (filter (λ e, Encounter.PATIENT_ID e
                                   = Patient.PATIENT_ID p) es) <= 20)%nat.
Proof.
  destruct (total_generate_dataset 2 1 1 ltac:(discriminate)
              ltac:(discriminate) (seeded_world entropy_a clock_a))
    as (g & w' & Hrun).
  exists g, w'. split; [exact Hrun|].
  destruct (dataset_sizes _ _ _ _ _ _ Hrun)
    as (ps & es & ls & Hps & Hes & _ & Hlen & _ & _ & Hbyid & _).
  assert (exists g0,
             result_of (generate_dataset 2 1 1 (seeded_world entropy_a clock_a))
               = Ret g0 /\
             Patient.PATIENT_ID <$> default [] (patients g0)
               = ["PAT-0A1B2C3D"; "PAT-0A1B2C3E"]) as (g0 & Hg0 & Hids).
  { eexists. split; [vm_compute; reflexivity|reflexivity]. }
  rewrite Hrun in Hg0. cbn [result_of] in Hg0. injection Hg0 as Hg.
  rewrite <- Hg, Hps in Hids.
  change (Patient.PATIENT_ID <$> ps = ["PAT-0A1B2C3D"; "PAT-0A1B2C3E"])
    in Hids.
  assert (NoDup (Patient.PATIENT_ID <$> ps)) as Hnd.
  { rewrite Hids. apply (bool_decide_unpack _). vm_compute. reflexivity. }
  exists ps, es.
  split; [exact Hps|]. split; [exact Hes|]. split; [exact Hlen|].
  split; [exact Hnd|]. exact (Hbyid Hnd).
Defined.

(** ** What an encounter row holds *)

Lemma post_new_encounter_rules (p : Patient.row) :
  gen_post (new_encounter p) (encounter_rules p).
Proof.
  unfold new_encounter.
  eapply post_bind; [apply post_choices|]. intros encounter_type Htype.
  eapply post_bind; [apply post_randint; lia|]. intros days Hdays.
  cbv beta in Hdays.
  set (encounter_date := Patient.CREATED_AT p + timedelta_days days).
  eapply (post_bind _ _
            (λ dd,
             (encounter_type ∈ ["INPATIENT"; "EMERGENCY"] ->
              exists d, dd = Some d /\
                        encounter_date + timedelta_hours 2 <= d
                          <= encounter_date + timedelta_hours 240) /\
             (encounter_type ∉ ["INPATIENT"; "EMERGENCY"] -> dd = None))).
  { case_decide as Hin.
    - eapply post_bind; [apply post_randint; lia|]. intros los Hlos.
      apply post_ret. cbv beta in Hlos. split; [|done]. intros _.
      eexists. split; [done|]. unfold timedelta_hours. lia.
    - apply post_ret. split; [done|]. by intros _. }
  intros discharge_date [Hin Hout].
  eapply post_bind; [apply post_choice|]. intros diagnosis_code Hcode.
  do 4 (eapply post_bind; [apply post_trivial|]; intros ? _).
  eapply post_bind; [apply post_lookup_key|]. intros description Hdesc.
  apply post_ret. unfold encounter_rules. cbn.
  split; [done|]. split; [done|].
  split; [subst encounter_date; unfold timedelta_days; lia|].
  split; [|split; [|done]].
  - intros Ht. destruct (Hin Ht) as (d & -> & Hd). by exists d.
  - intros Ht. by rewrite (Hout Ht).
Qed.

(** X13: every encounter that [generate_encounters] writes belongs to a
    patient of the table and follows the rules of the generator: its type
    is one of the four encounter types; its date lies between the
    patient's CREATED_AT and 730 days later; an INPATIENT or EMERGENCY
    encounter has a discharge date 2 to 240 hours after the encounter
    date, the status DISCHARGED and the discharge date as UPDATED_AT; any
    other encounter has no discharge date, the status ACTIVE and the
    encounter date as UPDATED_AT; and the diagnosis description is the one
    listed for its diagnosis code. *)
Theorem encounters_follow_rules (lam : Q) (self g : Generator)
    (w w' : World) :
  generate_encounters lam self w = Ret (g, w') ->
  exists ps es,
    patients self = Some ps /\ encounters g = Some es /\
    Forall (λ e, exists p, p ∈ ps /\ encounter_rules p e) es.
Proof.
  unfold generate_encounters. destruct (patients self) as [ps|] eqn:Hps;
    [|done].
  intros (es & w1 & Hes & Hret)%gen_bind_inv.
  injection Hret as <- _. exists ps, es. split; [done|]. split; [done|].
  eapply (post_for_each ps _ encounter_rules); [|exact Hes].
  intros p _. unfold encounters_of_patient.
  eapply post_bind; [apply post_trivial|]. intros n _.
  eapply post_weaken; [apply post_repeat_gen, post_new_encounter_rules|].
  by intros rows [? _].
Qed.

Lemma encounters_follow_rules_witness :
  exists g w',
    generate_encounters 5 sample_generator (seeded_world entropy_a clock_a)
      = Ret (g, w') /\
    exists es,
      encounters g = Some es /\
      Forall (λ e, exists p, p ∈ [sample_patient] /\ encounter_rules p e) es.
Proof.
  destruct (total_generate_encounters 5 sample_generator
              ltac:(discriminate) ltac:(eexists; reflexivity)
              (seeded_world entropy_a clock_a)) as (g & w' & Hrun).
  exists g, w'. split; [exact Hrun|].
  destruct (encounters_follow_rules _ _ _ _ _ Hrun)
    as (ps & es & Hps & Hes & Hrules).
  injection Hps as <-. exists es. split; [exact Hes|exact Hrules].
Defined.

(** ** What a lab result row holds *)

Lemma round_half_even_between (n d lo hi : Z) :
  0 < d -> lo * d <= n <= hi * d -> lo <= round_half_even n d <= hi.
Proof.
  intros Hd [Hlo Hhi]. unfold round_half_even.
  pose proof (Z.div_mod n d ltac:(lia)) as Hdm.
  pose proof (Z.mod_pos_bound n d Hd) as Hr.
  assert (lo <= n / d) by (apply Z.div_le_lower_bound; lia).
  assert (n / d <= hi) by (apply Z.div_le_upper_bound; lia).
  assert (0 < n mod d -> n / d < hi) by nia.
  repeat case_decide; destruct (Z.even (n / d)); lia.
Qed.

Lemma post_uniform_round2 (a b : Z) :
  gen_post (uniform_round2 a b) (λ v, Z.min a b <= v <= Z.max a b).
Proof.
  unfold uniform_round2.
  eapply post_bind; [apply post_random_random|]. intros u Hu.
  cbv beta in Hu. apply post_ret.
  apply round_half_even_between; unfold random_unit in *; [done|]. nia.
Qed.

Lemma lab_tests_plausible (code : string) (info : LabTest) :
  (code, info) ∈ lab_tests -> plausible_test info.
Proof.
  unfold lab_tests. rewrite !elem_of_cons, elem_of_nil.
  intros H. repeat destruct H as [H|H]; try done;
    injection H as _ ->; unfold plausible_test; cbn; lia.
Qed.

Lemma post_draw_result (info : LabTest) :
  plausible_test info ->
  gen_post (draw_result info) (λ r, value_matches_flag info r.1 r.2).
Proof.
  intros [Hmin Hmax]. unfold draw_result.
  assert (normal_max info <= normal_max info * 3 / 2)
    by (apply Z.div_le_lower_bound; lia).
  assert (normal_min info / 2 <= normal_min info)
    by (apply Z.div_le_upper_bound; lia).
  eapply post_bind; [apply post_trivial|]. intros result_type _.
  repeat case_decide.
  - eapply post_bind; [apply post_uniform_round2|]. intros v Hv.
    apply post_ret. cbn. cbv beta in Hv. lia.
  - eapply post_bind; [apply post_trivial|]. intros r _. case_decide.
    + eapply post_bind; [apply post_uniform_round2|]. intros v Hv.
      apply post_ret. cbn. cbv beta in Hv. left. split; [done|]. lia.
    + eapply post_bind; [apply post_uniform_round2|]. intros v Hv.
      apply post_ret. cbn. cbv beta in Hv. right. left. split; [done|]. lia.
  - eapply post_bind; [apply post_uniform_round2|]. intros v Hv.
    apply post_ret. cbn. cbv beta in Hv. right. right. by split.
Qed.

Lemma Forall2_exists_l {A B} (P : A -> B -> Prop) (l : list A)
    (k : list B) :
  Forall2 P l k -> Forall (λ y, exists x, P x y) k.
Proof. induction 1; constructor; eauto. Qed.

Lemma post_new_lab_result_rules (e : Encounter.row) (test_code : string) :
  gen_post (new_lab_result e test_code) (lab_row_rules e test_code).
Proof.
  unfold new_lab_result, lab_row_rules.
  eapply post_bind; [apply post_lookup_key|]. intros info Hinfo.
  cbv beta in Hinfo.
  eapply post_bind; [apply post_draw_result|].
  { exact (lab_tests_plausible _ _ Hinfo). }
  intros result Hresult.
  eapply post_bind; [apply post_randint; lia|]. intros after Hafter.
  eapply post_bind; [apply post_randint; lia|]. intros turnaround Hturn.
  eapply post_bind; [apply post_trivial|]. intros lid _.
  apply post_ret. cbv beta in Hafter, Hturn, Hresult.
  split; [|split; [done|by exists info]].
  unfold lab_timing_rules, timedelta_hours. cbn. repeat split; lia.
Qed.

(** X14: every lab result that [generate_lab_results] writes belongs to
    an encounter of the table and copies its ENCOUNTER_ID, PATIENT_ID and
    PROVIDER_ID; it is tested within 12 hours after the encounter date and
    reported between 1 and 48 hours after the test; CREATED_AT and
    UPDATED_AT are the RESULT_DATE. *)
Theorem lab_results_follow_timing (lam : Q) (self g : Generator)
    (w w' : World) :
  generate_lab_results lam self w = Ret (g, w') ->
  exists es ls,
    encounters self = Some es /\ lab_results g = Some ls /\
    Forall (λ l, exists e, e ∈ es /\ lab_timing_rules e l) ls.
Proof.
  unfold generate_lab_results. destruct (encounters self) as [es|] eqn:Hes;
    [|done].
  intros (ls & w1 & Hls & Hret)%gen_bind_inv.
  injection Hret as <- _. exists es, ls. split; [done|]. split; [done|].
  eapply (post_for_each es _ lab_timing_rules); [|exact Hls].
  intros e _. unfold labs_of_encounter. case_decide.
  { apply post_ret. constructor. }
  do 2 (eapply post_bind; [apply post_trivial|]; intros ? _).
  eapply post_weaken;
    [apply (post_mapM _ _ (lab_row_rules e)); intros;
     apply post_new_lab_result_rules|].
  intros rows HF. cbv beta in HF. apply Forall2_exists_l in HF.
  eapply Forall_impl; [exact HF|]. by intros l (code & ? & _).
Qed.

Lemma lab_results_follow_timing_witness :
  exists g w',
    generate_lab_results 3 sample_generator (seeded_world entropy_a clock_a)
      = Ret (g, w') /\
    exists ls,
      lab_results g = Some ls /\
      Forall (λ l, exists e, e ∈ [sample_encounter] /\ lab_timing_rules e l)
             ls.
Proof.
  destruct (total_generate_lab_results 3 sample_generator
              ltac:(discriminate) ltac:(eexists; reflexivity)
              (seeded_world entropy_a clock_a)) as (g & w' & Hrun).
  exists g, w'. split; [exact Hrun|].
  destruct (lab_results_follow_timing _ _ _ _ _ Hrun)
    as (es & ls & Hes & Hls & Hrules).
  injection Hes as <-. exists ls. split; [exact Hls|exact Hrules].
Defined.

(** X15: the value of every generated lab result agrees with its flag,
    for the catalog entry of its test: without a flag the value lies in
    the normal range; flagged HIGH it lies between the normal maximum and
    one and a half times the normal maximum; flagged LOW between half the
    normal minimum and the normal minimum; flagged CRITICAL between one
    and a half times the normal maximum and the critical threshold, in
    whichever order these two lie.  Unit and reference range are those of
    the catalog entry. *)
Theorem lab_values_match_flags (lam : Q) (self g : Generator)
    (w w' : World) :
  generate_lab_results lam self w = Ret (g, w') ->
  exists ls,
    lab_results g = Some ls /\
    Forall (λ l, exists info,
              (LabResult.TEST_CODE l, info) ∈ lab_tests /\
              LabResult.RESULT_UNIT l = unit_of info /\
              LabResult.REFERENCE_RANGE l = range_text info /\
              value_matches_flag info (LabResult.RESULT_VALUE l)
                (LabResult.ABNORMAL_FLAG l)) ls.
Proof.
  unfold generate_lab_results. destruct (encounters self) as [es|] eqn:Hes;
    [|done].
  intros (ls & w1 & Hls & Hret)%gen_bind_inv.
  injection Hret as <- _. exists ls. split; [done|].
  assert (Forall (λ l, exists e : Encounter.row, e ∈ es /\
              exists info,
                (LabResult.TEST_CODE l, info) ∈ lab_tests /\
                LabResult.RESULT_UNIT l = unit_of info /\
                LabResult.REFERENCE_RANGE l = range_text info /\
                value_matches_flag info (LabResult.RESULT_VALUE l)
                  (LabResult.ABNORMAL_FLAG l)) ls) as HF.
  { eapply (post_for_each es _
              (λ _ l, exists info,
                 (LabResult.TEST_CODE l, info) ∈ lab_tests /\
                 LabResult.RESULT_UNIT l = unit_of info /\
                 LabResult.REFERENCE_RANGE l = range_text info /\
                 value_matches_flag info (LabResult.RESULT_VALUE l)
                   (LabResult.ABNORMAL_FLAG l))); [|exact Hls].
    intros e _. unfold labs_of_encounter. case_decide.
    { apply post_ret. constructor. }
    do 2 (eapply post_bind; [apply post_trivial|]; intros ? _).
    eapply post_weaken;
      [apply (post_mapM _ _ (lab_row_rules e)); intros;
     apply post_new_lab_result_rules|].
    intros rows HF. cbv beta in HF. apply Forall2_exists_l in HF.
    eapply Forall_impl; [exact HF|].
    intros l (code & _ & <- & info & ?). by exists info. }
  eapply Forall_impl; [exact HF|]. by intros l (_ & _ & ?).
Qed.

Lemma lab_values_match_flags_witness :
  exists g w',
    generate_lab_results 3 sample_generator (seeded_world entropy_a clock_a)
      = Ret (g, w') /\
    exists ls, lab_results g = Some ls.
Proof.
  destruct (total_generate_lab_results 3 sample_generator
              ltac:(discriminate) ltac:(eexists; reflexivity)
              (seeded_world entropy_a clock_a)) as (g & w' & Hrun).
  exists g, w'. split; [exact Hrun|].
  destruct (lab_values_match_flags _ _ _ _ _ Hrun) as (ls & Hls & _).
  exists ls. exact Hls.
Defined.

(** ** The order of the generation calls *)

(** X16: the generation calls must be made in order: on a generator
    without patients [generate_encounters] raises "Must generate patients
    first", and on a generator without encounters, in particular right
    after [generate_patients], [generate_lab_results] raises "Must
    generate encounters first"; [generate_patients] itself always
    returns. *)
Theorem generation_order_enforced (N : Z) (lam : Q) (w : World) :
  generate_encounters lam (new_generator N) w
    = Raise (ValueError "Must generate patients first") /\
  generate_lab_results lam (new_generator N) w
    = Raise (ValueError "Must generate encounters first") /\
  exists g w1,
    generate_patients (new_generator N) w = Ret (g, w1) /\
    generate_lab_results lam g w1
      = Raise (ValueError "Must generate encounters first").
Proof.
  split; [reflexivity|]. split; [reflexivity|].
  destruct (total_generate_patients (new_generator N) w) as (g & w1 & Hg).
  exists g, w1. split; [exact Hg|].
  destruct (post_generate_patients _ _ _ _ Hg) as (ps & _ & _ & Hes & _).
  unfold generate_lab_results. by rewrite Hes.
Qed.

(** ** Encounters with eight or more tests *)

(** X17: when the Poisson draw for an EMERGENCY, INPATIENT or OUTPATIENT
    encounter is 8 or more, the encounter receives every test of the
    catalog exactly once. *)
Theorem large_draw_covers_catalog (lam : Q) (e : Encounter.row)
    (w w1 w' : World) (n : Z) (rows : list LabResult.row) :
  Encounter.ENCOUNTER_TYPE e ∈ lab_encounter_types ->
  poisson lam w = Ret (n, w1) -> 8 <= n ->
  labs_of_encounter lam e w = Ret (rows, w') ->
  LabResult.TEST_CODE <$> rows ≡ₚ keys lab_tests.
Proof.
  intros Htype Hn Hlarge Hrun. unfold labs_of_encounter in Hrun.
  destruct (decide (Encounter.ENCOUNTER_TYPE e ∉ lab_encounter_types));
    [done|].
  apply gen_bind_inv in Hrun as (k & w2 & Hk & Hrun).
  rewrite Hn in Hk. injection Hk as <- <-.
  apply gen_bind_inv in Hrun as (codes & w3 & Hcodes & Hrun).
  destruct (post_sample _ _ NoDup_lab_test_codes _ _ _ Hcodes)
    as (Hlen & Hnd & Hsub).
  pose proof (post_mapM _ _ _ (λ x _, post_new_lab_result e x) _ _ _ Hrun)
    as HF.
  cbv beta in HF. apply test_codes_of_rows in HF as [-> _].
  apply submseteq_length_Permutation.
  - by apply NoDup_submseteq.
  - rewrite Hlen. unfold clamp_count, keys. rewrite length_fmap. simpl. lia.
Qed.

Lemma large_draw_covers_catalog_witness :
  Encounter.ENCOUNTER_TYPE sample_encounter ∈ lab_encounter_types /\
  exists n w1 rows w',
    poisson 3 (seeded_world entropy_a clock_a) = Ret (n, w1) /\ 8 <= n /\
    labs_of_encounter 3 sample_encounter (seeded_world entropy_a clock_a)
      = Ret (rows, w') /\
    LabResult.TEST_CODE <$> rows ≡ₚ keys lab_tests.
Proof.
  assert (Encounter.ENCOUNTER_TYPE sample_encounter ∈ lab_encounter_types)
    as Htype by (right; right; left).
  split; [exact Htype|].
  destruct (total_poisson 3 ltac:(discriminate)
              (seeded_world entropy_a clock_a)) as (n & w1 & Hn).
  destruct (total_labs_of_encounter 3 sample_encounter ltac:(discriminate)
              (seeded_world entropy_a clock_a)) as (rows & w' & Hrun).
  assert (8 <= n) as Hlarge.
  { unfold poisson in Hn. cbn in Hn. injection Hn as <- _.
    vm_compute. discriminate. }
  exists n, w1, rows, w'. split; [exact Hn|]. split; [exact Hlarge|].
  split; [exact Hrun|].
  exact (large_draw_covers_catalog _ _ _ _ _ _ _ Htype Hn Hlarge Hrun).
Defined.

(** ** The summary of [generate_all] *)

Lemma generate_all_tables (self : Generator) (w : World) :
  exists g w' ps es,
    (self ← generate_patients self;
     self ← generate_encounters 5 self;
     generate_lab_results 3 self) w = Ret (g, w') /\
    patients g = Some ps /\ encounters g = Some es /\
    length ps = Z.to_nat (num_patients self) /\
    (length ps <= length es <= 20 * length ps)%nat.
Proof.
  destruct (total_generate_patients self w) as (g1 & w1 & H1).
  destruct (post_generate_patients _ _ _ _ H1) as (ps & Hps & Hlen & _).
  destruct (total_generate_encounters 5 g1 ltac:(discriminate)
              ltac:(by rewrite Hps) w1) as (g2 & w2 & H2).
  destruct (post_generate_encounters _ _ _ _ _ H2)
    as (ps' & es & Hps' & Hps2 & Hes & _).
  destruct (post_generate_encounters_size _ _ _ _ _ H2)
    as (ps'' & es' & Hps'' & Hes' & Hsize).
  destruct (total_generate_lab_results 3 g2 ltac:(discriminate)
              ltac:(by rewrite Hes) w2) as (g & w' & H3).
  destruct (post_generate_lab_results _ _ _ _ _ H3)
    as (es2 & ls & Hes2 & Hes_g & Hpat & _).
  rewrite Hps in Hps', Hps''. injection Hps' as <-. injection Hps'' as <-.
  rewrite Hes in Hes', Hes2. injection Hes' as <-. injection Hes2 as <-.
  exists g, w', ps, es. split.
  { unfold mbind, Gen_bind, gen_bind. by rewrite H1, H2. }
  rewrite Hpat. done.
Qed.

(** X18: [generate_all] needs at least one patient: on a generator with
    [num_patients <= 0] it generates three empty tables and then raises
    [ZeroDivisionError] while printing the average number of encounters
    per patient; with [num_patients >= 1] that average lies between 1 and
    20. *)
Theorem generate_all_needs_patients (N : Z) (w : World) :
  (N <= 0 ->
   result_of (generate_all (new_generator N) w) = Raise ZeroDivisionError) /\
  (1 <= N ->
   exists g s w',
     generate_all (new_generator N) w = Ret (g, s, w') /\
     summary_patients s = Z.to_nat N /\
     (summary_patients s <= summary_encounters s
        <= 20 * summary_patients s)%nat /\
     (1 <= summary_encounters_per_patient s)%Q /\
     (summary_encounters_per_patient s <= 20)%Q).
Proof.
  destruct (generate_all_tables (new_generator N) w)
    as (g & w' & ps & es & Hrun & Hps & Hes & Hlen & Hsize).
  cbn [num_patients new_generator] in Hlen.
  assert (generate_all (new_generator N) w
          = match py_truediv (length es) (length ps) with
            | Ret avg =>
                Ret (g, mkGenerationSummary (length ps) (length es)
                          (table_len (lab_results g)) avg, w')
            | Raise e => Raise e
            end) as Hall.
  { unfold generate_all, mbind, Gen_bind, gen_bind in *.
    destruct (generate_patients _ w) as [[g1 w1]|]; [|done].
    destruct (generate_encounters _ g1 w1) as [[g2 w2]|]; [|done].
    rewrite Hrun. unfold table_len. rewrite Hps, Hes. cbn [default].
    by destruct (py_truediv _ _). }
  rewrite Hall. unfold py_truediv. split.
  - intros HN. assert (length ps = 0%nat) as -> by lia. done.
  - intros HN. destruct (decide (length ps = 0%nat)) as [|Hpos]; [lia|].
    eexists _, _, _. split; [done|]. cbn.
    split; [done|]. split; [done|].
    assert (Z.pos (Pos.of_nat (length ps)) = Z.of_nat (length ps))
      as Hden by lia.
    unfold Qle. cbn [Qnum Qden]. rewrite Hden. lia.
Qed.

Lemma generate_all_needs_patients_witness :
  0 <= 0 /\ 1 <= 1 /\
  result_of (generate_all (new_generator 0) (seeded_world entropy_a clock_a))
    = Raise ZeroDivisionError /\
  exists g s w',
    generate_all (new_generator 1) (seeded_world entropy_a clock_a)
      = Ret (g, s, w') /\
    summary_patients s = 1%nat.
Proof.
  split; [lia|]. split; [lia|].
  destruct (generate_all_needs_patients 0 (seeded_world entropy_a clock_a))
    as [Hzero _].
  destruct (generate_all_needs_patients 1 (seeded_world entropy_a clock_a))
    as [_ Hone].
  split; [apply Hzero; lia|].
  destruct Hone as (g & s & w' & Hrun & Hn & _); [lia|].
  exists g, s, w'. split; [exact Hrun|exact Hn].
Defined.

(** ** Loading into the warehouse *)

Lemma db_bind_call {B} (c : DbCall) (outcome : Py unit) (k : unit -> Db B)
    (log : list DbCall) :
  (db_call c outcome ≫= k) log =
    match outcome with
    | Ret u => k u (log ++ [c])
    | Raise e => (Raise e, log ++ [c])
    end.
Proof.
  unfold mbind, Db_bind, db_bind, db_call. by destruct outcome.
Qed.

Lemma db_bind_lift {A B} (m : Py A) (k : A -> Db B) (log : list DbCall) :
  (db_lift m ≫= k) log =
    match m with
    | Ret a => k a log
    | Raise e => (Raise e, log)
    end.
Proof. unfold mbind, Db_bind, db_bind, db_lift. by destruct m. Qed.

Lemma insert_patients_ok (db : DbEnv) (rows : list Patient.row) (k : nat)
    (log : list DbCall) :
  (forall i, (i < length rows)%nat -> execute_outcome db (k + i) = Ret tt) ->
  insert_patients db k rows log = (Ret tt, log ++ inserts db k rows).
Proof.
  revert k log. induction rows as [|row rows IH]; intros k log Hok.
  - cbn. by rewrite app_nil_r.
  - cbn [insert_patients inserts]. rewrite db_bind_call.
    pose proof (Hok 0%nat ltac:(simpl; lia)) as H0.
    rewrite Nat.add_0_r in H0. rewrite H0.
    rewrite IH.
    + by rewrite <- app_assoc.
    + intros i Hi. rewrite <- (Hok (S i)) by (simpl; lia). f_equal. lia.
Qed.

Lemma insert_patients_fail (db : DbEnv) (rows : list Patient.row)
    (k j : nat) (e : PyExn) (log : list DbCall) :
  (j < length rows)%nat ->
  (forall i, (i < j)%nat -> execute_outcome db (k + i) = Ret tt) ->
  execute_outcome db (k + j) = Raise e ->
  insert_patients db k rows log
  = (Raise e, log ++ take (S j) (inserts db k rows)).
Proof.
  revert k j log. induction rows as [|row rows IH]; intros k j log Hj Hok He.
  - simpl in Hj. lia.
  - cbn [insert_patients inserts]. rewrite db_bind_call.
    destruct j as [|j].
    + rewrite Nat.add_0_r in He. rewrite He. cbn [take]. by rewrite take_0.
    + pose proof (Hok 0%nat ltac:(lia)) as H0.
      rewrite Nat.add_0_r in H0. rewrite H0.
      rewrite (IH (S k) j).
      * cbn [take]. by rewrite <- app_assoc.
      * simpl in Hj. lia.
      * intros i Hi. rewrite <- (Hok (S i)) by lia. f_equal. lia.
      * rewrite <- He. f_equal. lia.
Qed.

Lemma load_patients_ok (db : DbEnv) (self : Generator) (log : list DbCall) :
  (forall k, (k < length (load_statements db self))%nat ->
             execute_outcome db k = Ret tt) ->
  load_patients db self log = (Ret tt, log ++ load_statements db self).
Proof.
  unfold load_patients, load_statements.
  destruct (patients self) as [ps|]; intros Hok.
  - rewrite db_bind_call. rewrite (Hok 0%nat) by (simpl; lia).
    rewrite insert_patients_ok.
    + by rewrite <- app_assoc.
    + intros i Hi. apply Hok. simpl.
      assert (length (inserts db 1 ps) = length ps) as ->; [|lia].
      clear. generalize 1%nat. induction ps; intros; simpl; [done|].
      by rewrite IHps.
  - cbn. by rewrite app_nil_r.
Qed.

Lemma length_inserts (db : DbEnv) (k : nat) (rows : list Patient.row) :
  length (inserts db k rows) = length rows.
Proof.
  revert k. induction rows as [|row rows IH]; intros k; [done|].
  cbn [inserts length]. by rewrite IH.
Qed.

Lemma load_patients_fail (db : DbEnv) (self : Generator) (k : nat)
    (e : PyExn) (log : list DbCall) :
  (k < length (load_statements db self))%nat ->
  (forall j, (j < k)%nat -> execute_outcome db j = Ret tt) ->
  execute_outcome db k = Raise e ->
  load_patients db self log
  = (Raise e, log ++ take (S k) (load_statements db self)).
Proof.
  unfold load_patients, load_statements.
  destruct (patients self) as [ps|]; intros Hk Hok He; [|simpl in Hk; lia].
  rewrite db_bind_call. destruct k as [|k].
  - rewrite He. cbn [take]. by rewrite take_0.
  - rewrite (Hok 0%nat) by lia.
    cbn [length] in Hk. rewrite length_inserts in Hk.
    rewrite (insert_patients_fail db ps 1 k e).
    + cbn [take]. by rewrite <- app_assoc.
    + lia.
    + intros i Hi. apply Hok. lia.
    + exact He.
Qed.

Lemma load_cleanup_returns (db : DbEnv) (log : list DbCall) :
  cursor_close_outcome db = Ret tt -> connection_close_outcome db = Ret tt ->
  (_ ← db_call CursorClose (cursor_close_outcome db);
   db_call ConnectionClose (connection_close_outcome db)) log
  = (Ret tt, log ++ [CursorClose; ConnectionClose]).
Proof.
  intros Hcc Hxc. rewrite db_bind_call, Hcc. unfold db_call.
  by rewrite Hxc, <- app_assoc.
Qed.

Lemma load_to_snowflake_opening (config : PyObject) (db : DbEnv)
    (self : Generator) (user password account warehouse database : string) :
  getattr config "user" = Ret user ->
  getattr config "password" = Ret password ->
  getattr config "account" = Ret account ->
  getattr config "warehouse" = Ret warehouse ->
  getattr config "database" = Ret database ->
  load_to_snowflake config db self [] =
    match connect_outcome_db db, cursor_outcome db with
    | Raise e, _ =>
        (Raise e, [Connect user password account warehouse database "RAW"])
    | Ret _, Raise e =>
        (Raise e,
         [Connect user password account warehouse database "RAW"; GetCursor])
    | Ret _, Ret _ =>
        db_finally
          (db_try_except (load_body db self)
             (λ e, db_call Rollback (rollback_outcome db)))
          (_ ← db_call CursorClose (cursor_close_outcome db);
           db_call ConnectionClose (connection_close_outcome db))
          [Connect user password account warehouse database "RAW"; GetCursor]
    end.
Proof.
  intros Hu Hp Ha Hw Hd. unfold load_to_snowflake.
  rewrite db_bind_lift, Hu, db_bind_lift, Hp, db_bind_lift, Ha,
    db_bind_lift, Hw, db_bind_lift, Hd.
  rewrite db_bind_call. destruct (connect_outcome_db db) as [[]|e]; [|done].
  rewrite db_bind_call. by destruct (cursor_outcome db) as [[]|e].
Qed.

(** X19: the calls of a load.  For a configuration object that has the
    attributes [user], [password], [account], [warehouse] and [database],
    a connector that hands out the connection and the cursor, and
    [rollback] and [close] calls that return, [load_to_snowflake] returns
    normally whether or not the load went through (a failure is only
    printed).  It connects with schema RAW and obtains a cursor; it then
    executes the TRUNCATE of RAW.PATIENTS_CDC and one INSERT per patient, in
    table order, up to and including the first statement that raises; it
    calls [commit] when no statement raised, and [rollback] when a
    statement or the commit raised; it always ends by closing the cursor
    and the connection.  Encounters and lab results are never written. *)
Theorem load_call_sequence (config : PyObject) (db : DbEnv)
    (self : Generator) (user password account warehouse database : string) :
  getattr config "user" = Ret user ->
  getattr config "password" = Ret password ->
  getattr config "account" = Ret account ->
  getattr config "warehouse" = Ret warehouse ->
  getattr config "database" = Ret database ->
  connect_outcome_db db = Ret tt -> cursor_outcome db = Ret tt ->
  rollback_outcome db = Ret tt -> cursor_close_outcome db = Ret tt ->
  connection_close_outcome db = Ret tt ->
  let opening :=
    [Connect user password account warehouse database "RAW"; GetCursor] in
  let closing := [CursorClose; ConnectionClose] in
  let stmts := load_statements db self in
  ((forall k, (k < length stmts)%nat -> execute_outcome db k = Ret tt) ->
   load_to_snowflake config db self []
   = (Ret tt,
      opening ++ stmts
      ++ Commit :: match commit_outcome db with
                   | Ret _ => []
                   | Raise _ => [Rollback]
                   end ++ closing)) /\
  (forall k e,
      (k < length stmts)%nat ->
      (forall j, (j < k)%nat -> execute_outcome db j = Ret tt) ->
      execute_outcome db k = Raise e ->
      load_to_snowflake config db self []
      = (Ret tt, opening ++ take (S k) stmts ++ [Rollback] ++ closing)).
Proof.
  intros Hu Hp Ha Hw Hd Hconn Hcur Hroll Hcc Hxc opening closing stmts.
  rewrite (load_to_snowflake_opening config db self _ _ _ _ _ Hu Hp Ha Hw Hd).
  rewrite Hconn, Hcur. fold opening.
  unfold db_finally, db_try_except, load_body.
  split.
  - intros Hok. unfold mbind at 1, Db_bind, db_bind.
    rewrite (load_patients_ok db self opening Hok).
    unfold db_call at 1.
    destruct (commit_outcome db) as [[]|e].
    + rewrite (load_cleanup_returns db _ Hcc Hxc).
      by rewrite <- !app_assoc.
    + unfold db_call at 1. rewrite Hroll.
      rewrite (load_cleanup_returns db _ Hcc Hxc).
      by rewrite <- !app_assoc.
  - intros k e Hk Hok He. unfold mbind at 1, Db_bind, db_bind.
    rewrite (load_patients_fail db self k e opening Hk Hok He).
    unfold db_call at 1. rewrite Hroll.
    rewrite (load_cleanup_returns db _ Hcc Hxc).
    by rewrite <- !app_assoc.
Qed.

Lemma load_call_sequence_witness :
  load_to_snowflake patched_config failing_db sample_generator []
  = (Ret tt,
     [ Connect "" "" "" "CLINICAL_INIT_WH" "CLINICAL_DATA_PIPELINE" "RAW";
       GetCursor;
       Truncate "RAW.PATIENTS_CDC";
       Insert "RAW.PATIENTS_CDC" "INSERT" 1790000000000001 sample_patient;
       Rollback; CursorClose; ConnectionClose ]).
Proof.
  exact (proj2 (load_call_sequence patched_config failing_db sample_generator
                  "" "" "" "CLINICAL_INIT_WH" "CLINICAL_DATA_PIPELINE"
                  eq_refl eq_refl eq_refl eq_refl eq_refl
                  eq_refl eq_refl eq_refl eq_refl eq_refl)
           1%nat (DatabaseError "002003: table does not exist")
           ltac:(vm_compute; lia)
           ltac:(intros [|j] Hj; [reflexivity|lia])
           eq_refl).
Defined.

(** X21: what stops a load before its [try].  With a [SnowflakeConfig]
    of [config.py], whatever its fields, and so with the one read from the
    environment, [load_to_snowflake] raises [AttributeError] for the missing
    attribute [warehouse] before it makes any call on the connector.  With
    a configuration object that has the attributes, an exception of
    [connect] escapes after that single call, and an exception of
    [conn.cursor()] escapes with the connection left unclosed. *)
Theorem load_stops_before_the_try (db : DbEnv) (self : Generator) :
  (forall user password account warehouse_init warehouse_cdc
          warehouse_interactive database schema role,
      load_to_snowflake
        (SnowflakeConfig user password account warehouse_init warehouse_cdc
           warehouse_interactive database schema role) db self []
      = (Raise (AttributeError
                  "'SnowflakeConfig' object has no attribute 'warehouse'"),
         [])) /\
  (forall getenv,
      load_to_snowflake (from_env getenv) db self []
      = (Raise (AttributeError
                  "'SnowflakeConfig' object has no attribute 'warehouse'"),
         [])) /\
  (forall config user password account warehouse database,
      getattr config "user" = Ret user ->
      getattr config "password" = Ret password ->
      getattr config "account" = Ret account ->
      getattr config "warehouse" = Ret warehouse ->
      getattr config "database" = Ret database ->
      (forall e,
          connect_outcome_db db = Raise e ->
          load_to_snowflake config db self []
          = (Raise e,
             [Connect user password account warehouse database "RAW"])) /\
      (forall e,
          connect_outcome_db db = Ret tt -> cursor_outcome db = Raise e ->
          load_to_snowflake config db self []
          = (Raise e,
             [Connect user password account warehouse database "RAW";
              GetCursor]))).
Proof.
  split; [|split].
  - intros. reflexivity.
  - intros. reflexivity.
  - intros config user password account warehouse database Hu Hp Ha Hw Hd.
    rewrite (load_to_snowflake_opening config db self _ _ _ _ _
               Hu Hp Ha Hw Hd).
    split.
    + by intros e ->.
    + by intros e -> ->.
Qed.

Lemma load_stops_before_the_try_witness :
  load_to_snowflake patched_config unreachable_db sample_generator []
  = (Raise (DatabaseError "250001: Could not connect"),
     [Connect "" "" "" "CLINICAL_INIT_WH" "CLINICAL_DATA_PIPELINE" "RAW"]).
Proof.
  destruct (load_stops_before_the_try unreachable_db sample_generator)
    as (_ & _ & Hrest).
  destruct (Hrest patched_config "" "" "" "CLINICAL_INIT_WH"
              "CLINICAL_DATA_PIPELINE" eq_refl eq_refl eq_refl eq_refl
              eq_refl) as [Hconnect _].
  exact (Hconnect _ eq_refl).
Defined.

(** ** The form of the identifiers *)

Lemma list_ascii_app (a b : string) :
  String.list_ascii_of_string (a +:+ b)
  = String.list_ascii_of_string a ++ String.list_ascii_of_string b.
Proof. induction a as [|c a IH]; [done|]. simpl. f_equal. exact IH. Qed.

Lemma string_length_list (s : string) :
  String.length s = length (String.list_ascii_of_string s).
Proof. induction s as [|c s IH]; [done|]. simpl. f_equal. exact IH. Qed.

Lemma list_ascii_substring0 (n : nat) (s : string) :
  String.list_ascii_of_string (String.substring 0 n s)
  = take n (String.list_ascii_of_string s).
Proof.
  revert s. induction n as [|n IH]; intros [|c s]; simpl; try done.
  f_equal. apply IH.
Qed.

Lemma list_ascii_upper (s : string) :
  String.list_ascii_of_string (upper s) = to_upper <$> String.list_ascii_of_string s.
Proof.
  induction s as [|c s IH]; [done|]. simpl. f_equal. exact IH.
Qed.

Lemma hex_digit_upper (d : Z) :
  to_upper (hex_digit (d mod 16))
    ∈ String.list_ascii_of_string "0123456789ABCDEF".
Proof.
  pose proof (Z.mod_pos_bound d 16 ltac:(lia)) as Hd.
  assert (exists k, (k < 16)%nat /\ d mod 16 = Z.of_nat k) as (k & Hk & ->).
  { exists (Z.to_nat (d mod 16)). lia. }
  do 16 (destruct k as [|k]; [apply (bool_decide_unpack _); by vm_compute|]).
  lia.
Qed.

Lemma hex_digits_spec (digits : nat) (n : Z) :
  length (String.list_ascii_of_string (hex_digits digits n)) = digits /\
  Forall (λ c, to_upper c ∈ String.list_ascii_of_string "0123456789ABCDEF")
         (String.list_ascii_of_string (hex_digits digits n)).
Proof.
  revert n. induction digits as [|d IH]; intros n; cbn [hex_digits].
  - split; [done|constructor].
  - destruct (IH (n / 16)) as [Hlen Hall].
    rewrite list_ascii_app, length_app, Hlen. cbn [String.list_ascii_of_string].
    split; [simpl; lia|]. apply Forall_app. split; [done|].
    constructor; [apply hex_digit_upper|constructor].
Qed.

Lemma post_new_id (prefix : string) :
  gen_post (new_id prefix) (id_format prefix).
Proof.
  unfold new_id. eapply post_bind; [apply post_trivial|]. intros u _.
  apply post_ret. unfold id_format, uuid_hex.
  exists (upper (String.substring 0 8 (hex_digits 32 u))).
  destruct (hex_digits_spec 32 u) as [Hlen Hall].
  split; [done|].
  rewrite string_length_list, list_ascii_upper, list_ascii_substring0.
  split.
  - rewrite length_fmap, length_take, Hlen. done.
  - apply Forall_fmap. apply Forall_take. exact Hall.
Qed.

Lemma post_new_patient_id :
  gen_post new_patient (λ p, id_format "PAT" (Patient.PATIENT_ID p)).
Proof.
  unfold new_patient.
  eapply post_bind; [apply post_new_id|]. intros pid Hpid.
  do 14 (eapply post_bind; [apply post_trivial|]; intros ? _).
  by apply post_ret.
Qed.

Lemma post_new_encounter_id (p : Patient.row) :
  gen_post (new_encounter p)
    (λ e, id_format "ENC" (Encounter.ENCOUNTER_ID e) /\
          Encounter.PATIENT_ID e = Patient.PATIENT_ID p).
Proof.
  unfold new_encounter.
  do 4 (eapply post_bind; [apply post_trivial|]; intros ? _).
  eapply post_bind; [apply post_new_id|]. intros eid Heid.
  do 4 (eapply post_bind; [apply post_trivial|]; intros ? _).
  by apply post_ret.
Qed.

Lemma post_new_lab_result_id (e : Encounter.row) (test_code : string) :
  gen_post (new_lab_result e test_code)
    (λ l, id_format "LAB" (LabResult.LAB_RESULT_ID l) /\
          LabResult.ENCOUNTER_ID l = Encounter.ENCOUNTER_ID e /\
          LabResult.PATIENT_ID l = Encounter.PATIENT_ID e).
Proof.
  unfold new_lab_result.
  do 4 (eapply post_bind; [apply post_trivial|]; intros ? _).
  eapply post_bind; [apply post_new_id|]. intros lid Hlid.
  by apply post_ret.
Qed.

(** X20: every identifier of a generated dataset has the same form: a
    PATIENT_ID is [PAT-] followed by eight upper-case hexadecimal digits,
    an ENCOUNTER_ID is [ENC-] and a LAB_RESULT_ID is [LAB-] followed by
    eight such digits, and the foreign keys of encounters and lab results
    have the form of the key they refer to. *)
Theorem identifiers_well_formed (N : Z) (lam1 lam2 : Q) (w w' : World)
    (g : Generator) :
  generate_dataset N lam1 lam2 w = Ret (g, w') ->
  exists ps es ls,
    patients g = Some ps /\ encounters g = Some es /\
    lab_results g = Some ls /\
    Forall (λ p, id_format "PAT" (Patient.PATIENT_ID p)) ps /\
    Forall (λ e, id_format "ENC" (Encounter.ENCOUNTER_ID e) /\
                 id_format "PAT" (Encounter.PATIENT_ID e)) es /\
    Forall (λ l, id_format "LAB" (LabResult.LAB_RESULT_ID l) /\
                 id_format "ENC" (LabResult.ENCOUNTER_ID l) /\
                 id_format "PAT" (LabResult.PATIENT_ID l)) ls.
Proof.
  unfold generate_dataset.
  intros (g1 & w1 & H1 & (g2 & w2 & H2 & H3)%gen_bind_inv)%gen_bind_inv.
  (* patients *)
  unfold generate_patients in H1.
  apply gen_bind_inv in H1 as (ps & w0 & Hps & Hret1).
  injection Hret1 as <- <-.
  pose proof (post_repeat_gen _ _ _ post_new_patient_id _ _ _ Hps)
    as [Hpat _].
  (* encounters *)
  unfold generate_encounters in H2. cbn [patients] in H2.
  apply gen_bind_inv in H2 as (es & w3 & Hes & Hret2).
  injection Hret2 as <- <-.
  assert (Forall (λ e, exists p, p ∈ ps /\
                    id_format "ENC" (Encounter.ENCOUNTER_ID e) /\
                    Encounter.PATIENT_ID e = Patient.PATIENT_ID p) es)
    as Henc.
  { eapply (post_for_each ps _
              (λ p e, id_format "ENC" (Encounter.ENCOUNTER_ID e) /\
                      Encounter.PATIENT_ID e = Patient.PATIENT_ID p));
      [|exact Hes].
    intros p _. unfold encounters_of_patient.
    eapply post_bind; [apply post_trivial|]. intros n _.
    eapply post_weaken; [apply post_repeat_gen, post_new_encounter_id|].
    by intros rows [? _]. }
  (* lab results *)
  unfold generate_lab_results in H3. cbn [encounters] in H3.
  apply gen_bind_inv in H3 as (ls & w4 & Hls & Hret3).
  injection Hret3 as <- <-.
  assert (Forall (λ l, exists e, e ∈ es /\
                    id_format "LAB" (LabResult.LAB_RESULT_ID l) /\
                    LabResult.ENCOUNTER_ID l = Encounter.ENCOUNTER_ID e /\
                    LabResult.PATIENT_ID l = Encounter.PATIENT_ID e) ls)
    as Hlab.
  { eapply (post_for_each es _
              (λ e l, id_format "LAB" (LabResult.LAB_RESULT_ID l) /\
                      LabResult.ENCOUNTER_ID l = Encounter.ENCOUNTER_ID e /\
                      LabResult.PATIENT_ID l = Encounter.PATIENT_ID e));
      [|exact Hls].
    intros e _. unfold labs_of_encounter. case_decide.
    { apply post_ret. constructor. }
    do 2 (eapply post_bind; [apply post_trivial|]; intros ? _).
    eapply post_weaken;
      [apply (post_mapM _ _
                (λ _ l, id_format "LAB" (LabResult.LAB_RESULT_ID l) /\
                        LabResult.ENCOUNTER_ID l = Encounter.ENCOUNTER_ID e /\
                        LabResult.PATIENT_ID l = Encounter.PATIENT_ID e));
       intros; apply post_new_lab_result_id|].
    intros rows HF. cbv beta in HF. apply Forall2_exists_l in HF.
    eapply Forall_impl; [exact HF|]. by intros l [_ ?]. }
  exists ps, es, ls. cbn [patients encounters lab_results].
  split; [done|]. split; [done|]. split; [done|]. split; [done|].
  rewrite Forall_forall in Hpat. rewrite Forall_forall in Henc.
  rewrite Forall_forall in Hlab.
  assert (forall e, e ∈ es ->
            id_format "ENC" (Encounter.ENCOUNTER_ID e) /\
            id_format "PAT" (Encounter.PATIENT_ID e)) as Henc'.
  { intros e (p & Hp & Hid & ->)%Henc. split; [done|]. by apply Hpat. }
  split; apply Forall_forall.
  - exact Henc'.
  - intros l (e & He & Hid & -> & ->)%Hlab.
    destruct (Henc' e He). done.
Qed.

Lemma identifiers_well_formed_witness :
  exists g w',
    generate_dataset 1 5 3 (seeded_world entropy_a clock_a) = Ret (g, w') /\
    exists ps,
      patients g = Some ps /\
      Forall (λ p, id_format "PAT" (Patient.PATIENT_ID p)) ps.
Proof.
  destruct (total_generate_dataset 1 5 3 ltac:(discriminate)
              ltac:(discriminate) (seeded_world entropy_a clock_a))
    as (g & w' & Hrun).
  exists g, w'. split; [exact Hrun|].
  destruct (identifiers_well_formed _ _ _ _ _ _ Hrun)
    as (ps & es & ls & Hps & _ & _ & Hpat & _).
  exists ps. split; [exact Hps|exact Hpat].
Defined.
